(** * Voix: temporary-artifact lifecycle of the Coqui TTS voice generator

    A shallow embedding of [app.py]: the Streamlit script that loads a
    pretrained speech model, synthesises the typed text into a temporary
    [.wav] file, hands the bytes to the page and removes the file.

    Python code is embedded in a state-and-exception monad over a [world]
    that holds the file system, the Streamlit session state, the resource
    cache, the [atexit] registry and the log of what the page displayed.
    The third-party pieces ([TTS], [torch], [tempfile]) and the
    directories that [glob] finds for a directory pattern are oracles
    stored in the world; nothing about them is assumed beyond their
    types.

    Embedded: [cleanup_temp_files], [cleanup_orphaned_files], the
    [atexit] registration and the interpreter's exit, [load_tts_model]
    with its cache, [generate_audio], [test_voice_loading], [main] and
    the body of [load_all_models], which nothing calls.

    Conventions: paths are absolute and normalised, so a file is named
    by one string; a [str] is held as its UTF-8 encoding, and what
    Python does character by character ([len], [strip], slicing) goes
    through [py_chars]; floats are binary64 numbers, computed as the
    standard library's [SpecFloat] does; file contents are byte
    lists; times are whole seconds and the clock stands still while one
    function runs; exceptions are the subclasses of [Exception], which
    is all the script's handlers tell apart. *)

From Stdlib Require Import ZArith QArith.QArith_base String Ascii List.
From Stdlib Require Import Floats.SpecFloat.
From stdpp Require Import gmap strings list fin_maps pretty.

Local Open Scope string_scope.
Local Open Scope Z_scope.

(** ** Python values used by the script *)

(** An exception object (a subclass of [Exception]); [str(e)] is
    [exn_msg]. *)
Record exn := Exn { exn_class : string; exn_msg : string }.

(** The result of running a piece of Python: a value or a raised
    exception. *)
Inductive outcome (A : Type) : Type :=
| Return (a : A)
| Raise (e : exn).
Arguments Return {A} a.
Arguments Raise {A} e.

Definition bytes := list Byte.byte.

(** Truthiness of a value that is [None] or a [str]. *)
Definition truthy_str (o : option string) : bool :=
  match o with
  | Some s => negb (String.eqb s "")
  | None => false
  end.

(** An attribute of a Python object that, when present, is [None] or a
    list of names. *)
Inductive pyattr :=
| AttrMissing
| AttrNone
| AttrList (l : list string).

(** [hasattr(obj, name)]. *)
Definition hasattr (a : pyattr) : bool :=
  match a with
  | AttrMissing => false
  | _ => true
  end.

(** Truthiness of the attribute's value. *)
Definition truthy_attr (a : pyattr) : bool :=
  match a with
  | AttrList (_ :: _) => true
  | _ => false
  end.

(** [needle in hay] on strings. *)
Fixpoint str_in (needle hay : string) : bool :=
  String.prefix needle hay ||
  match hay with
  | EmptyString => false
  | String _ hay' => str_in needle hay'
  end.

(** [s.endswith(suf)]. *)
Definition str_endswith (suf s : string) : bool :=
  (String.length suf <=? String.length s)%nat &&
  String.eqb (String.substring (String.length s - String.length suf)
                               (String.length suf) s) suf.

(** A byte that continues a UTF-8 character: [10xxxxxx]. *)
Definition is_continuation (c : ascii) : bool :=
  let n := nat_of_ascii c in ((128 <=? n) && (n <? 192))%nat.

(** The characters of a [str]: each is a lead byte with the
    continuation bytes that follow it. *)
Fixpoint py_chars (s : string) : list string :=
  match s with
  | EmptyString => []
  | String c s' =>
      match py_chars s' with
      | (String d _ as ch) :: chs =>
          if is_continuation d then String c ch :: chs
          else String c EmptyString :: ch :: chs
      | chs => String c EmptyString :: chs
      end
  end.

(** [len(s)]. *)
Definition py_len (s : string) : nat := length (py_chars s).

(** [s[:n]]. *)
Definition py_take (n : nat) (s : string) : string :=
  fold_right String.append EmptyString (take n (py_chars s)).

(** The code point of one character: the payload bits of the lead byte
    followed by six bits of each continuation byte. *)
Definition char_code (ch : string) : N :=
  match ch with
  | EmptyString => 0%N
  | String c rest =>
      let n := N_of_ascii c in
      let lead := (if n <? 128 then n
                   else if n <? 224 then n mod 32
                   else if n <? 240 then n mod 16
                   else n mod 8)%N in
      fold_left (fun acc d => (acc * 64 + N_of_ascii d mod 64)%N)
                (list_ascii_of_string rest) lead
  end.

(** Whitespace as [str.strip()] and [str.isspace()] see it: the
    characters U+0009 to U+000D, U+001C to U+0020, U+0085, U+00A0,
    U+1680, U+2000 to U+200A, U+2028, U+2029, U+202F, U+205F and
    U+3000. *)
Definition is_space (n : N) : bool :=
  ((9 <=? n) && (n <=? 13) || (28 <=? n) && (n <=? 32)
   || (n =? 133) || (n =? 160) || (n =? 5760)
   || (8192 <=? n) && (n <=? 8202)
   || (n =? 8232) || (n =? 8233) || (n =? 8239) || (n =? 8287)
   || (n =? 12288))%N.

(** Truthiness of [s.strip()]: some character is not whitespace. *)
Definition strip_truthy (s : string) : bool :=
  existsb (fun ch => negb (is_space (char_code ch))) (py_chars s).

Definition nl : string := String (ascii_of_nat 10) EmptyString.

(** The double quote. *)
Definition dq : string := String (ascii_of_nat 34) EmptyString.

(** The no-break space U+00A0. *)
Definition nbsp : string :=
  String (ascii_of_nat 194) (String (ascii_of_nat 160) EmptyString).

(** ** Python floats *)

(** Binary64: 53 bits of precision, exponents below 1024. *)
Definition prec64 : Z := 53.
Definition emax64 : Z := 1024.

(** The float nearest to a quotient of integers, which is how a float is
    written down here: [7#10] stands for the float [0.7]. *)
Definition float_of_Q (q : Q) : spec_float :=
  SFdiv prec64 emax64
    (binary_normalize prec64 emax64 (Qnum q) 0 false)
    (binary_normalize prec64 emax64 (Zpos (Qden q)) 0 false).

(** [abs(x - y)] on floats. *)
Definition float_gap (x y : Q) : spec_float :=
  SFabs (SFsub prec64 emax64 (float_of_Q x) (float_of_Q y)).

(** ** The synthesis provider *)

(** One [model.tts_to_file(...)] call; a keyword that is not passed is
    [None], the provider's own default. [speed] is a Python float,
    written as a rational. *)
Record tts_call := TtsCall {
  c_text : string;
  c_speaker : option string;
  c_language : option string;
  c_file_path : string;
  c_speed : Q
}.

(** What a synthesis call does: it fills the file and returns, or it
    raises, leaving the file with some partial contents ([Some d]) or
    removed ([None]). *)
Inductive synth_outcome :=
| SynthOk (data : bytes)
| SynthErr (e : exn) (left_behind : option bytes).

(** A loaded [TTS] object: the attributes the script inspects and its
    synthesis method. *)
Record TTS := MkTTS {
  languages : pyattr;
  speakers : pyattr;
  tts_to_file : tts_call -> synth_outcome
}.

(** The third-party loading API. *)
Record provider_env := {
  add_safe_globals : outcome unit;
  cuda_is_available : bool;
  TTS_init : string -> outcome TTS;
  TTS_to : TTS -> string -> outcome TTS
}.

(** ** The world *)

Record file := File { f_data : bytes; f_mtime : Z }.

(** The operating system as the script sees it. [locked] holds the paths
    on which [os.unlink] fails; [rand_names] is the supply of random
    name parts [tempfile] will draw. Directories are not part of [fs]:
    [dir_matches] gives the directories that [glob] finds for a
    directory pattern. Times are seconds since the epoch. *)
Record os_state := {
  fs : gmap string file;
  locked : gset string;
  tmpdir : string;
  tmp_writable : bool;
  rand_names : list string;
  now : Z;
  dir_matches : string -> list string
}.

(** [st.session_state]. *)
Record session_state := {
  temp_files_to_cleanup : gset string;
  tts_model : option TTS;
  available_voices : list (string * string);
  last_model_path : option string
}.

(** What the page shows, in the order of the calls. The input widgets
    are the [inputs] of a run; spinners and layout containers leave no
    element. *)
Inductive ui_event :=
| st_title (msg : string)
| st_header (msg : string)
| st_markdown (msg : string)
| st_expander (label : string)
| st_error (msg : string)
| st_success (msg : string)
| st_warning (msg : string)
| st_info (msg : string)
| st_write (msg : string)
| st_caption (msg : string)
| st_audio (data : bytes)
| st_download_button (data : bytes) (file_name : string).

Inductive atexit_fn := Fn_cleanup_temp_files.

(** [w_cache] and [w_replay] are the store of [st.cache_resource] for
    [load_tts_model]: the object a call returned and the page elements
    it produced. *)
Record world := {
  w_os : os_state;
  w_ss : session_state;
  w_env : provider_env;
  w_cache : gmap string (option TTS);
  w_replay : gmap string (list ui_event);
  w_atexit : list atexit_fn;
  w_calls : list tts_call;
  w_ui : list ui_event
}.

Definition set_os (f : os_state -> os_state) (w : world) : world :=
  {| w_os := f (w_os w); w_ss := w_ss w; w_env := w_env w;
     w_cache := w_cache w; w_replay := w_replay w;
     w_atexit := w_atexit w; w_calls := w_calls w;
     w_ui := w_ui w |}.

Definition set_ss (f : session_state -> session_state) (w : world) : world :=
  {| w_os := w_os w; w_ss := f (w_ss w); w_env := w_env w;
     w_cache := w_cache w; w_replay := w_replay w;
     w_atexit := w_atexit w; w_calls := w_calls w;
     w_ui := w_ui w |}.

Definition set_fs (f : gmap string file -> gmap string file) (o : os_state)
  : os_state :=
  {| fs := f (fs o); locked := locked o; tmpdir := tmpdir o;
     tmp_writable := tmp_writable o; rand_names := rand_names o;
     now := now o; dir_matches := dir_matches o |}.

Definition set_rand_names (l : list string) (o : os_state) : os_state :=
  {| fs := fs o; locked := locked o; tmpdir := tmpdir o;
     tmp_writable := tmp_writable o; rand_names := l; now := now o;
     dir_matches := dir_matches o |}.

Definition set_tracked (f : gset string -> gset string) (s : session_state)
  : session_state :=
  {| temp_files_to_cleanup := f (temp_files_to_cleanup s);
     tts_model := tts_model s; available_voices := available_voices s;
     last_model_path := last_model_path s |}.

Definition set_model (m : option TTS) (p : option string) (s : session_state)
  : session_state :=
  {| temp_files_to_cleanup := temp_files_to_cleanup s;
     tts_model := m; available_voices := available_voices s;
     last_model_path := p |}.

(** Shorthands used in statements. *)
Definition disk (w : world) : gmap string file := fs (w_os w).
Definition tracking_set (w : world) : gset string :=
  temp_files_to_cleanup (w_ss w).

(** ** The monad: state passing with exceptions *)

Definition M (A : Type) : Type := world -> outcome A * world.

Definition ret {A} (a : A) : M A := fun w => (Return a, w).

Definition bind {A B} (m : M A) (k : A -> M B) : M B :=
  fun w =>
    match m w with
    | (Return a, w') => k a w'
    | (Raise e, w') => (Raise e, w')
    end.

Definition raise {A} (e : exn) : M A := fun w => (Raise e, w).

(** [try: body  except Exception as e: handler e] (also the bare
    [except:]). *)
Definition try_except {A} (body : M A) (handler : exn -> M A) : M A :=
  fun w =>
    match body w with
    | (Return a, w') => (Return a, w')
    | (Raise e, w') => handler e w'
    end.

Definition get : M world := fun w => (Return w, w).
Definition modify (f : world -> world) : M unit := fun w => (Return tt, f w).

Declare Scope py_scope.
Delimit Scope py_scope with py.
Notation "x <- m ;; k" := (bind m (fun x => k))
  (at level 100, m at next level, right associativity) : py_scope.
Notation "m ;; k" := (bind m (fun _ => k))
  (at level 100, right associativity) : py_scope.
Local Open Scope py_scope.

Definition pass : M unit := ret tt.

Definition when (b : bool) (m : M unit) : M unit := if b then m else pass.

(** [for x in l: body x]. *)
Fixpoint for_each {A} (l : list A) (body : A -> M unit) : M unit :=
  match l with
  | [] => pass
  | x :: l' => body x ;; for_each l' body
  end.

(** The page gets more elements. *)
Definition log_ui (evs : list ui_event) (w : world) : world :=
  {| w_os := w_os w; w_ss := w_ss w; w_env := w_env w;
     w_cache := w_cache w; w_replay := w_replay w;
     w_atexit := w_atexit w; w_calls := w_calls w;
     w_ui := w_ui w ++ evs |}.

(** A [st.error], [st.success], ... call. *)
Definition emit (e : ui_event) : M unit := modify (log_ui [e]).

(** ** The library calls the script makes *)

Definition FileNotFoundError (p : string) : exn :=
  Exn "FileNotFoundError" ("[Errno 2] No such file or directory: " +:+ p).
Definition PermissionError (p : string) : exn :=
  Exn "PermissionError" ("[Errno 13] Permission denied: " +:+ p).
Definition FileExistsError : exn :=
  Exn "FileExistsError" "[Errno 17] No usable temporary file name found".
Definition IndexError : exn :=
  Exn "IndexError" "list index out of range".
Definition TypeError : exn :=
  Exn "TypeError" "object of type 'NoneType' has no len()".

(** [os.path.exists(p)]. *)
Definition os_path_exists (p : string) : M bool :=
  fun w => (Return (bool_decide (is_Some (disk w !! p))), w).

(** [os.unlink(p)]: fails on a missing file and on a path the system
    refuses to remove; otherwise the file is gone. *)
Definition os_unlink (p : string) : M unit :=
  fun w =>
    match disk w !! p with
    | None => (Raise (FileNotFoundError p), w)
    | Some _ =>
        if bool_decide (p ∈ locked (w_os w))
        then (Raise (PermissionError p), w)
        else (Return tt, set_os (set_fs (delete p)) w)
    end.

(** [os.path.getmtime(p)]. *)
Definition os_path_getmtime (p : string) : M Z :=
  fun w =>
    match disk w !! p with
    | None => (Raise (FileNotFoundError p), w)
    | Some f => (Return (f_mtime f), w)
    end.

(** [time.time()]. *)
Definition time_time : M Z := fun w => (Return (now (w_os w)), w).

(** [with open(p, "rb") as f: f.read()]. *)
Definition open_read (p : string) : M bytes :=
  fun w =>
    match disk w !! p with
    | None => (Raise (FileNotFoundError p), w)
    | Some f => (Return (f_data f), w)
    end.

(** [tempfile.gettempdir()]. *)
Definition gettempdir : M string := fun w => (Return (tmpdir (w_os w)), w).

(** [os.path.join(dir, name)] for a relative [name]. *)
Definition os_path_join (dir name : string) : string :=
  if String.eqb dir "" then name
  else if str_endswith "/" dir then dir +:+ name
  else dir +:+ "/" +:+ name.

(** [os.path.split] at the last separator: directory and entry name. *)
Fixpoint os_path_split (s : string) : option (string * string) :=
  match s with
  | EmptyString => None
  | String c s' =>
      match os_path_split s' with
      | Some (h, t) => Some (String c h, t)
      | None => if Ascii.eqb c "/" then Some (EmptyString, s') else None
      end
  end.

(** [fnmatch] for patterns whose only special character is the star. *)
Fixpoint fnmatch (pat : string) : string -> bool :=
  match pat with
  | EmptyString => fun s => String.eqb s ""
  | String c pat' =>
      if Ascii.eqb c "*" then
        fix star (s : string) : bool :=
          fnmatch pat' s ||
          match s with
          | EmptyString => false
          | String _ s' => star s'
          end
      else
        fun s =>
          match s with
          | EmptyString => false
          | String d s' => Ascii.eqb c d && fnmatch pat' s'
          end
  end.

(** [c in s] for a single character. *)
Fixpoint has_char (c : ascii) (s : string) : bool :=
  match s with
  | EmptyString => false
  | String d s' => Ascii.eqb c d || has_char c s'
  end.

(** [glob.has_magic]: the string holds one of the characters that
    [glob] expands. *)
Definition has_magic (s : string) : bool :=
  has_char "*" s || has_char "?" s || has_char "[" s.

(** The entries of one directory: is the path [p] an entry of the
    directory named by the directory part of [pattern], taken
    literally, whose name matches the name part of [pattern]? The star
    never crosses a separator because only the entry name is matched. *)
Definition glob_match (pattern p : string) : bool :=
  match os_path_split pattern, os_path_split p with
  | Some (dir, pat), Some (d, base) => String.eqb d dir && fnmatch pat base
  | _, _ => false
  end.

(** The directories in which [glob] looks for the name part: the
    directory part itself when it has no magic character, otherwise the
    directories that match it. *)
Definition glob_dirs (o : os_state) (dir : string) : list string :=
  if has_magic dir then dir_matches o dir else [dir].

(** Is the path [p] among the results of [glob.glob(pattern)]? A
    pattern without a directory part is matched against the entries of
    the current directory, which are named without a separator. *)
Definition glob_selects (o : os_state) (pattern p : string) : bool :=
  match os_path_split pattern with
  | Some (dir, pat) =>
      existsb (fun d => glob_match (d +:+ "/" +:+ pat) p) (glob_dirs o dir)
  | None => negb (has_char "/" p) && fnmatch pattern p
  end.

(** [glob.glob(pattern)]: the existing paths that it finds. *)
Definition glob_glob (pattern : string) : M (list string) :=
  fun w =>
    (Return (List.filter (glob_selects (w_os w) pattern)
                         (elements (dom (disk w)))), w).

(** The name search of [tempfile]: the first candidate that is free. *)
Fixpoint pick_name (dir : string) (cands : list string)
  (files : gmap string file) : option (string * list string) :=
  match cands with
  | [] => None
  | r :: rest =>
      let p := os_path_join dir ("tmp" +:+ r +:+ ".wav") in
      match files !! p with
      | None => Some (p, rest)
      | Some _ => pick_name dir rest files
      end
  end.

(** [tempfile.NamedTemporaryFile(delete=False, suffix=".wav")]: creates
    an empty file with a fresh name in the temporary directory and
    yields its [.name]. *)
Definition NamedTemporaryFile_wav : M string :=
  fun w =>
    let o := w_os w in
    if tmp_writable o then
      match pick_name (tmpdir o) (rand_names o) (fs o) with
      | None => (Raise FileExistsError, w)
      | Some (p, rest) =>
          (Return p,
           set_os (fun o => set_rand_names rest
                              (set_fs (insert p (File [] (now o))) o)) w)
      end
    else (Raise (PermissionError (tmpdir o)), w).

(** [model.tts_to_file(...)]: the call is recorded and the provider's
    effect on the destination file is applied. *)
Definition log_call (c : tts_call) (w : world) : world :=
  {| w_os := w_os w; w_ss := w_ss w; w_env := w_env w;
     w_cache := w_cache w; w_replay := w_replay w;
     w_atexit := w_atexit w;
     w_calls := w_calls w ++ [c]; w_ui := w_ui w |}.

Definition call_tts_to_file (model : TTS) (c : tts_call) : M unit :=
  fun w =>
    let w1 := log_call c w in
    let t := now (w_os w) in
    match tts_to_file model c with
    | SynthOk d =>
        (Return tt, set_os (set_fs (insert (c_file_path c) (File d t))) w1)
    | SynthErr e (Some d) =>
        (Raise e, set_os (set_fs (insert (c_file_path c) (File d t))) w1)
    | SynthErr e None =>
        (Raise e, set_os (set_fs (delete (c_file_path c))) w1)
    end.

(** Lifting an oracle result into the monad. *)
Definition lift {A} (r : outcome A) : M A := fun w => (r, w).

(** ** app.py, lines 24-32: [cleanup_temp_files] *)

(** Where a function is called from. [st.session_state] stands for the
    state of the session whose script is running on the calling thread.
    The functions that [atexit] calls run when the interpreter shuts
    down, outside any script run; there [st.session_state] is an empty
    state with none of the keys the script has set. *)
Inductive caller := InScriptRun | AtExit.

(** What reading a key that is not set raises. [exn_msg] is the start of
    the message. *)
Definition AttributeError (key : string) : exn :=
  Exn "AttributeError"
      ("st.session_state has no attribute " +:+ dq +:+ key +:+ dq).

(** [st.session_state.temp_files_to_cleanup]. *)
Definition session_tracking_set (c : caller) : M (gset string) :=
  fun w =>
    match c with
    | InScriptRun => (Return (tracking_set w), w)
    | AtExit => (Raise (AttributeError "temp_files_to_cleanup"), w)
    end.

(** [st.session_state.temp_files_to_cleanup.discard(file_path)]. *)
Definition session_discard (c : caller) (file_path : string) : M unit :=
  _ <- session_tracking_set c;;
  modify (set_ss (set_tracked (fun s => s ∖ {[file_path]}))).

Definition cleanup_temp_files (c : caller) : M unit :=
  tracked <- session_tracking_set c;;
  for_each (elements tracked) (fun file_path =>
    try_except
      (ex <- os_path_exists file_path;;
       when ex (os_unlink file_path);;
       session_discard c file_path)
      (fun _ => pass)).

(** ** app.py, lines 34-48: [cleanup_orphaned_files] *)

Definition cleanup_orphaned_files : M unit :=
  try_except
    (temp_dir <- gettempdir;;
     let pattern := os_path_join temp_dir "tmp*.wav" in
     files <- glob_glob pattern;;
     for_each files (fun file_path =>
       try_except
         (mtime <- os_path_getmtime file_path;;
          t <- time_time;;
          when (mtime <? t - 3600) (os_unlink file_path))
         (fun _ => pass)))
    (fun _ => pass).

(** ** app.py, line 51: [atexit.register(cleanup_temp_files)] *)

Definition add_atexit (f : atexit_fn) (w : world) : world :=
  {| w_os := w_os w; w_ss := w_ss w; w_env := w_env w;
     w_cache := w_cache w; w_replay := w_replay w;
     w_atexit := w_atexit w ++ [f];
     w_calls := w_calls w; w_ui := w_ui w |}.

Definition atexit_register (f : atexit_fn) : M unit :=
  modify (add_atexit f).

Definition run_atexit_fn (f : atexit_fn) : M unit :=
  match f with
  | Fn_cleanup_temp_files => cleanup_temp_files AtExit
  end.

(** Interpreter shutdown: the registered functions run last-in
    first-out, outside any script run; an exception in one of them is
    reported and does not stop the others. *)
Definition process_exit : M unit :=
  w <- get;;
  for_each (rev (w_atexit w)) (fun f =>
    try_except (run_atexit_fn f) (fun _ => pass)).

(** ** app.py, lines 61-75: [load_tts_model] *)

(** Lines 65-72: the [try] block. *)
Definition load_attempt (model_name : string) : M (option TTS) :=
  w <- get;;
  lift (add_safe_globals (w_env w));;
  let device := if cuda_is_available (w_env w) then "cuda" else "cpu" in
  t0 <- lift (TTS_init (w_env w) model_name);;
  tts <- lift (TTS_to (w_env w) t0 device);;
  ret (Some tts).

(** The body of the function, without its decorator. *)
Definition load_tts_model_body (model_name : string) : M (option TTS) :=
  try_except (load_attempt model_name)
    (fun e =>
       emit (st_error ("Error loading model: " +:+ exn_msg e));;
       ret None).

Definition set_cache (k : string) (v : option TTS) (w : world) : world :=
  {| w_os := w_os w; w_ss := w_ss w; w_env := w_env w;
     w_cache := <[k := v]> (w_cache w); w_replay := w_replay w;
     w_atexit := w_atexit w; w_calls := w_calls w; w_ui := w_ui w |}.

Definition set_replay (k : string) (evs : list ui_event) (w : world)
  : world :=
  {| w_os := w_os w; w_ss := w_ss w; w_env := w_env w;
     w_cache := w_cache w; w_replay := <[k := evs]> (w_replay w);
     w_atexit := w_atexit w; w_calls := w_calls w; w_ui := w_ui w |}.

Definition cache_store (k : string) (v : option TTS) : M unit :=
  modify (set_cache k v).

(** The page elements kept for a cached call. *)
Definition replay_of (w : world) (k : string) : list ui_event :=
  default [] (w_replay w !! k).

(** [@st.cache_resource]: the body runs on the first call for a given
    argument; the object it returns is kept, together with the page
    elements it produced. Later calls get the kept object, and the kept
    elements are shown again. *)
Definition load_tts_model (model_name : string) : M (option TTS) :=
  w <- get;;
  match w_cache w !! model_name with
  | Some v => modify (log_ui (replay_of w model_name));; ret v
  | None =>
      v <- load_tts_model_body model_name;;
      w' <- get;;
      modify (set_replay model_name (drop (length (w_ui w)) (w_ui w')));;
      cache_store model_name v;;
      ret v
  end.

(** ** app.py, lines 77-114: [generate_audio] *)

(** Lines 84-99: which keywords the provider is called with. *)
Definition synthesis_call (text : string) (model : TTS)
  (speaker language : option string) (temp_file_path : string) (speed : Q)
  : tts_call :=
  if hasattr (languages model) && truthy_attr (languages model) then
    if truthy_str speaker && truthy_str language then
      TtsCall text speaker language temp_file_path speed
    else if truthy_str language then
      TtsCall text None language temp_file_path speed
    else
      TtsCall text None (Some "fr-fr") temp_file_path speed
  else if truthy_str speaker && hasattr (speakers model)
          && truthy_attr (speakers model) then
    TtsCall text speaker None temp_file_path speed
  else
    TtsCall text None None temp_file_path speed.

(** Lines 106-114: the [except Exception] handler. [temp_file_path] is
    still [None] when the exception came from creating the file. *)
Definition generate_audio_on_error (temp_file_path : option string) (e : exn)
  : M (option string) :=
  match temp_file_path with
  | Some p =>
      ex <- (if truthy_str temp_file_path then os_path_exists p
             else ret false);;
      when ex (try_except (os_unlink p) (fun _ => pass))
  | None => pass
  end;;
  emit (st_error ("Error generating audio: " +:+ exn_msg e));;
  ret None.

Definition generate_audio (text : string) (model : TTS)
  (speaker language : option string) (speed : Q) : M (option string) :=
  fun w =>
    match NamedTemporaryFile_wav w with
    | (Raise e, w1) => generate_audio_on_error None e w1
    | (Return temp_file_path, w1) =>
        try_except
          (call_tts_to_file model
             (synthesis_call text model speaker language temp_file_path
                             speed);;
           modify (set_ss (set_tracked (fun s => s ∪ {[temp_file_path]})));;
           ret (Some temp_file_path))
          (generate_audio_on_error (Some temp_file_path)) w1
    end.

(** ** app.py, lines 116-142: [test_voice_loading] *)

(** [d[k] = v] on an insertion-ordered dict. *)
Fixpoint dict_set (k v : string) (d : list (string * string))
  : list (string * string) :=
  match d with
  | [] => [(k, v)]
  | (k', v') :: d' =>
      if String.eqb k' k then (k, v) :: d' else (k', v') :: dict_set k v d'
  end.

(** [str(x)] for a value that is [None] or a [str]. *)
Definition str_of (o : option string) : string :=
  match o with
  | Some s => s
  | None => "None"
  end.

Definition french_voices : list (string * option string) :=
  [ ("tts_models/fr/css10/vits", None);
    ("tts_models/multilingual/multi-dataset/your_tts", Some "fr-fr") ].

Definition error_status (e : exn) : string :=
  "❌ Error: " +:+ py_take 50 (exn_msg e) +:+ "...".

Definition test_one_voice (env : provider_env)
  (test_results : list (string * string)) (v : string * option string)
  : list (string * string) :=
  let '(model_path, language) := v in
  let key := model_path +:+ "_" +:+ str_of language in
  match TTS_init env model_path with
  | Raise e => dict_set key (error_status e) test_results
  | Return tts =>
      let r1 := dict_set key "✅ Available" test_results in
      if str_in "your_tts" model_path && hasattr (speakers tts) then
        match speakers tts with
        | AttrList l =>
            dict_set (model_path +:+ "_speakers")
              ("✅ " +:+ pretty (length l) +:+ " speakers available") r1
        | _ => dict_set key (error_status TypeError) r1
        end
      else r1
  end.

Definition test_voice_loading : M (list (string * string)) :=
  w <- get;;
  ret (fold_left (test_one_voice (w_env w)) french_voices []).

(** ** app.py, lines 168-320: [main] *)

(** What the widgets return in one run of the script. [voice_speed] is
    the float the slider returns and [text_input] the text of the text
    area. *)
Record inputs := {
  test_button : bool;
  selected_voice_idx : nat;
  voice_speed : Q;
  text_input : string
}.

(** Lines 188-194: the voice table: label, model, speaker. *)
Definition voice_options : list (string * string * option string) :=
  [ ("👨 Pierre (Voix Masculine Claire)",
     "tts_models/fr/css10/vits", None);
    ("👩 Marie (Voix Féminine Douce)",
     "tts_models/multilingual/multi-dataset/your_tts", Some "female-en-5");
    ("👩 Sophie (Voix Féminine Naturelle)",
     "tts_models/multilingual/multi-dataset/your_tts",
     Some ("female-pt-4" +:+ nl));
    ("👨 Antoine (Voix Masculine Grave)",
     "tts_models/multilingual/multi-dataset/your_tts", Some "male-en-2");
    ("👨 Laurent (Voix Masculine Expressive)",
     "tts_models/multilingual/multi-dataset/your_tts",
     Some ("male-pt-3" +:+ nl)) ].

(** Lines 274-284: the page reads the artifact, shows it and removes the
    file. The value is [audio_bytes]. *)
Definition read_and_release (audio_file : string) : M bytes :=
  audio_bytes <- open_read audio_file;;
  emit (st_audio audio_bytes);;
  emit (st_download_button audio_bytes "read_text.wav");;
  os_unlink audio_file;;
  ret audio_bytes.

(** Lines 177-185: the voice-test button. *)
Definition main_test_button : M unit :=
  test_results <- test_voice_loading;;
  emit (st_write "**Voice Availability:**");;
  for_each test_results (fun '(voice_key, status) =>
    if str_in "Available" status
    then emit (st_success ("✅ " +:+ voice_key))
    else emit (st_error ("❌ " +:+ voice_key +:+ ": " +:+ status))).

(** Lines 200-208: load the model when none is loaded or the selection
    changed. *)
Definition main_autoload (model_path : string) : M unit :=
  w <- get;;
  when (negb (bool_decide (is_Some (tts_model (w_ss w))))
        || bool_decide (last_model_path (w_ss w) ≠ Some model_path))
    (m <- load_tts_model model_path;;
     modify (set_ss (set_model m (Some model_path)));;
     match m with
     | Some _ => emit (st_success "✅ Model loaded successfully!")
     | None => emit (st_error "❌ Failed to load model")
     end).

(** Lines 262-285: synthesise and play. *)
Definition main_reader (model_path : string) (speaker : option string)
  (i : inputs) : M unit :=
  w <- get;;
  match tts_model (w_ss w) with
  | Some model =>
      when (strip_truthy (text_input i))
        (audio_file <-
           (if str_in "your_tts" model_path && truthy_str speaker then
              generate_audio (text_input i) model speaker (Some "fr-fr")
                             (voice_speed i)
            else if truthy_str speaker then
              generate_audio (text_input i) model speaker None
                             (voice_speed i)
            else
              generate_audio (text_input i) model None None (voice_speed i));;
         match audio_file with
         | Some p =>
             when (truthy_str audio_file)
               (read_and_release p;;
                emit (st_success "✅ Reading complete!"))
         | None => pass
         end)
  | None => pass
  end.

(** Lines 230-237: the names of the speeds, in the order of the dict. *)
Definition speed_labels : list (Q * string) :=
  [ (5 # 10, "🐌 Très lent"); (7 # 10, "🚶 Lent"); (1, "👍 Normal");
    (13 # 10, "🏃 Rapide"); (15 # 10, "⚡ Très rapide");
    (2, "🚀 Ultra rapide") ]%Q.

(** Line 239: [min(speed_labels.keys(), key=...)], the first key among
    those nearest to the chosen speed. *)
Definition closest_speed (voice_speed : Q) : Q * string :=
  fold_left
    (fun best cand =>
       if SFltb (float_gap cand.1 voice_speed) (float_gap best.1 voice_speed)
       then cand else best)
    speed_labels (5 # 10, "🐌 Très lent")%Q.

(** Lines 239-241: the caption that names the chosen speed. *)
Definition speed_caption (voice_speed : Q) : list ui_event :=
  let '(closest, label) := closest_speed voice_speed in
  if SFleb (float_gap closest voice_speed) (float_of_Q (1 # 10))
  then [st_caption ("📊 " +:+ label)] else [].

(** Lines 289-316: the text of the help panel. *)
Definition usage_help : string :=
  "
        ### Pour Commencer:
        1. **Tester les Voix**: Cliquez sur " +:+ dq +:+
  "🧪 Test Voice Loading" +:+ dq +:+
  " pour vérifier quelles voix françaises sont disponibles
        2. **Choisir une Voix**: Sélectionnez une voix française dans le menu déroulant
        3. **Saisir le Texte**: Tapez ou collez le texte français que vous voulez convertir en parole
        4. **Écouter**: L'audio se génère automatiquement et vous pouvez l'écouter directement
        5. **Télécharger**: Cliquez sur " +:+ dq +:+
  "💾 Download Audio" +:+ dq +:+
  " pour sauvegarder le fichier
        
        ### Voix Françaises Disponibles:
        - 🇫🇷 **CSS10**: Voix française masculine naturelle et claire
        - 🇫🇷 **YourTTS**: 4 voix françaises distinctes (2 femmes, 2 hommes) avec différentes caractéristiques vocales
        
        ### Toutes les Voix Parlent Français:
        - ✅ Toutes les options génèrent une parole française naturelle
        - 🎭 Chaque voix offre un timbre et une personnalité différents
        - 🔄 Testez différentes voix pour trouver celle qui convient le mieux à votre texte
        
        ### À Noter:
        - ✅ CSS10: Une seule voix masculine française de qualité
        - 🎭 YourTTS: 6 voix distinctes (3 hommes, 3 femmes) entraînées multilingues
        - 🔄 Changez entre CSS10 et YourTTS pour des voix complètement différentes
        
        ### Conseils:
        - 💡 Les textes plus courts se génèrent plus rapidement
        - 🖥️ L'accélération GPU est utilisée automatiquement si disponible
        - 🧪 Utilisez le test de voix pour vérifier la compatibilité avant utilisation
        - 📝 Essayez différents textes pour comparer les voix
        ".

(** The page before the voice-test button. *)
Definition page_head : list ui_event :=
  [ st_title "🎤 Coqui TTS Voice Generator";
    st_markdown "Generate natural-sounding speech from text using Coqui TTS";
    st_header "🗣️ Choisir une Voix Française" ].

(** The page after the reader: the help panel and the footer. *)
Definition page_foot : list ui_event :=
  [ st_expander "📖 Comment Utiliser";
    st_markdown usage_help;
    st_markdown "---";
    st_markdown ("Construit avec ❤️ en utilisant " +:+
      "[Coqui TTS](https://github.com/coqui-ai/TTS) et Streamlit | " +:+
      "Spécialisé pour le Français") ].

Definition main (i : inputs) : M unit :=
  modify (log_ui page_head);;
  when (test_button i) main_test_button;;
  match voice_options !! selected_voice_idx i with
  | None => raise IndexError
  | Some (_, model_path, speaker) =>
      main_autoload model_path;;
      w <- get;;
      (match tts_model (w_ss w) with
       | Some _ => emit (st_success "✅ Model Ready")
       | None => emit (st_warning "⚠️ Please load a model first")
       end);;
      emit (st_info ("🖥️ Using: " +:+
              (if cuda_is_available (w_env w) then "CUDA (GPU)" else "CPU")));;
      emit (st_header "⚡ Contrôle de Vitesse");;
      modify (log_ui (speed_caption (voice_speed i)));;
      emit (st_header "📝 Text Input");;
      let char_count := py_len (text_input i) in
      emit (st_caption ("Characters: " +:+ pretty char_count));;
      when (1000 <? char_count)%nat
        (emit (st_warning "⚠️ Long texts may take more time to process"));;
      emit (st_header "🔊 Text Reader");;
      main_reader model_path speaker i;;
      modify (log_ui page_foot)
  end.

(** ** The script as Streamlit runs it *)

(** Lines 21-22 and 54-59 give a session its keys the first time the
    script runs in it. *)
Definition new_session : session_state :=
  {| temp_files_to_cleanup := ∅; tts_model := None;
     available_voices := []; last_model_path := None |}.

(** One run of the script, top to bottom: line 51 registers the exit
    hook, line 323 calls [main]. *)
Definition app_script (i : inputs) : M unit :=
  atexit_register Fn_cleanup_temp_files;;
  main i.

(** ** The loops, one iteration at a time *)

(** What one iteration of the loop of [cleanup_temp_files] does to the
    world. *)
Definition cleanup_step (w : world) (p : string) : world :=
  match disk w !! p with
  | None => set_ss (set_tracked (fun s => s ∖ {[p]})) w
  | Some _ =>
      if bool_decide (p ∈ locked (w_os w)) then w
      else set_ss (set_tracked (fun s => s ∖ {[p]}))
             (set_os (set_fs (delete p)) w)
  end.

(** The sweep's test on one path: the file is there, is older than an
    hour, and the system lets it go. *)
Definition sweep_deletes (w : world) (p : string) : bool :=
  match disk w !! p with
  | None => false
  | Some f =>
      (f_mtime f <? now (w_os w) - 3600)
      && negb (bool_decide (p ∈ locked (w_os w)))
  end.

(** What one iteration of the loop of [cleanup_orphaned_files] does. *)
Definition sweep_step (w : world) (p : string) : world :=
  if sweep_deletes w p then set_os (set_fs (delete p)) w else w.

(** The glob pattern of the sweep in the world [w]. *)
Definition orphan_pattern (w : world) : string :=
  os_path_join (tmpdir (w_os w)) "tmp*.wav".

(** The world right after [NamedTemporaryFile] made the empty file [p]. *)
Definition created (p : string) (rest : list string) (w : world) : world :=
  set_os (fun o => set_rand_names rest
                     (set_fs (insert p (File [] (now o))) o)) w.

(** The three third-party calls of [load_attempt], as a value. *)
Definition load_result (env : provider_env) (model_name : string)
  : outcome (option TTS) :=
  match add_safe_globals env with
  | Raise e => Raise e
  | Return _ =>
      match TTS_init env model_name with
      | Raise e => Raise e
      | Return t0 =>
          match TTS_to env t0 (if cuda_is_available env then "cuda" else "cpu")
          with
          | Raise e => Raise e
          | Return tts => Return (Some tts)
          end
      end
  end.

(** What the voice-test button adds to the page. *)
Definition test_button_events (env : provider_env) : list ui_event :=
  st_write "**Voice Availability:**" ::
  map (fun '(voice_key, status) =>
         if str_in "Available" status
         then st_success ("✅ " +:+ voice_key)
         else st_error ("❌ " +:+ voice_key +:+ ": " +:+ status))
      (fold_left (test_one_voice env) french_voices []).

(** Lines 265-271: the speaker and language [main] hands to
    [generate_audio] for a row of the voice table. *)
Definition reader_args (model_path : string) (speaker : option string)
  : option string * option string :=
  if str_in "your_tts" model_path && truthy_str speaker
  then (speaker, Some "fr-fr")
  else if truthy_str speaker then (speaker, None)
  else (None, None).

(** The status part of [main], lines 210-260, only adds to the page. *)
Definition status_events (i : inputs) (w : world) : list ui_event :=
  [ match tts_model (w_ss w) with
    | Some _ => st_success "✅ Model Ready"
    | None => st_warning "⚠️ Please load a model first"
    end;
    st_info ("🖥️ Using: " +:+
             (if cuda_is_available (w_env w) then "CUDA (GPU)" else "CPU"));
    st_header "⚡ Contrôle de Vitesse" ]
  ++ speed_caption (voice_speed i)
  ++ [ st_header "📝 Text Input";
       st_caption ("Characters: " +:+ pretty (py_len (text_input i))) ]
  ++ (if (1000 <? py_len (text_input i))%nat
      then [st_warning "⚠️ Long texts may take more time to process"]
      else [])
  ++ [ st_header "🔊 Text Reader" ].

(** What [main] does after the reader: when the reader returned, the
    help panel and the footer are added to the page. *)
Definition then_foot (r : outcome unit * world) : outcome unit * world :=
  match r with
  | (Return _, w) => (Return tt, log_ui page_foot w)
  | (Raise e, w) => (Raise e, w)
  end.

(** ** Concrete worlds for the examples *)

Definition your_tts : string :=
  "tts_models/multilingual/multi-dataset/your_tts".

Definition five_thousand_bytes : bytes := replicate 5000 Byte.x2a.

Definition yourtts_speakers : list string :=
  [ "female-en-5"; "female-en-5" +:+ nl; "female-pt-4" +:+ nl;
    "male-en-2"; "male-en-2" +:+ nl; "male-pt-3" +:+ nl ].

(** A multilingual model whose synthesis writes 5000 bytes. *)
Definition model_ok : TTS :=
  MkTTS (AttrList ["en"; "fr-fr"; "pt-br"]) (AttrList yourtts_speakers)
        (fun _ => SynthOk five_thousand_bytes).

(** The same model with a synthesis that returns without writing. *)
Definition model_silent : TTS :=
  MkTTS (AttrList ["en"; "fr-fr"; "pt-br"]) (AttrList yourtts_speakers)
        (fun _ => SynthOk []).

(** The same model with a synthesis that breaks after two bytes. *)
Definition model_failing : TTS :=
  MkTTS (AttrList ["en"; "fr-fr"; "pt-br"]) (AttrList yourtts_speakers)
        (fun _ => SynthErr (Exn "RuntimeError" "CUDA out of memory")
                           (Some [Byte.x52; Byte.x49])).

Definition env_ok : provider_env :=
  {| add_safe_globals := Return tt; cuda_is_available := false;
     TTS_init := fun _ => Return model_ok;
     TTS_to := fun m _ => Return m |}.

Definition env_failing : provider_env :=
  {| add_safe_globals := Return tt; cuda_is_available := false;
     TTS_init := fun _ => Return model_failing;
     TTS_to := fun m _ => Return m |}.

Definition env_unavailable : provider_env :=
  {| add_safe_globals := Return tt; cuda_is_available := false;
     TTS_init := fun _ => Raise (Exn "OSError" "model files not found");
     TTS_to := fun m _ => Return m |}.

Definition t_now : Z := 1700000000.

Definition artifact_path : string := "/tmp/tmpk3x9q_a1.wav".
Definition orphan_path : string := "/tmp/tmpdead0001.wav".

Definition mk_os (files : gmap string file) (lk : gset string) : os_state :=
  {| fs := files; locked := lk; tmpdir := "/tmp"; tmp_writable := true;
     rand_names := ["k3x9q_a1"; "zz0042mm"]; now := t_now;
     dir_matches := fun _ => [] |}.

Definition mk_world (o : os_state) (s : session_state) (env : provider_env)
  : world :=
  {| w_os := o; w_ss := s; w_env := env; w_cache := ∅; w_replay := ∅;
     w_atexit := []; w_calls := []; w_ui := [] |}.

(** A new session on a clean temporary directory. *)
Definition w_clean : world := mk_world (mk_os ∅ ∅) new_session env_ok.

(** A new session that finds a two-hour-old artifact of a dead one. *)
Definition w_orphan : world :=
  mk_world (mk_os {[ orphan_path := File [Byte.x52] (t_now - 7200) ]} ∅)
           new_session env_ok.

(** A temporary directory with a ten-second-old artifact. *)
Definition w_recent : world :=
  mk_world (mk_os {[ orphan_path := File [Byte.x52] (t_now - 10) ]} ∅)
           new_session env_ok.

(** A session that tracks one artifact which the system will not let go. *)
Definition w_stuck : world :=
  mk_world (mk_os {[ artifact_path := File [Byte.x52] t_now ]}
                  {[ artifact_path ]})
           (set_tracked (fun _ => {[ artifact_path ]}) new_session) env_ok.

(** A session that tracks two artifacts, one of them already gone. *)
Definition w_two : world :=
  mk_world (mk_os {[ artifact_path := File [Byte.x52] t_now ]} ∅)
           (set_tracked (fun _ => {[ artifact_path; orphan_path ]})
                        new_session) env_ok.

(** A session whose next artifact cannot be removed once created. *)
Definition w_lock_next : world :=
  mk_world (mk_os ∅ {[ artifact_path ]}) new_session env_failing.

(** A session with the multilingual model loaded. *)
Definition ss_loaded (m : TTS) : session_state :=
  set_model (Some m) (Some your_tts) new_session.

Definition w_loaded : world :=
  mk_world (mk_os ∅ ∅) (ss_loaded model_ok) env_ok.

Definition w_unavailable : world :=
  mk_world (mk_os ∅ ∅) new_session env_unavailable.

Definition in_bonjour (idx : nat) : inputs :=
  {| test_button := false; selected_voice_idx := idx; voice_speed := 1%Q;
     text_input := "Bonjour" |}.

Definition in_idle : inputs :=
  {| test_button := false; selected_voice_idx := 0; voice_speed := 1%Q;
     text_input := "" |}.

(** ** The spec's reading of the sweep, for comparison *)

(** The claim that the sweep, run with threshold [T], deletes exactly
    the matching files older than [T]. *)
Definition spec_sweep_exactly_older (T : Z) (w : world) : Prop :=
  forall p f,
    glob_match (orphan_pattern w) p = true ->
    disk w !! p = Some f ->
    (f_mtime f < now (w_os w) - T <->
     disk (cleanup_orphaned_files w).2 !! p = None).

(** ** Further helpers *)

(** The name [tempfile] gives an artifact whose random part is [r]. *)
Definition artifact_name (r : string) : string := "tmp" +:+ r +:+ ".wav".

(** A temporary directory with an old artifact and an old file of
    another name. *)
Definition w_mixed : world :=
  mk_world (mk_os {[ orphan_path := File [Byte.x52] (t_now - 7200);
                     "/tmp/notes.wav" := File [Byte.x52] (t_now - 7200) ]} ∅)
           new_session env_ok.

(** A session whose temporary directory is read-only. *)
Definition w_readonly : world :=
  mk_world {| fs := ∅; locked := ∅; tmpdir := "/tmp"; tmp_writable := false;
              rand_names := ["k3x9q_a1"]; now := t_now;
              dir_matches := fun _ => [] |}
           new_session env_ok.

(** A single-speaker, single-language model. *)
Definition model_css10 : TTS :=
  MkTTS AttrNone AttrNone (fun _ => SynthOk five_thousand_bytes).

(** The world two hours after [w]. *)
Definition two_hours_later (w : world) : world :=
  set_os (fun o =>
    {| fs := fs o; locked := locked o; tmpdir := tmpdir o;
       tmp_writable := tmp_writable o; rand_names := rand_names o;
       now := now o + 7200; dir_matches := dir_matches o |}) w.

(** A session that ran the script three times and still tracks two
    artifacts. *)
Definition w_three_runs : world :=
  add_atexit Fn_cleanup_temp_files
    (add_atexit Fn_cleanup_temp_files
       (add_atexit Fn_cleanup_temp_files w_two)).

(** What no part of [main] undoes: the provider and the exit hooks are
    the same, the system's settings are the same, tracked paths stay
    tracked, cached objects stay cached, and the page and the list of
    provider calls only get longer. *)
Definition run_keeps (w w' : world) : Prop :=
  w_env w' = w_env w ∧
  w_atexit w' = w_atexit w ∧
  locked (w_os w') = locked (w_os w) ∧
  tmpdir (w_os w') = tmpdir (w_os w) ∧
  now (w_os w') = now (w_os w) ∧
  tmp_writable (w_os w') = tmp_writable (w_os w) ∧
  available_voices (w_ss w') = available_voices (w_ss w) ∧
  tracking_set w ⊆ tracking_set w' ∧
  (forall k v, w_cache w !! k = Some v -> w_cache w' !! k = Some v) ∧
  (exists evs, w_ui w' = (w_ui w ++ evs)%list) ∧
  (exists cs, w_calls w' = (w_calls w ++ cs)%list).

(** What the parts of [main] before the reader leave alone: the system,
    the Tracking Set and the list of provider calls. *)
Definition run_quiet (w w' : world) : Prop :=
  w_os w' = w_os w ∧ tracking_set w' = tracking_set w
  ∧ w_calls w' = w_calls w.

(** A text of blanks: spaces, a no-break space, an ideographic space and
    a newline. *)
Definition in_blank : inputs :=
  {| test_button := true; selected_voice_idx := 2; voice_speed := 1%Q;
     text_input := "  " +:+ nbsp +:+ "　" +:+ nl |}.

(** A session with the failing multilingual model loaded. *)
Definition w_loaded_failing : world :=
  mk_world (mk_os ∅ ∅) (ss_loaded model_failing) env_failing.

(** A session that has the French model in its cache while the provider
    can no longer load anything. *)
Definition w_cached : world :=
  set_cache "tts_models/fr/css10/vits" (Some model_css10) w_unavailable.

(** The page elements that carry audio. *)
Definition is_media (e : ui_event) : bool :=
  match e with
  | st_audio _ | st_download_button _ _ => true
  | _ => false
  end.

(** [d.get(k)] on an insertion-ordered dict. *)
Fixpoint dict_get (k : string) (d : list (string * string)) : option string :=
  match d with
  | [] => None
  | (k', v) :: d' => if String.eqb k' k then Some v else dict_get k d'
  end.

Definition css10 : string := "tts_models/fr/css10/vits".

(** The keys [test_voice_loading] writes. *)
Definition css10_key : string := css10 +:+ "_None".
Definition your_tts_key : string := your_tts +:+ "_fr-fr".
Definition speakers_key : string := your_tts +:+ "_speakers".

(** The line [test_voice_loading] writes for a model with [n]
    speakers. *)
Definition speakers_status (n : nat) : string :=
  "✅ " +:+ pretty n +:+ " speakers available".

(** A provider whose multilingual model has no speaker list. *)
Definition model_no_speakers : TTS :=
  MkTTS (AttrList ["fr-fr"]) AttrNone (fun _ => SynthOk five_thousand_bytes).

Definition env_no_speakers : provider_env :=
  {| add_safe_globals := Return tt; cuda_is_available := false;
     TTS_init := fun _ => Return model_no_speakers;
     TTS_to := fun m _ => Return m |}.

Definition w_no_speakers : world :=
  mk_world (mk_os ∅ ∅) new_session env_no_speakers.

(** ** app.py, lines 144-166: [load_all_models] *)

(** [s.split(sep)] for a separator of one character. *)
Fixpoint str_split (sep : ascii) (s : string) : list string :=
  match s with
  | EmptyString => [EmptyString]
  | String c s' =>
      if Ascii.eqb c sep then EmptyString :: str_split sep s'
      else
        match str_split sep s' with
        | h :: t => String c h :: t
        | [] => [String c EmptyString]
        end
  end.

Definition ValueError_too_many : exn :=
  Exn "ValueError" "too many values to unpack (expected 2)".
Definition ValueError_too_few : exn :=
  Exn "ValueError" "not enough values to unpack (expected 2)".

Definition set_available
  (f : list (string * string) -> list (string * string)) (s : session_state)
  : session_state :=
  {| temp_files_to_cleanup := temp_files_to_cleanup s;
     tts_model := tts_model s; available_voices := f (available_voices s);
     last_model_path := last_model_path s |}.

(** Lines 152-160: the body of the loop over the test results.
    [model_path, speaker = voice.split("_")] needs exactly two parts. *)
Definition load_all_models_step (entry : string * string) : M unit :=
  let '(voice, status) := entry in
  modify (set_ss (set_available (dict_set voice status)));;
  if negb (str_in "Error" status) then
    match str_split "_" voice with
    | [model_path; speaker] =>
        m <- load_tts_model model_path;;
        modify (set_ss (set_model m (Some model_path)));;
        emit (st_success ("✅ Loaded: " +:+ voice))
    | [] | [_] => raise ValueError_too_few
    | _ => raise ValueError_too_many
    end
  else emit (st_warning ("⚠️ " +:+ status)).

(** The body of the function, without its decorator. *)
Definition load_all_models_body : M unit :=
  voice_status <- test_voice_loading;;
  for_each voice_status load_all_models_step;;
  w <- get;;
  match tts_model (w_ss w) with
  | Some _ => emit (st_success "All available models have been loaded.")
  | None =>
      emit (st_error "No models could be loaded. Please check the logs.")
  end.

(** Does the voice test report this voice as loaded? *)
Definition reported_available (env : provider_env) : bool :=
  match TTS_init env css10 with
  | Return _ => true
  | Raise _ =>
      match TTS_init env your_tts with
      | Return t =>
          match speakers t with
          | AttrNone => false
          | _ => true
          end
      | Raise _ => false
      end
  end.

(** A session in which loading the French model has failed before. *)
Definition w_failed_before : world :=
  set_cache css10 None
    (set_replay css10 [st_error "Error loading model: model files not found"]
       (mk_world (mk_os ∅ ∅) new_session env_ok)).

(** A session with the model loaded whose next artifact cannot be
    removed once created. *)
Definition w_loaded_stuck : world :=
  mk_world (mk_os ∅ {[ artifact_path ]}) (ss_loaded model_ok) env_ok.

Definition env_css10 : provider_env :=
  {| add_safe_globals := Return tt; cuda_is_available := false;
     TTS_init := fun _ => Return model_css10;
     TTS_to := fun m _ => Return m |}.

(** A new session whose provider loads the French model. *)
Definition w_css10 : world := mk_world (mk_os ∅ ∅) new_session env_css10.

(** The same world with another provider. *)
Definition set_env (env : provider_env) (w : world) : world :=
  {| w_os := w_os w; w_ss := w_ss w; w_env := env;
     w_cache := w_cache w; w_replay := w_replay w;
     w_atexit := w_atexit w; w_calls := w_calls w; w_ui := w_ui w |}.

(** A temporary directory whose name holds a bracket. As a pattern,
    [/tmp/v[1]] stands for the directory [/tmp/v1], which exists too.
    Each of the two directories holds a two-hour-old artifact. *)
Definition own_artifact : string := "/tmp/v[1]/tmpaaaa0001.wav".
Definition foreign_artifact : string := "/tmp/v1/tmpbbbb0002.wav".

Definition w_magic : world :=
  mk_world
    {| fs := {[ own_artifact := File [Byte.x52] (t_now - 7200);
                foreign_artifact := File [Byte.x49] (t_now - 7200) ]};
       locked := ∅; tmpdir := "/tmp/v[1]"; tmp_writable := true;
       rand_names := ["k3x9q_a1"]; now := t_now;
       dir_matches := fun pat =>
         if String.eqb pat "/tmp/v[1]" then ["/tmp/v1"] else [] |}
    new_session env_ok.

(** * Properties *)

(** Looking a path up on a disk built from inserts and deletes. *)
Ltac disk_lookup :=
  unfold disk; cbn;
  rewrite ?lookup_delete_eq, ?lookup_insert_eq;
  repeat first [ rewrite lookup_delete_ne by done
               | rewrite lookup_insert_ne by done ];
  rewrite ?lookup_delete_eq, ?lookup_insert_eq;
  try done.

(** Finding an element on a page built from appended pieces. *)
Ltac find_in :=
  first [ apply list_elem_of_here
        | apply list_elem_of_further; find_in
        | apply elem_of_app; left; find_in
        | apply elem_of_app; right; find_in ].

Ltac ui_mem :=
  cbn [then_foot snd fst w_ui log_ui set_ss set_os set_cache set_replay
       log_call created];
  find_in.

(** ** Loops *)

Lemma for_each_steps {A} (body : A -> M unit) (step : world -> A -> world) :
  (forall x w, body x w = (Return tt, step w x)) ->
  forall l w, for_each l body w = (Return tt, foldl step w l).
Proof.
  intros Hb l. induction l as [|x l IH]; intros w.
  - reflexivity.
  - cbn [for_each]. unfold bind. rewrite Hb. apply IH.
Qed.

Lemma for_each_emit {A} (f : A -> ui_event) l w :
  for_each l (fun x => emit (f x)) w = (Return tt, log_ui (map f l) w).
Proof.
  revert w. induction l as [|x l IH]; intros w.
  - cbn. unfold pass, ret, log_ui. rewrite app_nil_r. by destruct w.
  - cbn [for_each map]. unfold bind, emit, modify. rewrite IH.
    unfold log_ui; cbn. by rewrite <- app_assoc.
Qed.

(** ** [cleanup_temp_files] *)

Lemma cleanup_body_step p w :
  try_except
    (ex <- os_path_exists p;;
     when ex (os_unlink p);;
     session_discard InScriptRun p)
    (fun _ => pass) w
  = (Return tt, cleanup_step w p).
Proof.
  unfold try_except, session_discard, bind, os_path_exists, cleanup_step.
  destruct (disk w !! p) as [f|] eqn:E.
  - rewrite bool_decide_eq_true_2 by (eexists; reflexivity).
    unfold when, os_unlink. rewrite E.
    destruct (bool_decide (p ∈ locked (w_os w))); reflexivity.
  - rewrite bool_decide_eq_false_2 by (intros [? ?]; congruence). reflexivity.
Qed.

Lemma cleanup_step_locked w p :
  locked (w_os (cleanup_step w p)) = locked (w_os w).
Proof.
  unfold cleanup_step.
  destruct (disk w !! p); [destruct (bool_decide _)|]; reflexivity.
Qed.

Lemma cleanup_step_disk w p q :
  disk (cleanup_step w p) !! q =
  if bool_decide (q = p ∧ q ∉ locked (w_os w)) then None else disk w !! q.
Proof.
  unfold cleanup_step. destruct (disk w !! p) eqn:E.
  - destruct (bool_decide (p ∈ locked (w_os w))) eqn:B.
    + apply bool_decide_eq_true in B. rewrite bool_decide_eq_false_2; [done|].
      intros [-> ?]; done.
    + apply bool_decide_eq_false in B. unfold disk, set_ss, set_os, set_fs. cbn.
      destruct (decide (q = p)) as [->|Hne].
      * rewrite lookup_delete_eq. by rewrite bool_decide_eq_true_2.
      * rewrite lookup_delete_ne by done.
        rewrite bool_decide_eq_false_2; [done|]. intros [? ?]; done.
  - unfold disk, set_ss; cbn. case_bool_decide as H; [|done].
    destruct H as [-> _]. done.
Qed.

Lemma cleanup_step_tracked w p q :
  q ∈ tracking_set (cleanup_step w p) <->
  q ∈ tracking_set w ∧
  (q = p -> is_Some (disk w !! q) ∧ q ∈ locked (w_os w)).
Proof.
  unfold cleanup_step. destruct (disk w !! p) eqn:E.
  - destruct (bool_decide (p ∈ locked (w_os w))) eqn:B.
    + apply bool_decide_eq_true in B. split; [intros H; split; [done|]|tauto].
      intros ->. rewrite E. eauto.
    + apply bool_decide_eq_false in B.
      unfold tracking_set, set_ss, set_os, set_tracked. cbn.
      rewrite elem_of_difference, elem_of_singleton. split.
      * intros [H1 H2]. split; [done|]. intros ->. done.
      * intros [H1 H2]. split; [done|]. intros ->.
        destruct (H2 eq_refl); done.
  - unfold tracking_set, set_ss, set_tracked. cbn.
    rewrite elem_of_difference, elem_of_singleton. split.
    + intros [H1 H2]. split; [done|]. intros ->. done.
    + intros [H1 H2]. split; [done|]. intros ->.
      destruct (H2 eq_refl) as [[? H3] _]. congruence.
Qed.

Lemma cleanup_fold_disk l : forall w q,
  disk (foldl cleanup_step w l) !! q =
  if bool_decide (q ∈ l ∧ q ∉ locked (w_os w)) then None else disk w !! q.
Proof.
  induction l as [|p l IH]; intros w q.
  - rewrite bool_decide_eq_false_2; [done|].
    intros [H _]. by apply elem_of_nil in H.
  - change (foldl cleanup_step w (p :: l))
      with (foldl cleanup_step (cleanup_step w p) l).
    rewrite IH, cleanup_step_locked, cleanup_step_disk.
    destruct (decide (q ∈ locked (w_os w))), (decide (q = p)),
             (decide (q ∈ l));
      repeat match goal with
      | |- context [bool_decide ?P] =>
          (rewrite (bool_decide_eq_true_2 P) by (rewrite ?elem_of_cons; tauto))
          || (rewrite (bool_decide_eq_false_2 P)
                by (rewrite ?elem_of_cons; tauto))
      end; reflexivity.
Qed.

Lemma cleanup_fold_tracked l : forall w q,
  q ∈ tracking_set (foldl cleanup_step w l) <->
  q ∈ tracking_set w ∧
  (q ∈ l -> is_Some (disk w !! q) ∧ q ∈ locked (w_os w)).
Proof.
  induction l as [|p l IH]; intros w q.
  - cbn. split; [intros H; split; [done|]|tauto].
    intros H'. by apply elem_of_nil in H'.
  - change (foldl cleanup_step w (p :: l))
      with (foldl cleanup_step (cleanup_step w p) l).
    rewrite IH, cleanup_step_locked, cleanup_step_tracked, elem_of_cons.
    destruct (decide (q = p)) as [->|Hne].
    + split.
      * intros [[H1 H2] H3]. split; [done|]. intros _. by apply H2.
      * intros [H1 H2]. destruct (H2 (or_introl eq_refl)) as [[f Hf] HLk].
        assert (Hid : cleanup_step w p = w).
        { unfold cleanup_step. rewrite Hf. by rewrite bool_decide_eq_true_2. }
        rewrite Hid. split; [split; [done|]|]; intros; split; eauto.
    + rewrite cleanup_step_disk.
      rewrite (bool_decide_eq_false_2 (q = p ∧ _)) by tauto. split.
      * intros [[H1 H2] H3]. split; [done|]. intros [?|?]; [done|].
        by apply H3.
      * intros [H1 H2]. split; [split; [done|]|]; intros; [done|].
        apply H2. by right.
Qed.

Lemma cleanup_temp_files_run w :
  cleanup_temp_files InScriptRun w =
  (Return tt, foldl cleanup_step w (elements (tracking_set w))).
Proof.
  unfold cleanup_temp_files, bind, session_tracking_set.
  apply (for_each_steps _ cleanup_step). intros p w'. apply cleanup_body_step.
Qed.

(** ** The finalizer at interpreter exit *)

Lemma cleanup_temp_files_at_exit w :
  cleanup_temp_files AtExit w
  = (Raise (AttributeError "temp_files_to_cleanup"), w).
Proof. reflexivity. Qed.

Lemma process_exit_run w : process_exit w = (Return tt, w).
Proof.
  unfold process_exit, bind, get.
  rewrite (for_each_steps _ (fun w (_ : atexit_fn) => w)).
  - f_equal. generalize (rev (w_atexit w)).
    intros l. by induction l.
  - by intros [] w'.
Qed.

(** C5, on the code. [cleanup_temp_files] is registered with [atexit]
    and called from nowhere else. At interpreter exit no script run is
    attached to the thread, so the read of
    [st.session_state.temp_files_to_cleanup] on line 26, which is
    outside the [try], raises [AttributeError] before the loop is
    entered. However many copies are registered, the exit reports the
    exceptions and ends: a tracked artifact whose file is on disk is
    still on disk afterwards, and the Tracking Set is as it was. *)
Theorem exit_finalizer_removes_nothing (w : world) (p : string) (f : file) :
  p ∈ tracking_set w ->
  disk w !! p = Some f ->
  (exists e,
     cleanup_temp_files AtExit w = (Raise e, w) ∧
     exn_class e = "AttributeError") ∧
  (exists w',
     process_exit w = (Return tt, w') ∧
     disk w' !! p = Some f ∧
     p ∈ tracking_set w' ∧
     disk w' = disk w ∧ tracking_set w' = tracking_set w).
Proof.
  intros Hp Hf. split.
  - eexists. split; [apply cleanup_temp_files_at_exit|done].
  - exists w. by rewrite process_exit_run.
Qed.

(** The script ran three times and left two paths tracked, one with its
    file: the exit leaves the file and both paths. *)
Lemma exit_finalizer_removes_nothing_witness :
  length (w_atexit w_three_runs) = 3%nat ∧
  exists w',
    process_exit w_three_runs = (Return tt, w') ∧
    disk w' !! artifact_path = Some (File [Byte.x52] t_now) ∧
    artifact_path ∈ tracking_set w'.
Proof.
  split; [reflexivity|].
  destruct (exit_finalizer_removes_nothing w_three_runs artifact_path
              (File [Byte.x52] t_now))
    as (_ & w' & H1 & H2 & H3 & _).
  - apply elem_of_union. left. by apply elem_of_singleton.
  - by vm_compute.
  - by exists w'.
Defined.

(** ** Paths and patterns *)

Lemma os_path_split_None s :
  os_path_split s = None <-> has_char "/" s = false.
Proof.
  induction s as [|c s IH]; cbn [os_path_split has_char]; [done|].
  destruct (os_path_split s) as [[h t]|].
  - split; [done|]. intros H. apply orb_false_iff in H as [_ H].
    apply IH in H. done.
  - destruct (Ascii.eqb "/" c) eqn:E.
    + apply Ascii.eqb_eq in E as <-. cbn. done.
    + rewrite Ascii.eqb_sym, E. cbn. split; [intros _; by apply IH|done].
Qed.

Lemma os_path_split_Some s h t :
  os_path_split s = Some (h, t) <->
  s = h +:+ "/" +:+ t ∧ has_char "/" t = false.
Proof.
  split.
  - revert h t. induction s as [|c s IH]; intros h t; cbn [os_path_split];
      [done|].
    destruct (os_path_split s) as [[h' t']|] eqn:E.
    + intros [= <- <-]. destruct (IH _ _ eq_refl) as [-> Ht]. by split.
    + destruct (Ascii.eqb c "/") eqn:Ec; [|done].
      intros [= <- <-]. apply Ascii.eqb_eq in Ec as ->.
      split; [done|]. by apply os_path_split_None.
  - intros [-> Ht]. induction h as [|c h IH].
    + apply os_path_split_None in Ht.
      change (os_path_split (String "/" t) = Some ("", t)).
      cbn [os_path_split]. by rewrite Ht.
    + change (os_path_split (String c (h +:+ "/" +:+ t))
              = Some (String c h, t)).
      cbn [os_path_split]. by rewrite IH.
Qed.

Lemma has_char_app c s1 s2 :
  has_char c (s1 +:+ s2) = has_char c s1 || has_char c s2.
Proof.
  induction s1 as [|d s1 IH]; [done|].
  change (has_char c (String d (s1 +:+ s2))
          = has_char c (String d s1) || has_char c s2).
  cbn [has_char]. by rewrite IH, orb_assoc.
Qed.

Lemma str_app_assoc s1 s2 s3 :
  (s1 +:+ s2) +:+ s3 = s1 +:+ s2 +:+ s3.
Proof.
  induction s1 as [|c s1 IH]; [done|].
  change (String c ((s1 +:+ s2) +:+ s3) = String c (s1 +:+ s2 +:+ s3)).
  by rewrite IH.
Qed.

(** A pattern without a star matches itself and nothing else. *)
Lemma fnmatch_literal pat : forall s,
  has_char "*" pat = false -> (fnmatch pat s = true <-> s = pat).
Proof.
  induction pat as [|c pat IH]; intros s Hs.
  - cbn. by rewrite String.eqb_eq.
  - cbn [has_char] in Hs. apply orb_false_iff in Hs as [Hc Hp].
    cbn [fnmatch]. rewrite Ascii.eqb_sym, Hc.
    destruct s as [|d s]; [done|].
    rewrite andb_true_iff, Ascii.eqb_eq, (IH s Hp).
    split; [by intros [-> ->]|by intros [= -> ->]].
Qed.

(** A star matches any run of characters, the empty one included. *)
Lemma fnmatch_star pat s :
  fnmatch (String "*" pat) s = true <->
  exists r rest, s = r +:+ rest ∧ fnmatch pat rest = true.
Proof.
  change (fnmatch (String "*" pat)) with
    (fix star (s : string) : bool :=
       fnmatch pat s ||
       match s with
       | EmptyString => false
       | String _ s' => star s'
       end).
  induction s as [|d s IH].
  - rewrite orb_false_r. split.
    + intros H. by exists "", "".
    + intros (r & rest & Hs & H). destruct r; [|done]. by rewrite Hs.
  - rewrite orb_true_iff, IH. split.
    + intros [H|(r & rest & -> & H)].
      * by exists "", (String d s).
      * by exists (String d r), rest.
    + intros (r & rest & Hs & H). destruct r as [|d' r].
      * left. by rewrite Hs.
      * right. injection Hs as -> ->. by exists r, rest.
Qed.

Lemma fnmatch_literal_star lit pat : forall s,
  has_char "*" lit = false ->
  (fnmatch (lit +:+ String "*" pat) s = true <->
   exists r rest, s = lit +:+ r +:+ rest ∧ fnmatch pat rest = true).
Proof.
  induction lit as [|c lit IH]; intros s Hl.
  - apply fnmatch_star.
  - cbn [has_char] in Hl. apply orb_false_iff in Hl as [Hc Hl].
    change (fnmatch (String c (lit +:+ String "*" pat)) s = true <->
            exists r rest, s = String c (lit +:+ r +:+ rest)
                           ∧ fnmatch pat rest = true).
    cbn [fnmatch]. rewrite Ascii.eqb_sym, Hc.
    destruct s as [|d s].
    + split; [done|]. by intros (? & ? & ? & ?).
    + rewrite andb_true_iff, Ascii.eqb_eq, (IH s Hl). split.
      * intros [-> (r & rest & -> & H)]. by exists r, rest.
      * intros (r & rest & [= -> ->] & H). split; [done|]. by exists r, rest.
Qed.

(** The names the sweep's pattern accepts. *)
Lemma fnmatch_tmp_wav base :
  fnmatch "tmp*.wav" base = true <-> exists r, base = artifact_name r.
Proof.
  change "tmp*.wav" with ("tmp" +:+ String "*" ".wav").
  rewrite fnmatch_literal_star by done. unfold artifact_name. split.
  - intros (r & rest & -> & H). apply fnmatch_literal in H as ->; [|done].
    by exists r.
  - intros [r ->]. exists r, ".wav". split; [done|].
    by apply fnmatch_literal.
Qed.

Lemma str_endswith_slash s :
  str_endswith "/" s = true -> exists pre, s = pre +:+ "/".
Proof.
  unfold str_endswith. intros H. apply andb_true_iff in H as [Hlen H].
  apply String.eqb_eq in H. cbn [String.length] in *.
  induction s as [|c s IH]; [done|].
  destruct s as [|c' s].
  - cbn in H. injection H as ->. by exists "".
  - destruct IH as [pre Hpre]; [done| |].
    + cbn [String.length] in *.
      replace (S (S (String.length s)) - 1)%nat
        with (S (S (String.length s) - 1))%nat in H by lia.
      exact H.
    + exists (String c pre). by rewrite Hpre.
Qed.

(** Joining onto a non-empty directory puts one separator before the
    name. *)
Lemma os_path_join_form dir :
  dir ≠ "" ->
  exists pre, (dir = pre ∨ dir = pre +:+ "/") ∧
              forall name, os_path_join dir name = pre +:+ "/" +:+ name.
Proof.
  intros Hd. unfold os_path_join.
  destruct (String.eqb dir "") eqn:E; [by apply String.eqb_eq in E|].
  destruct (str_endswith "/" dir) eqn:Es.
  - destruct (str_endswith_slash _ Es) as [pre ->]. exists pre.
    split; [by right|]. intros name. apply str_app_assoc.
  - exists dir. split; [by left|done].
Qed.

Lemma glob_match_join dir pat p :
  dir ≠ "" -> has_char "/" pat = false ->
  (glob_match (os_path_join dir pat) p = true <->
   exists base, p = os_path_join dir base ∧ has_char "/" base = false
                ∧ fnmatch pat base = true).
Proof.
  intros Hd Hp. destruct (os_path_join_form dir Hd) as (pre & _ & Hj).
  unfold glob_match. rewrite Hj.
  assert (Hs : os_path_split (pre +:+ "/" +:+ pat) = Some (pre, pat))
    by (by apply os_path_split_Some).
  rewrite Hs. split.
  - destruct (os_path_split p) as [[d base]|] eqn:E; [|done].
    intros H. apply andb_true_iff in H as [Hd' Hf].
    apply String.eqb_eq in Hd' as ->.
    apply os_path_split_Some in E as [-> Hb].
    exists base. by rewrite Hj.
  - intros (base & -> & Hb & Hf). rewrite Hj.
    assert (Hs' : os_path_split (pre +:+ "/" +:+ base) = Some (pre, base))
      by (by apply os_path_split_Some).
    rewrite Hs', String.eqb_refl. done.
Qed.

Lemma has_magic_app s1 s2 :
  has_magic (s1 +:+ s2) = has_magic s1 || has_magic s2.
Proof.
  unfold has_magic. rewrite !has_char_app.
  by destruct (has_char "*" s1), (has_char "?" s1), (has_char "[" s1),
              (has_char "*" s2), (has_char "?" s2).
Qed.

(** For a directory without magic characters [glob] lists that
    directory. *)
Lemma glob_selects_literal o dir pat p :
  dir ≠ "" -> has_magic dir = false -> has_char "/" pat = false ->
  glob_selects o (os_path_join dir pat) p
  = glob_match (os_path_join dir pat) p.
Proof.
  intros Hd Hm Hp. destruct (os_path_join_form dir Hd) as (pre & Hpre & Hj).
  unfold glob_selects. rewrite Hj.
  assert (Hs : os_path_split (pre +:+ "/" +:+ pat) = Some (pre, pat))
    by (by apply os_path_split_Some).
  rewrite Hs. unfold glob_dirs.
  assert (Hm' : has_magic pre = false).
  { destruct Hpre as [<-|Hpre]; [done|].
    rewrite Hpre, has_magic_app in Hm. by apply orb_false_iff in Hm as [? _]. }
  rewrite Hm'. cbn [existsb]. apply orb_false_r.
Qed.

(** The paths the sweep's pattern selects when the temporary directory
    has no magic character in its name: its entries called
    [tmp...wav]. *)
Lemma glob_selects_names w p :
  tmpdir (w_os w) ≠ "" -> has_magic (tmpdir (w_os w)) = false ->
  (glob_selects (w_os w) (orphan_pattern w) p = true <->
   exists r, p = os_path_join (tmpdir (w_os w)) (artifact_name r)
             ∧ has_char "/" r = false).
Proof.
  intros Hd Hm. unfold orphan_pattern.
  rewrite glob_selects_literal, glob_match_join by done. split.
  - intros (base & -> & Hb & Hf). apply fnmatch_tmp_wav in Hf as [r ->].
    exists r. split; [done|]. unfold artifact_name in Hb.
    rewrite !has_char_app in Hb.
    by destruct (has_char "/" r).
  - intros (r & -> & Hr). exists (artifact_name r). split; [done|]. split.
    + unfold artifact_name. rewrite !has_char_app, Hr. done.
    + apply fnmatch_tmp_wav. by exists r.
Qed.

(** The entries of a directory that a pattern selects. *)
Lemma glob_match_dir d pat p :
  has_char "/" pat = false ->
  (glob_match (d +:+ "/" +:+ pat) p = true <->
   exists base, p = d +:+ "/" +:+ base ∧ has_char "/" base = false
                ∧ fnmatch pat base = true).
Proof.
  intros Hp. unfold glob_match.
  assert (Hs : os_path_split (d +:+ "/" +:+ pat) = Some (d, pat))
    by (by apply os_path_split_Some).
  rewrite Hs. split.
  - destruct (os_path_split p) as [[d' base]|] eqn:E; [|done].
    intros H. apply andb_true_iff in H as [Hd' Hf].
    apply String.eqb_eq in Hd' as ->.
    apply os_path_split_Some in E as [-> Hb].
    by exists base.
  - intros (base & -> & Hb & Hf).
    assert (Hs' : os_path_split (d +:+ "/" +:+ base) = Some (d, base))
      by (by apply os_path_split_Some).
    rewrite Hs', String.eqb_refl. done.
Qed.

(** The paths the sweep's pattern selects when the name of the temporary
    directory does hold a magic character: the entries called
    [tmp...wav] of the directories that match the name. *)
Lemma glob_selects_magic w p :
  tmpdir (w_os w) ≠ "" ->
  str_endswith "/" (tmpdir (w_os w)) = false ->
  has_magic (tmpdir (w_os w)) = true ->
  (glob_selects (w_os w) (orphan_pattern w) p = true <->
   exists d r, d ∈ dir_matches (w_os w) (tmpdir (w_os w))
               ∧ p = d +:+ "/" +:+ artifact_name r
               ∧ has_char "/" r = false).
Proof.
  intros Hd Hs Hm. unfold orphan_pattern, os_path_join.
  rewrite Hs. destruct (String.eqb (tmpdir (w_os w)) "") eqn:E;
    [by apply String.eqb_eq in E|].
  unfold glob_selects.
  assert (Hsp : os_path_split (tmpdir (w_os w) +:+ "/" +:+ "tmp*.wav")
                = Some (tmpdir (w_os w), "tmp*.wav"))
    by (by apply os_path_split_Some).
  rewrite Hsp. unfold glob_dirs. rewrite Hm, existsb_exists. split.
  - intros (d & Hin & Hg). apply glob_match_dir in Hg; [|done].
    destruct Hg as (base & -> & Hb & Hf).
    apply fnmatch_tmp_wav in Hf as [r ->]. exists d, r.
    split; [by apply list_elem_of_In|]. split; [done|].
    unfold artifact_name in Hb. rewrite !has_char_app in Hb.
    by destruct (has_char "/" r).
  - intros (d & r & Hin & -> & Hr). exists d.
    split; [by apply list_elem_of_In|]. apply glob_match_dir; [done|].
    exists (artifact_name r). split; [done|]. split.
    + unfold artifact_name. rewrite !has_char_app, Hr. done.
    + apply fnmatch_tmp_wav. by exists r.
Qed.

(** ** [cleanup_orphaned_files] *)

Lemma sweep_body_step p w :
  try_except
    (mtime <- os_path_getmtime p;;
     t <- time_time;;
     when (mtime <? t - 3600) (os_unlink p))
    (fun _ => pass) w
  = (Return tt, sweep_step w p).
Proof.
  unfold try_except, bind, os_path_getmtime, time_time, sweep_step,
    sweep_deletes.
  destruct (disk w !! p) as [f|] eqn:E; [|reflexivity].
  destruct (f_mtime f <? now (w_os w) - 3600); [|reflexivity].
  unfold when, os_unlink. rewrite E.
  destruct (bool_decide (p ∈ locked (w_os w))); reflexivity.
Qed.

Lemma sweep_step_os w p :
  locked (w_os (sweep_step w p)) = locked (w_os w) ∧
  now (w_os (sweep_step w p)) = now (w_os w).
Proof. unfold sweep_step. destruct (sweep_deletes w p); done. Qed.

Lemma sweep_step_disk w p q :
  disk (sweep_step w p) !! q =
  if bool_decide (q = p) && sweep_deletes w q then None else disk w !! q.
Proof.
  unfold sweep_step. destruct (decide (q = p)) as [->|Hne].
  - rewrite bool_decide_eq_true_2 by done. cbn [andb].
    destruct (sweep_deletes w p); [|done].
    unfold disk, set_os, set_fs; cbn. apply lookup_delete_eq.
  - rewrite bool_decide_eq_false_2 by done. cbn [andb].
    destruct (sweep_deletes w p); [|done].
    unfold disk, set_os, set_fs; cbn. by apply lookup_delete_ne.
Qed.

Lemma sweep_deletes_step w p q :
  q ≠ p -> sweep_deletes (sweep_step w p) q = sweep_deletes w q.
Proof.
  intros Hne. unfold sweep_deletes.
  destruct (sweep_step_os w p) as [-> ->].
  rewrite sweep_step_disk, bool_decide_eq_false_2 by done. done.
Qed.

Lemma sweep_fold_disk l : forall w q,
  disk (foldl sweep_step w l) !! q =
  if bool_decide (q ∈ l) && sweep_deletes w q then None else disk w !! q.
Proof.
  induction l as [|p l IH]; intros w q.
  - rewrite bool_decide_eq_false_2; [done|]. apply not_elem_of_nil.
  - change (foldl sweep_step w (p :: l))
      with (foldl sweep_step (sweep_step w p) l).
    rewrite IH, sweep_step_disk.
    destruct (decide (q = p)) as [->|Hne].
    + rewrite (bool_decide_eq_true_2 (p = p)) by done.
      rewrite (bool_decide_eq_true_2 (p ∈ p :: l)) by (by left).
      cbn [andb]. destruct (sweep_deletes w p) eqn:D.
      * by destruct (_ && _).
      * destruct (bool_decide (p ∈ l)); [|done]. cbn [andb].
        unfold sweep_deletes at 1. destruct (sweep_step_os w p) as [-> ->].
        rewrite sweep_step_disk, D, andb_false_r.
        fold (sweep_deletes w p). by rewrite D.
    + rewrite sweep_deletes_step by done.
      rewrite (bool_decide_eq_false_2 (q = p)) by done. cbn [andb].
      destruct (decide (q ∈ l)).
      * rewrite !bool_decide_eq_true_2; [done| by right | done].
      * rewrite !bool_decide_eq_false_2; [done| |done].
        rewrite elem_of_cons. tauto.
Qed.

(** The sweep touches nothing but the files. *)
Lemma sweep_fold_frame l : forall w,
  let w' := foldl sweep_step w l in
  w_ss w' = w_ss w ∧ w_env w' = w_env w ∧ w_cache w' = w_cache w ∧
  w_atexit w' = w_atexit w ∧ w_calls w' = w_calls w ∧ w_ui w' = w_ui w.
Proof.
  induction l as [|p l IH]; intros w; [done|].
  change (foldl sweep_step w (p :: l))
    with (foldl sweep_step (sweep_step w p) l).
  cbv zeta in *. destruct (IH (sweep_step w p)) as (-> & -> & -> & -> & -> & ->).
  unfold sweep_step. by destruct (sweep_deletes w p).
Qed.

Lemma cleanup_orphaned_files_run w :
  cleanup_orphaned_files w =
  (Return tt,
   foldl sweep_step w
     (List.filter (glob_selects (w_os w) (orphan_pattern w))
        (elements (dom (disk w))))).
Proof.
  unfold cleanup_orphaned_files, try_except at 1, bind at 1, gettempdir.
  unfold bind at 1, glob_glob.
  fold (orphan_pattern w).
  by rewrite (for_each_steps _ sweep_step) by (intros; apply sweep_body_step).
Qed.

(** C4, as the code has it. The sweep takes no threshold: the age is the
    constant 3600 seconds. A run never raises and removes exactly the
    paths that [glob.glob] finds for the pattern [tmp*.wav] joined onto
    the temporary directory, that were last modified more than 3600
    seconds ago and whose deletion does not fail; every other file
    stays as it was. When the name of the temporary directory holds
    none of the characters that [glob] expands, the paths found are the
    entries of that directory called [tmp...wav]. The Tracking Set
    plays no part: it is neither consulted nor changed. *)
Theorem cleanup_orphaned_files_spec (w : world) :
  exists w',
    cleanup_orphaned_files w = (Return tt, w') ∧
    (forall p, disk w' !! p =
               if glob_selects (w_os w) (orphan_pattern w) p
                  && sweep_deletes w p
               then None else disk w !! p) ∧
    tracking_set w' = tracking_set w ∧
    (tmpdir (w_os w) ≠ "" -> has_magic (tmpdir (w_os w)) = false ->
     forall p,
       glob_selects (w_os w) (orphan_pattern w) p = true <->
       exists r, p = os_path_join (tmpdir (w_os w)) (artifact_name r)
                 ∧ has_char "/" r = false).
Proof.
  eexists. split; [apply cleanup_orphaned_files_run|]. split; [|split].
  - intros p. rewrite sweep_fold_disk.
    destruct (glob_selects (w_os w) (orphan_pattern w) p) eqn:G.
    + destruct (disk w !! p) as [f|] eqn:E.
      * rewrite bool_decide_eq_true_2; [done|].
        apply list_elem_of_In, filter_In. split; [|done].
        apply list_elem_of_In, elem_of_elements, elem_of_dom. by exists f.
      * unfold sweep_deletes. rewrite E. by rewrite !andb_false_r.
    + rewrite bool_decide_eq_false_2; [done|].
      intros H%list_elem_of_In%filter_In. destruct H; congruence.
  - unfold tracking_set.
    by destruct (sweep_fold_frame
      (List.filter (glob_selects (w_os w) (orphan_pattern w))
         (elements (dom (disk w)))) w) as (-> & _).
  - intros Hd Hm p. by apply glob_selects_names.
Qed.

(** Two files in the temporary directory, both two hours old: the one
    called like an artifact is selected and goes, the other stays. *)
Lemma cleanup_orphaned_files_spec_witness :
  exists w',
    cleanup_orphaned_files w_mixed = (Return tt, w') ∧
    disk w' !! orphan_path = None ∧
    disk w' !! "/tmp/notes.wav" = Some (File [Byte.x52] (t_now - 7200)).
Proof.
  destruct (cleanup_orphaned_files_spec w_mixed) as (w' & H1 & H2 & _ & H4).
  exists w'. split; [exact H1|].
  assert (Hyes : glob_selects (w_os w_mixed) (orphan_pattern w_mixed)
                   orphan_path = true).
  { apply H4; [done|reflexivity|]. exists "dead0001". split; reflexivity. }
  split.
  - rewrite H2, Hyes. by vm_compute.
  - rewrite H2. by vm_compute.
Defined.

(** With the built-in hour, the two-hour-old orphan goes. *)
Lemma sweep_removes_old_orphan :
  disk w_orphan !! orphan_path = Some (File [Byte.x52] (t_now - 7200)) ∧
  disk (cleanup_orphaned_files w_orphan).2 !! orphan_path = None.
Proof. split; by vm_compute. Qed.

(** C4 as stated fails: a matching file that is ten seconds old is older
    than a threshold of zero, and the sweep keeps it. *)
Lemma sweep_threshold_not_configurable :
  ~ spec_sweep_exactly_older 0 w_recent.
Proof.
  intros H.
  specialize (H orphan_path (File [Byte.x52] (t_now - 10))).
  destruct H as [H _]; [by vm_compute|by vm_compute|].
  assert (E : disk (cleanup_orphaned_files w_recent).2 !! orphan_path
              = Some (File [Byte.x52] (t_now - 10))) by (by vm_compute).
  rewrite H in E; [discriminate|]. cbn. unfold t_now. lia.
Qed.

(** ** Creating the artifact *)

Lemma os_path_join_nonempty dir name :
  name ≠ "" -> os_path_join dir name ≠ "".
Proof.
  intros Hn. unfold os_path_join.
  destruct (String.eqb dir "") eqn:E; [done|].
  apply String.eqb_neq in E.
  destruct dir as [|c dir]; [done|]. by destruct (str_endswith "/" _).
Qed.

(** The name [tempfile] settles on is not taken and is not empty. *)
Lemma pick_name_fresh dir cands files p rest :
  pick_name dir cands files = Some (p, rest) ->
  files !! p = None ∧ p ≠ "".
Proof.
  revert p rest. induction cands as [|r cands IH]; intros p rest; [done|].
  cbn [pick_name].
  destruct (files !! os_path_join dir ("tmp" +:+ r +:+ ".wav")) eqn:E.
  - apply IH.
  - intros [= <- <-]. split; [done|]. by apply os_path_join_nonempty.
Qed.

Lemma truthy_str_Some p : p ≠ "" -> truthy_str (Some p) = true.
Proof.
  intros H. cbn. apply negb_true_iff. by apply String.eqb_neq.
Qed.

Lemma NamedTemporaryFile_wav_ok w p rest :
  tmp_writable (w_os w) = true ->
  pick_name (tmpdir (w_os w)) (rand_names (w_os w)) (disk w) = Some (p, rest) ->
  NamedTemporaryFile_wav w = (Return p, created p rest w).
Proof.
  intros Hw Hp. unfold NamedTemporaryFile_wav. unfold disk in Hp.
  by rewrite Hw, Hp.
Qed.

(** ** [generate_audio], case by case *)

Lemma synthesis_call_fields text model speaker language p speed :
  let c := synthesis_call text model speaker language p speed in
  c_text c = text ∧ c_file_path c = p ∧ c_speed c = speed.
Proof.
  unfold synthesis_call.
  repeat match goal with |- context [if ?b then _ else _] => destruct b end;
    done.
Qed.

Lemma generate_audio_after_create text model speaker language speed w p rest :
  tmp_writable (w_os w) = true ->
  pick_name (tmpdir (w_os w)) (rand_names (w_os w)) (disk w) = Some (p, rest) ->
  generate_audio text model speaker language speed w =
  let c := synthesis_call text model speaker language p speed in
  let w1 := log_call c (created p rest w) in
  match tts_to_file model c with
  | SynthOk d =>
      (Return (Some p),
       set_ss (set_tracked (fun s => s ∪ {[p]}))
         (set_os (set_fs (insert p (File d (now (w_os w))))) w1))
  | SynthErr e (Some d) =>
      generate_audio_on_error (Some p) e
        (set_os (set_fs (insert p (File d (now (w_os w))))) w1)
  | SynthErr e None =>
      generate_audio_on_error (Some p) e (set_os (set_fs (delete p)) w1)
  end.
Proof.
  intros Hw Hp. unfold generate_audio.
  rewrite (NamedTemporaryFile_wav_ok _ _ _ Hw Hp).
  cbv zeta.
  destruct (synthesis_call_fields text model speaker language p speed)
    as (_ & Hpath & _).
  unfold try_except, bind at 1, call_tts_to_file. rewrite Hpath.
  destruct (tts_to_file model _) as [d|e [d|]]; reflexivity.
Qed.

Lemma on_error_present p e w f :
  p ≠ "" -> disk w !! p = Some f ->
  generate_audio_on_error (Some p) e w =
  (Return None,
   log_ui [st_error ("Error generating audio: " +:+ exn_msg e)]
     (if bool_decide (p ∈ locked (w_os w)) then w
      else set_os (set_fs (delete p)) w)).
Proof.
  intros Hne Hf. unfold generate_audio_on_error.
  rewrite (truthy_str_Some _ Hne).
  unfold bind at 1, bind at 1, os_path_exists.
  rewrite bool_decide_eq_true_2 by (rewrite Hf; by eexists).
  unfold when, try_except, os_unlink. rewrite Hf.
  destruct (bool_decide (p ∈ locked (w_os w))); reflexivity.
Qed.

Lemma on_error_absent p e w :
  disk w !! p = None ->
  generate_audio_on_error (Some p) e w =
  (Return None,
   log_ui [st_error ("Error generating audio: " +:+ exn_msg e)] w).
Proof.
  intros Hf. unfold generate_audio_on_error.
  destruct (truthy_str (Some p)).
  - unfold bind at 1, bind at 1, os_path_exists.
    rewrite bool_decide_eq_false_2 by (rewrite Hf; by intros [? ?]).
    reflexivity.
  - reflexivity.
Qed.

Lemma generate_audio_no_file text model speaker language speed w :
  (tmp_writable (w_os w) = false ∨
   pick_name (tmpdir (w_os w)) (rand_names (w_os w)) (disk w) = None) ->
  exists e,
    generate_audio text model speaker language speed w =
    (Return None,
     log_ui [st_error ("Error generating audio: " +:+ exn_msg e)] w).
Proof.
  intros H. unfold generate_audio, NamedTemporaryFile_wav.
  destruct (tmp_writable (w_os w)) eqn:Hw.
  - destruct H as [H|H]; [done|]. unfold disk in H. rewrite H.
    eexists. reflexivity.
  - eexists. reflexivity.
Qed.

(** When [generate_audio] returns a path, the file was made by
    [tempfile] and filled by the provider. *)
Lemma generate_audio_Some_inv text model speaker language speed w p w1 :
  generate_audio text model speaker language speed w = (Return (Some p), w1) ->
  exists rest data,
    tmp_writable (w_os w) = true ∧
    pick_name (tmpdir (w_os w)) (rand_names (w_os w)) (disk w)
      = Some (p, rest) ∧
    tts_to_file model (synthesis_call text model speaker language p speed)
      = SynthOk data ∧
    w1 = set_ss (set_tracked (fun s => s ∪ {[p]}))
           (set_os (set_fs (insert p (File data (now (w_os w)))))
              (log_call (synthesis_call text model speaker language p speed)
                 (created p rest w))).
Proof.
  intros H.
  destruct (tmp_writable (w_os w)) eqn:Hw.
  2:{ destruct (generate_audio_no_file text model speaker language speed w)
        as [e He]; [by left|]. rewrite He in H. done. }
  destruct (pick_name (tmpdir (w_os w)) (rand_names (w_os w)) (disk w))
    as [[q rest]|] eqn:Hp.
  2:{ destruct (generate_audio_no_file text model speaker language speed w)
        as [e He]; [by right|]. rewrite He in H. done. }
  destruct (pick_name_fresh _ _ _ _ _ Hp) as [Hfree Hne].
  rewrite (generate_audio_after_create _ _ _ _ _ _ _ _ Hw Hp) in H.
  cbv zeta in H.
  destruct (tts_to_file model _) as [d|e [d|]] eqn:Ho.
  - injection H as -> <-. by exists rest, d.
  - erewrite on_error_present in H; [done|done|disk_lookup].
  - rewrite on_error_absent in H by disk_lookup. done.
Qed.

(** ** [generate_audio] when the provider fails *)

(** What [generate_audio] leaves behind when the provider fails: [None]
    is returned after the error is shown, the Tracking Set is as it was,
    and the partial file is removed unless [os.unlink] fails, in which
    case the failure is ignored and the file stays. No other file
    changes. *)
Lemma generate_audio_failure_run
  (text : string) (model : TTS) (speaker language : option string)
  (speed : Q) (w : world) (p : string) (rest : list string) (e : exn)
  (left_behind : option bytes) :
  tmp_writable (w_os w) = true ->
  pick_name (tmpdir (w_os w)) (rand_names (w_os w)) (disk w) = Some (p, rest) ->
  tts_to_file model (synthesis_call text model speaker language p speed)
    = SynthErr e left_behind ->
  exists w',
    generate_audio text model speaker language speed w = (Return None, w') ∧
    tracking_set w' = tracking_set w ∧
    w_ui w' = (w_ui w ++
                 [st_error ("Error generating audio: " +:+ exn_msg e)])%list ∧
    disk w' !! p =
      (if bool_decide (p ∈ locked (w_os w))
       then (fun d => File d (now (w_os w))) <$> left_behind
       else None) ∧
    (forall q, q ≠ p -> disk w' !! q = disk w !! q).
Proof.
  intros Hw Hp He.
  destruct (pick_name_fresh _ _ _ _ _ Hp) as [Hfree Hne].
  rewrite (generate_audio_after_create _ _ _ _ _ _ _ _ Hw Hp).
  cbv zeta. rewrite He. destruct left_behind as [d|].
  - erewrite on_error_present;
      [|done|disk_lookup].
    eexists. split; [reflexivity|].
    cbn [w_os set_os log_call created locked set_fs set_rand_names].
    destruct (bool_decide (p ∈ locked (w_os w))); cbn.
    + repeat split; try done.
      * disk_lookup.
      * intros q Hq. disk_lookup.
    + repeat split; try done.
      * disk_lookup.
      * intros q Hq. disk_lookup.
  - rewrite on_error_absent by (disk_lookup).
    eexists. split; [reflexivity|]. cbn.
    repeat split; try done.
    + unfold disk; cbn. rewrite lookup_delete_eq. by destruct (bool_decide _).
    + intros q Hq. disk_lookup.
Qed.

(** C1, as the code has it. When the synthesis provider fails,
    [generate_audio] does not raise: it shows the error and returns
    [None]. The Tracking Set is left as it was, because a path is added
    only after a successful synthesis; so the failed artifact is not
    tracked unless that path already was. The partial file is removed
    from disk when [os.unlink] succeeds; when it fails the failure is
    ignored and the file stays. *)
Theorem generate_audio_provider_failure
  (text : string) (model : TTS) (speaker language : option string)
  (speed : Q) (w : world) (p : string) (rest : list string) (e : exn)
  (left_behind : option bytes) :
  tmp_writable (w_os w) = true ->
  pick_name (tmpdir (w_os w)) (rand_names (w_os w)) (disk w) = Some (p, rest) ->
  tts_to_file model (synthesis_call text model speaker language p speed)
    = SynthErr e left_behind ->
  exists w',
    generate_audio text model speaker language speed w = (Return None, w') ∧
    w_ui w' = (w_ui w ++
                 [st_error ("Error generating audio: " +:+ exn_msg e)])%list ∧
    tracking_set w' = tracking_set w ∧
    (p ∉ tracking_set w -> p ∉ tracking_set w') ∧
    (p ∉ locked (w_os w) -> disk w' !! p = None) ∧
    (p ∈ locked (w_os w) ->
     disk w' !! p = (fun d => File d (now (w_os w))) <$> left_behind).
Proof.
  intros Hw Hp He.
  destruct (generate_audio_failure_run _ _ _ _ _ _ _ _ _ _ Hw Hp He)
    as (w' & Hrun & Htr & Hui & Hdisk & _).
  exists w'. split; [exact Hrun|]. split; [exact Hui|].
  split; [exact Htr|]. split; [by rewrite Htr|]. split.
  - intros Hlock. rewrite Hdisk. by rewrite bool_decide_eq_false_2.
  - intros Hlock. rewrite Hdisk. by rewrite bool_decide_eq_true_2.
Qed.

(** The scenario of the spec: a failing synthesis in a clean directory.
    [None] comes back, the partial file is gone and nothing is
    tracked. *)
Lemma generate_audio_provider_failure_witness :
  exists w',
    generate_audio "Bonjour" model_failing None None 1%Q w_clean
      = (Return None, w') ∧
    disk w' !! artifact_path = None ∧
    tracking_set w' = ∅.
Proof.
  destruct (generate_audio_provider_failure "Bonjour" model_failing None None
              1%Q w_clean artifact_path ["zz0042mm"]
              (Exn "RuntimeError" "CUDA out of memory")
              (Some [Byte.x52; Byte.x49]))
    as (w' & Hrun & _ & Htr & _ & Hdisk & _);
    [reflexivity|by vm_compute|reflexivity|].
  exists w'. split; [exact Hrun|]. split; [|exact Htr].
  apply Hdisk, not_elem_of_empty.
Defined.

(** C1 as stated fails: the provider fails, the call returns [None], and
    the partial file is still on disk, because its deletion failed and
    the handler ignores that. *)
Lemma generate_audio_may_leak_partial_file :
  (generate_audio "Bonjour" model_failing None None 1%Q w_lock_next).1
    = Return None ∧
  disk (generate_audio "Bonjour" model_failing None None 1%Q w_lock_next).2
    !! artifact_path = Some (File [Byte.x52; Byte.x49] t_now).
Proof. split; by vm_compute. Qed.

(** ** The page reads the artifact and lets it go *)

Lemma read_and_release_present w p f :
  disk w !! p = Some f ->
  read_and_release p w =
  let w1 := log_ui [st_audio (f_data f);
                    st_download_button (f_data f) "read_text.wav"] w in
  if bool_decide (p ∈ locked (w_os w))
  then (Raise (PermissionError p), w1)
  else (Return (f_data f), set_os (set_fs (delete p)) w1).
Proof.
  intros Hf. unfold read_and_release, bind at 1, open_read. rewrite Hf.
  unfold bind, emit, modify, os_unlink.
  replace (disk (log_ui [st_download_button (f_data f) "read_text.wav"]
             (log_ui [st_audio (f_data f)] w)) !! p) with (Some f) by done.
  cbn [w_os log_ui locked].
  destruct (bool_decide (p ∈ locked (w_os w)));
    unfold log_ui, set_os; cbn; by rewrite <- app_assoc.
Qed.

Lemma read_and_release_missing w p :
  disk w !! p = None ->
  read_and_release p w = (Raise (FileNotFoundError p), w).
Proof.
  intros Hf. unfold read_and_release, bind at 1, open_read. by rewrite Hf.
Qed.

(** Reading and releasing never touches the Tracking Set. *)
Lemma read_and_release_tracking w p :
  tracking_set (read_and_release p w).2 = tracking_set w.
Proof.
  destruct (disk w !! p) as [f|] eqn:E.
  - rewrite (read_and_release_present _ _ _ E). cbv zeta.
    by destruct (bool_decide _).
  - by rewrite (read_and_release_missing _ _ E).
Qed.

(** C6, as the code has it. After a successful [generate_audio] the
    artifact exists and holds exactly the bytes the provider wrote, be
    they none. What the read that follows does depends on the deletion.
    When the system permits it, the read returns exactly these bytes
    and the file is gone. When the system refuses it, the read shows
    the audio and raises [PermissionError], and the file stays with
    its bytes. *)
Theorem write_then_read_and_release
  (text : string) (model : TTS) (speaker language : option string)
  (speed : Q) (w w1 : world) (p : string) :
  generate_audio text model speaker language speed w = (Return (Some p), w1) ->
  exists data w2,
    tts_to_file model (synthesis_call text model speaker language p speed)
      = SynthOk data ∧
    disk w1 !! p = Some (File data (now (w_os w))) ∧
    (p ∉ locked (w_os w) ->
     read_and_release p w1 = (Return data, w2) ∧ disk w2 !! p = None) ∧
    (p ∈ locked (w_os w) ->
     read_and_release p w1 = (Raise (PermissionError p), w2) ∧
     st_audio data ∈ w_ui w2 ∧
     disk w2 !! p = Some (File data (now (w_os w)))).
Proof.
  intros Hg.
  destruct (generate_audio_Some_inv _ _ _ _ _ _ _ _ Hg)
    as (rest & data & Hw & Hp & Hok & ->).
  match goal with |- context [disk ?x !! p = Some _] => set (w1 := x) end.
  assert (Hf : disk w1 !! p = Some (File data (now (w_os w)))).
  { unfold w1. disk_lookup. }
  exists data, (read_and_release p w1).2.
  split; [exact Hok|]. split; [exact Hf|].
  rewrite (read_and_release_present _ _ _ Hf). cbv zeta.
  change (locked (w_os w1)) with (locked (w_os w)).
  destruct (bool_decide (p ∈ locked (w_os w))) eqn:B.
  - apply bool_decide_eq_true in B. split; [done|]. intros _.
    split; [reflexivity|]. split; [ui_mem|exact Hf].
  - apply bool_decide_eq_false in B. split; [|done]. intros _.
    split; [reflexivity|]. unfold w1. disk_lookup.
Qed.

(** The scenario of the spec: the provider writes 5000 bytes, the read
    returns 5000 bytes and the file no longer exists. *)
Lemma write_then_read_and_release_witness :
  exists w1 w2,
    generate_audio "Bonjour" model_ok None None 1%Q w_clean
      = (Return (Some artifact_path), w1) ∧
    disk w1 !! artifact_path = Some (File five_thousand_bytes t_now) ∧
    read_and_release artifact_path w1 = (Return five_thousand_bytes, w2) ∧
    disk w2 !! artifact_path = None ∧
    length five_thousand_bytes = 5000%nat.
Proof.
  eexists.
  match goal with |- exists w2, generate_audio _ _ _ _ _ _ = (_, ?w1) ∧ _ =>
    destruct (write_then_read_and_release "Bonjour" model_ok None None 1%Q
                w_clean w1 artifact_path)
      as (data & w2 & H1 & H2 & H3 & _); [by vm_compute|]
  end.
  injection H1 as <-.
  destruct H3 as [H3 H4]; [apply not_elem_of_empty|].
  exists w2. split; [reflexivity|]. split; [exact H2|].
  split; [exact H3|]. split; [exact H4|].
  unfold five_thousand_bytes. apply length_replicate.
Defined.

(** C6 as stated fails. The write succeeds, the read that follows
    raises and the file is still there: the system refused the
    deletion, which nothing in [main] guards. And a provider that
    returns without writing leaves an empty artifact. *)
Lemma read_after_write_may_keep_file :
  (exists w1,
     generate_audio "Bonjour" model_ok None None 1%Q w_loaded_stuck
       = (Return (Some artifact_path), w1) ∧
     (read_and_release artifact_path w1).1
       = Raise (PermissionError artifact_path) ∧
     disk (read_and_release artifact_path w1).2 !! artifact_path
       = Some (File five_thousand_bytes t_now)) ∧
  (exists w1,
     generate_audio "Bonjour" model_silent None None 1%Q w_clean
       = (Return (Some artifact_path), w1) ∧
     disk w1 !! artifact_path = Some (File [] t_now)).
Proof.
  split; eexists; (split; [by vm_compute|]); [split|]; by vm_compute.
Qed.

(** ** Which keywords reach the provider *)

Lemma on_error_calls p e w :
  p ≠ "" ->
  w_calls (generate_audio_on_error (Some p) e w).2 = w_calls w.
Proof.
  intros Hne. destruct (disk w !! p) as [f|] eqn:E.
  - rewrite (on_error_present _ _ _ _ Hne E). cbn.
    by destruct (bool_decide _).
  - by rewrite (on_error_absent _ _ _ E).
Qed.

(** Whatever the provider does, [generate_audio] calls it exactly once. *)
Lemma generate_audio_calls text model speaker language speed w p rest :
  tmp_writable (w_os w) = true ->
  pick_name (tmpdir (w_os w)) (rand_names (w_os w)) (disk w) = Some (p, rest) ->
  w_calls (generate_audio text model speaker language speed w).2 =
  (w_calls w ++ [synthesis_call text model speaker language p speed])%list.
Proof.
  intros Hw Hp. destruct (pick_name_fresh _ _ _ _ _ Hp) as [_ Hne].
  rewrite (generate_audio_after_create _ _ _ _ _ _ _ _ Hw Hp). cbv zeta.
  destruct (tts_to_file model _) as [d|e [d|]].
  - reflexivity.
  - by rewrite on_error_calls.
  - by rewrite on_error_calls.
Qed.

(** C8. When the model is multilingual and no language is supplied, the
    provider is still called, once, with the language "fr-fr". *)
Theorem multilingual_default_language
  (text : string) (model : TTS) (speaker language : option string)
  (speed : Q) (w : world) (p : string) (rest : list string) :
  truthy_attr (languages model) = true ->
  truthy_str language = false ->
  tmp_writable (w_os w) = true ->
  pick_name (tmpdir (w_os w)) (rand_names (w_os w)) (disk w) = Some (p, rest) ->
  exists c,
    w_calls (generate_audio text model speaker language speed w).2
      = (w_calls w ++ [c])%list ∧
    c_language c = Some "fr-fr" ∧
    c_text c = text ∧ c_file_path c = p ∧ c_speed c = speed.
Proof.
  intros Hml Hlang Hw Hp.
  exists (synthesis_call text model speaker language p speed).
  split; [by apply generate_audio_calls with rest|].
  unfold synthesis_call. rewrite Hml, Hlang.
  destruct (languages model); try discriminate.
  cbn. by rewrite andb_false_r.
Qed.

(** The multilingual model called without a language, whether or not a
    speaker is given. *)
Lemma multilingual_default_language_witness :
  exists c,
    w_calls (generate_audio "Bonjour" model_ok (Some "male-en-2") None 1%Q
               w_clean).2 = [c] ∧
    c_language c = Some "fr-fr".
Proof.
  destruct (multilingual_default_language "Bonjour" model_ok
              (Some "male-en-2") None 1%Q w_clean artifact_path ["zz0042mm"])
    as (c & H1 & H2 & _); [reflexivity|reflexivity|reflexivity|by vm_compute|].
  exists c. split; [exact H1|exact H2].
Defined.

(** ** Running [main] *)

Lemma log_ui_nil w : log_ui [] w = w.
Proof. destruct w. unfold log_ui; cbn. by rewrite app_nil_r. Qed.

Lemma log_ui_log_ui evs1 evs2 w :
  log_ui evs2 (log_ui evs1 w) = log_ui (evs1 ++ evs2) w.
Proof. unfold log_ui; cbn. by rewrite <- app_assoc. Qed.

Lemma for_each_ext {A} (f g : A -> M unit) l w :
  (forall x w', f x w' = g x w') -> for_each l f w = for_each l g w.
Proof.
  intros H. revert w. induction l as [|x l IH]; intros w; [done|].
  cbn [for_each]. unfold bind. rewrite H. destruct (g x w) as [[[]|e] w1]; [apply IH|done].
Qed.

Lemma main_test_button_run w :
  main_test_button w = (Return tt, log_ui (test_button_events (w_env w)) w).
Proof.
  unfold main_test_button, bind at 1, test_voice_loading, bind at 1, get, ret.
  unfold bind at 1, emit at 1, modify.
  rewrite (for_each_ext _
    (fun x => emit ((fun '(voice_key, status) =>
         if str_in "Available" status
         then st_success ("✅ " +:+ voice_key)
         else st_error ("❌ " +:+ voice_key +:+ ": " +:+ status)) x))).
  2:{ intros [k st] w'. by destruct (str_in "Available" st). }
  rewrite for_each_emit, log_ui_log_ui. reflexivity.
Qed.

(** The button part of [main] only adds to the page. *)
Lemma main_button_part i w :
  exists evs, when (test_button i) main_test_button w = (Return tt, log_ui evs w).
Proof.
  destruct (test_button i); cbn [when].
  - eexists. apply main_test_button_run.
  - exists []. by rewrite log_ui_nil.
Qed.

(** The part of [main] up to the button only adds to the page. *)
Lemma main_head_part i w :
  exists evs,
    when (test_button i) main_test_button (log_ui page_head w)
    = (Return tt, log_ui evs w).
Proof.
  destruct (main_button_part i (log_ui page_head w)) as [evs ->].
  eexists. by rewrite log_ui_log_ui.
Qed.

Lemma load_attempt_result model_name w :
  load_attempt model_name w = (load_result (w_env w) model_name, w).
Proof.
  unfold load_attempt, load_result, bind, get, lift, ret.
  destruct (add_safe_globals (w_env w)) as [[]|e]; [|done].
  destruct (TTS_init (w_env w) model_name) as [t0|e]; [|done].
  by destruct (TTS_to (w_env w) t0 _).
Qed.

Lemma load_tts_model_body_run model_name w :
  load_tts_model_body model_name w =
  match load_result (w_env w) model_name with
  | Return v => (Return v, w)
  | Raise e =>
      (Return None, log_ui [st_error ("Error loading model: " +:+ exn_msg e)] w)
  end.
Proof.
  unfold load_tts_model_body, try_except. rewrite load_attempt_result.
  by destruct (load_result (w_env w) model_name).
Qed.

Lemma load_tts_model_miss model_name w :
  w_cache w !! model_name = None ->
  load_tts_model model_name w =
  match load_result (w_env w) model_name with
  | Return v =>
      (Return v, set_cache model_name v (set_replay model_name [] w))
  | Raise e =>
      let shown := [st_error ("Error loading model: " +:+ exn_msg e)] in
      (Return None,
       set_cache model_name None
         (set_replay model_name shown (log_ui shown w)))
  end.
Proof.
  intros Hc. unfold load_tts_model, bind at 1, get. rewrite Hc.
  unfold bind at 1. rewrite load_tts_model_body_run.
  destruct (load_result (w_env w) model_name) as [v|e].
  - unfold bind, get, modify, cache_store, ret. by rewrite drop_all.
  - unfold bind, get, modify, cache_store, ret. cbv zeta.
    cbn [w_ui log_ui]. by rewrite drop_app_length.
Qed.

Lemma load_tts_model_hit model_name w v :
  w_cache w !! model_name = Some v ->
  load_tts_model model_name w
  = (Return v, log_ui (replay_of w model_name) w).
Proof.
  intros Hc. unfold load_tts_model, bind at 1, get. by rewrite Hc.
Qed.

Lemma main_autoload_skip model_path w m :
  tts_model (w_ss w) = Some m ->
  last_model_path (w_ss w) = Some model_path ->
  main_autoload model_path w = (Return tt, w).
Proof.
  intros Hm Hl. unfold main_autoload, bind at 1, get. rewrite Hm, Hl.
  rewrite bool_decide_eq_true_2 by (by eexists).
  by rewrite bool_decide_eq_false_2 by (intros H; by apply H).
Qed.

Lemma main_autoload_fail model_path w e :
  tts_model (w_ss w) = None ∨ last_model_path (w_ss w) ≠ Some model_path ->
  w_cache w !! model_path = None ->
  load_result (w_env w) model_path = Raise e ->
  main_autoload model_path w =
  (Return tt,
   log_ui [st_error "❌ Failed to load model"]
     (set_ss (set_model None (Some model_path))
        (set_cache model_path None
           (set_replay model_path
              [st_error ("Error loading model: " +:+ exn_msg e)]
              (log_ui [st_error ("Error loading model: " +:+ exn_msg e)]
                 w))))).
Proof.
  intros Hm Hc He. unfold main_autoload, bind at 1, get.
  assert (Hgo : negb (bool_decide (is_Some (tts_model (w_ss w))))
                || bool_decide (last_model_path (w_ss w) ≠ Some model_path)
                = true).
  { destruct Hm as [Hm|Hm].
    - rewrite Hm, bool_decide_eq_false_2 by (by intros [? ?]). done.
    - rewrite (bool_decide_eq_true_2 _ Hm). apply orb_true_r. }
  rewrite Hgo. cbn [when]. unfold bind at 1.
  rewrite (load_tts_model_miss _ _ Hc), He. reflexivity.
Qed.

Lemma main_reader_blank model_path speaker i w :
  strip_truthy (text_input i) = false ->
  main_reader model_path speaker i w = (Return tt, w).
Proof.
  intros H. unfold main_reader, bind, get. rewrite H.
  by destruct (tts_model (w_ss w)).
Qed.

Lemma main_reader_no_model model_path speaker i w :
  tts_model (w_ss w) = None -> main_reader model_path speaker i w = (Return tt, w).
Proof. intros H. unfold main_reader, bind, get. by rewrite H. Qed.

Lemma main_run i w label model_path speaker :
  voice_options !! selected_voice_idx i = Some (label, model_path, speaker) ->
  main i w =
  match when (test_button i) main_test_button (log_ui page_head w) with
  | (Return _, w1) =>
      match main_autoload model_path w1 with
      | (Return _, w2) =>
          then_foot
            (main_reader model_path speaker i
               (log_ui (status_events i w2) w2))
      | (Raise e, w2) => (Raise e, w2)
      end
  | (Raise e, w1) => (Raise e, w1)
  end.
Proof.
  intros Hv. unfold main, bind at 1, modify at 1, bind at 1.
  destruct (when (test_button i) main_test_button (log_ui page_head w))
    as [[[]|e] w1]; [|done].
  rewrite Hv. unfold bind at 1.
  destruct (main_autoload model_path w1) as [[[]|e] w2]; [|done].
  unfold bind at 1, get. unfold bind at 1.
  unfold status_events, then_foot.
  destruct (tts_model (w_ss w2)) as [m|];
    destruct (1000 <? py_len (text_input i))%nat;
    unfold bind, emit, modify, when, pass, ret; cbv beta iota;
    rewrite ?log_ui_log_ui, <- ?app_assoc; cbn [app];
    by destruct (main_reader _ _ _ _) as [[[]|e] w3].
Qed.

(** An index outside the voice table stops [main] after the button. *)
Lemma main_no_row i w :
  voice_options !! selected_voice_idx i = None ->
  exists evs, main i w = (Raise IndexError, log_ui evs w).
Proof.
  intros Hv. unfold main, bind at 1, modify at 1, bind at 1.
  destruct (main_head_part i w) as [evs ->]. rewrite Hv. by exists evs.
Qed.

(** ** A model that cannot be loaded *)

(** C9. When loading the model fails, that is when the [try] block of
    [load_tts_model] raises, the exception stops inside
    [load_tts_model]: the call shows the error on the page and returns
    [None]. [main], which loads because no model is set or the selection
    changed, then runs to its end without raising: the page shows the
    failure, no model is set, nothing is synthesised and no file is
    touched. *)
Theorem load_failure_is_contained
  (i : inputs) (w : world) (label model_path : string)
  (speaker : option string) (e : exn) :
  voice_options !! selected_voice_idx i = Some (label, model_path, speaker) ->
  tts_model (w_ss w) = None ∨ last_model_path (w_ss w) ≠ Some model_path ->
  w_cache w !! model_path = None ->
  (load_attempt model_path w).1 = Raise e ->
  (exists w1,
     load_tts_model model_path w = (Return None, w1) ∧
     w_ui w1 = (w_ui w ++
                  [st_error ("Error loading model: " +:+ exn_msg e)])%list) ∧
  (exists w',
     main i w = (Return tt, w') ∧
     st_error ("Error loading model: " +:+ exn_msg e) ∈ w_ui w' ∧
     st_error "❌ Failed to load model" ∈ w_ui w' ∧
     tts_model (w_ss w') = None ∧
     w_calls w' = w_calls w ∧ disk w' = disk w).
Proof.
  intros Hv Hm Hc He. rewrite load_attempt_result in He. cbn [fst] in He.
  split.
  - rewrite (load_tts_model_miss _ _ Hc), He. eexists. split; reflexivity.
  - rewrite (main_run _ _ _ _ _ Hv).
    destruct (main_head_part i w) as [evs ->].
    rewrite (main_autoload_fail _ _ e) by done.
    rewrite main_reader_no_model by done.
    eexists. split; [reflexivity|].
    cbn [w_ui log_ui set_ss set_cache set_replay w_ss set_model tts_model
         w_calls].
    repeat split.
    + rewrite !elem_of_app, !list_elem_of_singleton. tauto.
    + rewrite !elem_of_app, !list_elem_of_singleton. tauto.
Qed.

(** The model files are missing: the page reports it and the run ends
    normally. *)
Lemma load_failure_is_contained_witness :
  exists w',
    main in_idle w_unavailable = (Return tt, w') ∧
    st_error "Error loading model: model files not found" ∈ w_ui w' ∧
    tts_model (w_ss w') = None.
Proof.
  destruct (load_failure_is_contained in_idle w_unavailable
              "👨 Pierre (Voix Masculine Claire)" "tts_models/fr/css10/vits"
              None (Exn "OSError" "model files not found"))
    as (_ & w' & H1 & H2 & _ & H3 & _);
    [reflexivity|by left|reflexivity|reflexivity|].
  exists w'. by repeat split.
Defined.

Lemma read_and_release_calls w p :
  w_calls (read_and_release p w).2 = w_calls w.
Proof.
  destruct (disk w !! p) as [f|] eqn:E.
  - rewrite (read_and_release_present _ _ _ E). cbv zeta.
    by destruct (bool_decide _).
  - by rewrite (read_and_release_missing _ _ E).
Qed.

Lemma main_reader_run model_path speaker i w model :
  tts_model (w_ss w) = Some model ->
  strip_truthy (text_input i) = true ->
  main_reader model_path speaker i w =
  match generate_audio (text_input i) model
          (reader_args model_path speaker).1 (reader_args model_path speaker).2
          (voice_speed i) w with
  | (Return (Some p), w1) =>
      if truthy_str (Some p) then
        match read_and_release p w1 with
        | (Return _, w2) =>
            (Return tt, log_ui [st_success "✅ Reading complete!"] w2)
        | (Raise e, w2) => (Raise e, w2)
        end
      else (Return tt, w1)
  | (Return None, w1) => (Return tt, w1)
  | (Raise e, w1) => (Raise e, w1)
  end.
Proof.
  intros Hm Ht. unfold main_reader, bind at 1, get. rewrite Hm, Ht.
  cbn [when]. unfold bind at 1, reader_args.
  destruct (str_in "your_tts" model_path && truthy_str speaker);
    [|destruct (truthy_str speaker)]; cbn [fst snd];
    (destruct (generate_audio _ _ _ _ _ w) as [[[p|]|e] w1]; [|done|done]);
    (destruct (truthy_str (Some p)); [|done]);
    cbn [when]; unfold bind at 1;
    (destruct (read_and_release p w1) as [[b|e] w2]; done).
Qed.

Lemma main_reader_calls model_path speaker i w model p rest :
  tts_model (w_ss w) = Some model ->
  strip_truthy (text_input i) = true ->
  tmp_writable (w_os w) = true ->
  pick_name (tmpdir (w_os w)) (rand_names (w_os w)) (disk w) = Some (p, rest) ->
  w_calls (main_reader model_path speaker i w).2 =
  (w_calls w ++
   [synthesis_call (text_input i) model (reader_args model_path speaker).1
      (reader_args model_path speaker).2 p (voice_speed i)])%list.
Proof.
  intros Hm Ht Hw Hp. rewrite (main_reader_run _ _ _ _ _ Hm Ht).
  rewrite <- (generate_audio_calls _ _ _ _ _ _ _ _ Hw Hp).
  destruct (generate_audio _ _ _ _ _ w) as [[[q|]|e] w1]; [|done|done].
  destruct (truthy_str (Some q)); [|done].
  cbn [snd]. rewrite <- (read_and_release_calls w1 q).
  by destruct (read_and_release q w1) as [[b|e] w2].
Qed.

(** ** The speaker handed to the provider *)

(** What follows the reader touches nothing but the page. *)
Lemma then_foot_frame r :
  w_calls (then_foot r).2 = w_calls r.2 ∧
  w_os (then_foot r).2 = w_os r.2 ∧
  w_ss (then_foot r).2 = w_ss r.2 ∧
  w_cache (then_foot r).2 = w_cache r.2 ∧
  w_atexit (then_foot r).2 = w_atexit r.2.
Proof. by destruct r as [[[]|e] w]. Qed.

(** The model [main] reads with: the session's model when it belongs to
    the selected voice, otherwise the one that [load_tts_model] gives,
    from the cache or from the provider. *)
Lemma main_autoload_gives model_path w model :
  (tts_model (w_ss w) = Some model
   ∧ last_model_path (w_ss w) = Some model_path)
  ∨ ((tts_model (w_ss w) = None ∨ last_model_path (w_ss w) ≠ Some model_path)
     ∧ (w_cache w !! model_path = Some (Some model)
        ∨ (w_cache w !! model_path = None
           ∧ (load_attempt model_path w).1 = Return (Some model)))) ->
  exists w2,
    main_autoload model_path w = (Return tt, w2) ∧
    run_quiet w w2 ∧ tts_model (w_ss w2) = Some model.
Proof.
  intros [[Hm Hl]|[Hm Hc]].
  - rewrite (main_autoload_skip _ _ model) by done. by exists w.
  - unfold main_autoload, bind at 1, get.
    assert (Hgo : negb (bool_decide (is_Some (tts_model (w_ss w))))
                  || bool_decide (last_model_path (w_ss w) ≠ Some model_path)
                  = true).
    { destruct Hm as [Hm|Hm].
      - rewrite Hm, bool_decide_eq_false_2 by (by intros [? ?]). done.
      - rewrite (bool_decide_eq_true_2 _ Hm). apply orb_true_r. }
    rewrite Hgo. cbn [when]. unfold bind at 1.
    destruct Hc as [Hc|[Hc He]].
    + rewrite (load_tts_model_hit _ _ _ Hc). by eexists.
    + rewrite load_attempt_result in He. cbn [fst] in He.
      rewrite (load_tts_model_miss _ _ Hc), He. by eexists.
Qed.

(** C10. The rows of the voice table labelled "Sophie" and "Laurent"
    carry the speakers "female-pt-4\n" and "male-pt-3\n", which end
    with a newline. When one of them is selected and some text is
    entered, [main] calls the provider once, with exactly that speaker,
    newline included. This holds in the run in which the voice is
    selected, where [main] first loads the multilingual model from the
    provider or takes it from the cache, and in the later runs, where
    the session holds the model. *)
Theorem newline_speaker_reaches_provider
  (i : inputs) (w : world) (model : TTS) (p : string) (rest : list string) :
  selected_voice_idx i = 2%nat ∨ selected_voice_idx i = 4%nat ->
  (tts_model (w_ss w) = Some model
   ∧ last_model_path (w_ss w) = Some your_tts)
  ∨ ((tts_model (w_ss w) = None ∨ last_model_path (w_ss w) ≠ Some your_tts)
     ∧ (w_cache w !! your_tts = Some (Some model)
        ∨ (w_cache w !! your_tts = None
           ∧ (load_attempt your_tts w).1 = Return (Some model)))) ->
  truthy_attr (languages model) = true ∨ truthy_attr (speakers model) = true ->
  strip_truthy (text_input i) = true ->
  tmp_writable (w_os w) = true ->
  pick_name (tmpdir (w_os w)) (rand_names (w_os w)) (disk w) = Some (p, rest) ->
  exists label sp c,
    voice_options !! selected_voice_idx i = Some (label, your_tts, Some sp) ∧
    (selected_voice_idx i = 2%nat ->
     str_in "Sophie" label = true ∧ sp = "female-pt-4" +:+ nl) ∧
    (selected_voice_idx i = 4%nat ->
     str_in "Laurent" label = true ∧ sp = "male-pt-3" +:+ nl) ∧
    str_endswith nl sp = true ∧
    w_calls (main i w).2 = (w_calls w ++ [c])%list ∧
    c_speaker c = Some sp ∧ c_text c = text_input i.
Proof.
  intros Hidx Hmodel Hattr Ht Hw Hp.
  assert (Hrow : exists label sp,
    voice_options !! selected_voice_idx i = Some (label, your_tts, Some sp) ∧
    (selected_voice_idx i = 2%nat ->
     str_in "Sophie" label = true ∧ sp = "female-pt-4" +:+ nl) ∧
    (selected_voice_idx i = 4%nat ->
     str_in "Laurent" label = true ∧ sp = "male-pt-3" +:+ nl) ∧
    str_endswith nl sp = true ∧
    reader_args your_tts (Some sp) = (Some sp, Some "fr-fr") ∧
    truthy_str (Some sp) = true).
  { destruct Hidx as [-> | ->]; eexists _, _;
      (split; [reflexivity|]); repeat split; intros; try done; by vm_compute. }
  destruct Hrow as (label & sp & Hv & H2 & H4 & Hnl & Hargs & Hsp).
  exists label, sp,
    (synthesis_call (text_input i) model (Some sp) (Some "fr-fr") p
       (voice_speed i)).
  repeat (split; [assumption|]).
  rewrite (main_run _ _ _ _ _ Hv).
  destruct (main_head_part i w) as [evs ->].
  assert (Hmodel' :
    (tts_model (w_ss (log_ui evs w)) = Some model
     ∧ last_model_path (w_ss (log_ui evs w)) = Some your_tts)
    ∨ ((tts_model (w_ss (log_ui evs w)) = None
        ∨ last_model_path (w_ss (log_ui evs w)) ≠ Some your_tts)
       ∧ (w_cache (log_ui evs w) !! your_tts = Some (Some model)
          ∨ (w_cache (log_ui evs w) !! your_tts = None
             ∧ (load_attempt your_tts (log_ui evs w)).1
               = Return (Some model))))).
  { rewrite load_attempt_result in Hmodel |- *. exact Hmodel. }
  destruct (main_autoload_gives your_tts (log_ui evs w) model Hmodel')
    as (w2 & -> & (Hos & _ & Hcalls) & Hm2).
  destruct (then_foot_frame
              (main_reader your_tts (Some sp) i
                 (log_ui (status_events i w2) w2))) as (-> & _).
  erewrite main_reader_calls;
    [|done|done|cbn [w_os log_ui]; by rewrite Hos
     |unfold disk; cbn [w_os log_ui]; rewrite Hos; exact Hp].
  rewrite Hargs. cbn [fst snd w_calls log_ui]. rewrite Hcalls.
  split; [reflexivity|]. split.
  - unfold synthesis_call. rewrite Hsp.
    destruct Hattr as [Ha | Ha]; rewrite Ha.
    + destruct (languages model); try discriminate. reflexivity.
    + destruct (speakers model); try discriminate. cbn.
      by destruct (hasattr (languages model) && truthy_attr (languages model)).
  - apply synthesis_call_fields.
Qed.

(** A new session: Sophie is selected and "Bonjour" typed. The run
    loads the model and the provider receives the speaker with its
    newline. *)
Lemma newline_speaker_reaches_provider_witness :
  tts_model (w_ss w_clean) = None ∧
  exists c,
    w_calls (main (in_bonjour 2) w_clean).2 = [c] ∧
    c_speaker c = Some ("female-pt-4" +:+ nl) ∧
    c_language c = Some "fr-fr".
Proof.
  split; [reflexivity|].
  destruct (newline_speaker_reaches_provider (in_bonjour 2) w_clean model_ok
              artifact_path ["zz0042mm"])
    as (label & sp & c & Hrow & H2 & _ & _ & Hcalls & Hsp & _);
    [by left
    |right; split; [by left|right; split; reflexivity]
    |by left|reflexivity|reflexivity|by vm_compute|].
  destruct (H2 eq_refl) as [_ ->].
  exists c. split; [exact Hcalls|]. split; [exact Hsp|].
  assert (Hc : [c] = w_calls (main (in_bonjour 2) w_clean).2)
    by (by rewrite Hcalls).
  assert (Hv : w_calls (main (in_bonjour 2) w_clean).2 =
               [TtsCall "Bonjour" (Some ("female-pt-4" +:+ nl))
                        (Some "fr-fr") artifact_path 1%Q]) by (by vm_compute).
  rewrite Hv in Hc. by injection Hc as ->.
Defined.

(** ** The Tracking Set after the page released an artifact *)

(** C2, on the code. After [main] has synthesised, played and deleted an
    artifact, the file is gone from disk and its path is still in the
    Tracking Set: lines 273-285 unlink the file and never discard it
    from the set. *)
Theorem released_artifact_stays_tracked
  (i : inputs) (w : world) (label model_path : string)
  (speaker : option string) (model : TTS) (p : string) (rest : list string)
  (data : bytes) :
  voice_options !! selected_voice_idx i = Some (label, model_path, speaker) ->
  tts_model (w_ss w) = Some model ->
  last_model_path (w_ss w) = Some model_path ->
  strip_truthy (text_input i) = true ->
  tmp_writable (w_os w) = true ->
  pick_name (tmpdir (w_os w)) (rand_names (w_os w)) (disk w) = Some (p, rest) ->
  tts_to_file model
    (synthesis_call (text_input i) model (reader_args model_path speaker).1
       (reader_args model_path speaker).2 p (voice_speed i)) = SynthOk data ->
  p ∉ locked (w_os w) ->
  exists w',
    main i w = (Return tt, w') ∧
    st_audio data ∈ w_ui w' ∧
    disk w' !! p = None ∧
    p ∈ tracking_set w'.
Proof.
  intros Hv Hm Hl Ht Hw Hp Hok Hlock.
  destruct (pick_name_fresh _ _ _ _ _ Hp) as [_ Hne].
  rewrite (main_run _ _ _ _ _ Hv).
  destruct (main_head_part i w) as [evs ->].
  rewrite (main_autoload_skip _ _ model) by done.
  rewrite (main_reader_run _ _ _ _ model) by done.
  rewrite (generate_audio_after_create _ _ _ _ _ _ p rest) by done.
  cbv zeta. rewrite Hok, (truthy_str_Some _ Hne).
  erewrite read_and_release_present
    by (disk_lookup).
  cbv zeta.
  cbn [w_os set_ss set_os log_call created locked set_fs set_rand_names log_ui].
  rewrite bool_decide_eq_false_2 by done.
  eexists. split; [reflexivity|]. split; [|split].
  - ui_mem.
  - disk_lookup.
  - unfold tracking_set; cbn. set_solver.
Qed.

(** One visit of the page with the model loaded and "Bonjour" typed. *)
Lemma released_artifact_stays_tracked_witness :
  exists w',
    main (in_bonjour 2) w_loaded = (Return tt, w') ∧
    disk w' !! artifact_path = None ∧
    artifact_path ∈ tracking_set w'.
Proof.
  destruct (released_artifact_stays_tracked (in_bonjour 2) w_loaded
              "👩 Sophie (Voix Féminine Naturelle)" your_tts
              (Some ("female-pt-4" +:+ nl)) model_ok artifact_path
              ["zz0042mm"] five_thousand_bytes)
    as (w' & H1 & _ & H2 & H3);
    [reflexivity|reflexivity|reflexivity|reflexivity|reflexivity
    |by vm_compute|reflexivity|apply not_elem_of_empty|].
  exists w'. by repeat split.
Defined.

(** ** Reading an artifact that is not there *)

(** C3, as the code has it. Reading a handle whose file is missing
    raises [FileNotFoundError] and changes nothing; nothing around the
    read catches it. Called twice on a handle whose file is there, the
    outcome depends on the deletion. When the system permits it, the
    first call returns the data and removes the file and the second
    raises [FileNotFoundError]. When the system refuses it, the first
    call shows the audio and raises [PermissionError], the file stays,
    and the second call does the same again. *)
Theorem read_and_release_not_found (w : world) (p : string) :
  (disk w !! p = None ->
   read_and_release p w = (Raise (FileNotFoundError p), w)) ∧
  (forall f, disk w !! p = Some f -> p ∉ locked (w_os w) ->
     exists w1,
       read_and_release p w = (Return (f_data f), w1) ∧
       disk w1 !! p = None ∧
       read_and_release p w1 = (Raise (FileNotFoundError p), w1)) ∧
  (forall f, disk w !! p = Some f -> p ∈ locked (w_os w) ->
     exists w1 w2,
       read_and_release p w = (Raise (PermissionError p), w1) ∧
       disk w1 !! p = Some f ∧ st_audio (f_data f) ∈ w_ui w1 ∧
       read_and_release p w1 = (Raise (PermissionError p), w2) ∧
       disk w2 !! p = Some f).
Proof.
  split; [apply read_and_release_missing|]. split.
  - intros f Hf Hlock. rewrite (read_and_release_present _ _ _ Hf). cbv zeta.
    rewrite bool_decide_eq_false_2 by done.
    eexists. split; [reflexivity|].
    assert (Hgone : disk (set_os (set_fs (delete p))
                      (log_ui [st_audio (f_data f);
                               st_download_button (f_data f) "read_text.wav"]
                         w))
                    !! p = None).
    { disk_lookup. }
    split; [exact Hgone|]. by apply read_and_release_missing.
  - intros f Hf Hlock. rewrite (read_and_release_present _ _ _ Hf). cbv zeta.
    rewrite bool_decide_eq_true_2 by done.
    eexists _, _. split; [reflexivity|]. split; [exact Hf|].
    split; [ui_mem|].
    erewrite read_and_release_present by exact Hf. cbv zeta.
    cbn [w_os log_ui]. rewrite bool_decide_eq_true_2 by done.
    split; [reflexivity|exact Hf].
Qed.

(** An artifact read twice in a row, first where the system lets it go,
    then where it does not. *)
Lemma read_and_release_not_found_witness :
  (exists w1,
     read_and_release artifact_path w_two = (Return [Byte.x52], w1) ∧
     read_and_release artifact_path w1
       = (Raise (FileNotFoundError artifact_path), w1)) ∧
  (exists w1 w2,
     read_and_release artifact_path w_stuck
       = (Raise (PermissionError artifact_path), w1) ∧
     read_and_release artifact_path w1
       = (Raise (PermissionError artifact_path), w2) ∧
     disk w2 !! artifact_path = Some (File [Byte.x52] t_now)).
Proof.
  split.
  - destruct (read_and_release_not_found w_two artifact_path) as (_ & H & _).
    destruct (H (File [Byte.x52] t_now)) as (w1 & H1 & _ & H2);
      [by vm_compute|apply not_elem_of_empty|].
    exists w1. by split.
  - destruct (read_and_release_not_found w_stuck artifact_path)
      as (_ & _ & H).
    destruct (H (File [Byte.x52] t_now)) as (w1 & w2 & H1 & _ & _ & H2 & H3);
      [by vm_compute|by vm_compute|].
    by exists w1, w2.
Defined.

(** C3 as stated fails: on a handle whose file is missing the read does
    not yield a value, it raises. *)
Lemma read_and_release_missing_file_raises :
  disk w_clean !! artifact_path = None ∧
  (read_and_release artifact_path w_clean).1
    = Raise (FileNotFoundError artifact_path) ∧
  ~ (exists b, (read_and_release artifact_path w_clean).1 = Return b).
Proof.
  split; [by vm_compute|]. split; [by vm_compute|].
  intros [b Hb]. vm_compute in Hb. discriminate.
Qed.

(** ** A run of the script never removes a file it did not create *)

Lemma generate_audio_keeps text model speaker language speed w :
  let r := generate_audio text model speaker language speed w in
  (forall q f, disk w !! q = Some f ->
     r.1 ≠ Return (Some q) ∧ disk r.2 !! q = Some f).
Proof.
  cbv zeta. intros q f Hq.
  destruct (tmp_writable (w_os w)) eqn:Hw.
  2:{ destruct (generate_audio_no_file text model speaker language speed w)
        as [e ->]; [by left|]. by split. }
  destruct (pick_name (tmpdir (w_os w)) (rand_names (w_os w)) (disk w))
    as [[p rest]|] eqn:Hp.
  2:{ destruct (generate_audio_no_file text model speaker language speed w)
        as [e ->]; [by right|]. by split. }
  destruct (pick_name_fresh _ _ _ _ _ Hp) as [Hfree Hne].
  assert (Hqp : p ≠ q) by (intros ->; congruence).
  rewrite (generate_audio_after_create _ _ _ _ _ _ _ _ Hw Hp). cbv zeta.
  destruct (tts_to_file model _) as [d|e [d|]].
  - split; [intros [= ->]; done|].
    disk_lookup.
  - erewrite on_error_present;
      [|done|disk_lookup].
    split; [done|]. cbn [snd w_os set_os log_call created locked set_fs].
    destruct (bool_decide _); disk_lookup.
  - rewrite on_error_absent by (disk_lookup).
    split; [done|]. disk_lookup.
Qed.

Lemma read_and_release_keeps w p q :
  q ≠ p -> disk (read_and_release p w).2 !! q = disk w !! q.
Proof.
  intros Hne. destruct (disk w !! p) as [f|] eqn:E.
  - rewrite (read_and_release_present _ _ _ E). cbv zeta.
    destruct (bool_decide _); [done|].
    disk_lookup.
  - by rewrite (read_and_release_missing _ _ E).
Qed.

Lemma main_reader_keeps model_path speaker i w q f :
  disk w !! q = Some f ->
  disk (main_reader model_path speaker i w).2 !! q = Some f.
Proof.
  intros Hq.
  destruct (tts_model (w_ss w)) as [model|] eqn:Hm.
  2:{ by rewrite main_reader_no_model. }
  destruct (strip_truthy (text_input i)) eqn:Ht.
  2:{ unfold main_reader, bind, get. by rewrite Hm, Ht. }
  rewrite (main_reader_run _ _ _ _ _ Hm Ht).
  destruct (generate_audio_keeps (text_input i) model
              (reader_args model_path speaker).1
              (reader_args model_path speaker).2 (voice_speed i) w q f Hq)
    as [Hr Hd].
  destruct (generate_audio _ _ _ _ _ w) as [[[p|]|e] w1]; [|done|done].
  cbn [fst snd] in Hr, Hd.
  destruct (truthy_str (Some p)); [|done].
  assert (Hqp : q ≠ p) by (intros ->; done).
  pose proof (read_and_release_keeps w1 p q Hqp) as Hk.
  destruct (read_and_release p w1) as [[b|e] w2]; cbn [snd] in *;
    [|congruence].
  unfold disk in *; cbn. congruence.
Qed.

Lemma main_autoload_frame model_path w :
  exists w', main_autoload model_path w = (Return tt, w') ∧ w_os w' = w_os w.
Proof.
  unfold main_autoload, bind at 1, get.
  destruct (negb _ || _); cbn [when]; [|by eexists].
  unfold bind at 1. destruct (w_cache w !! model_path) as [v|] eqn:Hc.
  - rewrite (load_tts_model_hit _ _ _ Hc).
    destruct v; eexists; (split; [reflexivity|done]).
  - rewrite (load_tts_model_miss _ _ Hc).
    destruct (load_result (w_env w) model_path) as [[m|]|e];
      eexists; (split; [reflexivity|done]).
Qed.

(** C7, on the code. A run of the script, whatever the inputs, leaves
    every file that was on disk when it began: [cleanup_orphaned_files]
    is defined and never called, so a new session does not reclaim the
    artifacts of a dead one. *)
Theorem script_run_keeps_existing_files
  (i : inputs) (w : world) (q : string) (f : file) :
  disk w !! q = Some f ->
  disk (app_script i w).2 !! q = Some f.
Proof.
  intros Hq. unfold app_script, bind, atexit_register, modify.
  assert (Hq' : disk (add_atexit Fn_cleanup_temp_files w) !! q = Some f)
    by done.
  revert Hq'. generalize (add_atexit Fn_cleanup_temp_files w). clear w Hq.
  intros w Hq.
  destruct (voice_options !! selected_voice_idx i) as [[[label mp] sp]|] eqn:Hv.
  - rewrite (main_run _ _ _ _ _ Hv).
    destruct (main_head_part i w) as [evs ->].
    destruct (main_autoload_frame mp (log_ui evs w)) as (w2 & -> & Hos).
    unfold disk at 1.
    destruct (then_foot_frame
                (main_reader mp sp i (log_ui (status_events i w2) w2)))
      as (_ & -> & _).
    apply main_reader_keeps. unfold disk in *. cbn. by rewrite Hos.
  - by destruct (main_no_row i w Hv) as [evs ->].
Qed.

(** A new session whose orphan is two hours old: the run finishes and
    the orphan is still there, although the sweep, had it been called,
    would have removed it. *)
Lemma script_run_keeps_existing_files_witness :
  glob_match (orphan_pattern w_orphan) orphan_path = true ∧
  disk (cleanup_orphaned_files w_orphan).2 !! orphan_path = None ∧
  disk (app_script (in_bonjour 2) w_orphan).2 !! orphan_path
    = Some (File [Byte.x52] (t_now - 7200)).
Proof.
  split; [by vm_compute|]. split; [by vm_compute|].
  apply (script_run_keeps_existing_files (in_bonjour 2) w_orphan orphan_path).
  by vm_compute.
Defined.

(** * Further properties *)

Lemma sweep_fold_os l : forall w,
  w_os (foldl sweep_step w l) = set_fs (fun _ => disk (foldl sweep_step w l)) (w_os w).
Proof.
  induction l as [|p l IH]; intros w.
  - cbn. unfold set_fs, disk. by destruct (w_os w).
  - change (foldl sweep_step w (p :: l))
      with (foldl sweep_step (sweep_step w p) l).
    rewrite IH. unfold sweep_step. by destruct (sweep_deletes w p).
Qed.

(** A file goes exactly when the pattern selects it, it is old enough
    and the system lets it go. *)
Lemma sweep_removes_iff w p f :
  disk w !! p = Some f ->
  (disk (cleanup_orphaned_files w).2 !! p = None <->
   glob_selects (w_os w) (orphan_pattern w) p = true
   ∧ f_mtime f < now (w_os w) - 3600
   ∧ p ∉ locked (w_os w)).
Proof.
  intros Hf. rewrite cleanup_orphaned_files_run. cbn [snd].
  rewrite sweep_fold_disk.
  assert (Hin : p ∈ List.filter (glob_selects (w_os w) (orphan_pattern w))
                      (elements (dom (disk w)))
                <-> glob_selects (w_os w) (orphan_pattern w) p = true).
  { rewrite list_elem_of_In, filter_In. split; [tauto|].
    intros Hg. split; [|done].
    apply list_elem_of_In, elem_of_elements, elem_of_dom. by exists f. }
  unfold sweep_deletes. rewrite Hf. rewrite <- Hin.
  destruct (decide (p ∈ List.filter
                      (glob_selects (w_os w) (orphan_pattern w))
                      (elements (dom (disk w))))) as [Hi|Hi].
  - rewrite (bool_decide_eq_true_2 _ Hi). cbn [andb].
    destruct (f_mtime f <? now (w_os w) - 3600) eqn:Ht;
      [apply Z.ltb_lt in Ht|apply Z.ltb_ge in Ht].
    + destruct (decide (p ∈ locked (w_os w))) as [Hl|Hl].
      * rewrite (bool_decide_eq_true_2 _ Hl). cbn [andb negb].
        split; [done|tauto].
      * rewrite (bool_decide_eq_false_2 _ Hl). cbn [andb negb]. done.
    + cbn [andb negb]. split; [done|]. intros (_ & ? & _). lia.
  - rewrite (bool_decide_eq_false_2 _ Hi). cbn [andb].
    split; [done|tauto].
Qed.

(** X1. The files the sweep removes, by name. When the name of the
    temporary directory holds none of the characters that [glob]
    expands, a file goes exactly when it sits directly in the temporary
    directory, is called [tmp...wav], was last modified more than an
    hour ago and the system lets it go. *)
Theorem sweep_removes_by_name (w : world) (p : string) (f : file) :
  tmpdir (w_os w) ≠ "" ->
  has_magic (tmpdir (w_os w)) = false ->
  disk w !! p = Some f ->
  (disk (cleanup_orphaned_files w).2 !! p = None <->
   (exists r, p = os_path_join (tmpdir (w_os w)) (artifact_name r)
              ∧ has_char "/" r = false)
   ∧ f_mtime f < now (w_os w) - 3600
   ∧ p ∉ locked (w_os w)).
Proof.
  intros Hd Hmagic Hf.
  rewrite (sweep_removes_iff w p f Hf).
  pose proof (glob_selects_names w p Hd Hmagic) as Hname.
  split.
  - intros (Hg & Hold & Hlock). split; [by apply Hname|done].
  - intros (Hn & Hold & Hlock). split; [by apply Hname|done].
Qed.

(** Two files in the temporary directory, both two hours old: the one
    called like an artifact goes, the other stays. *)
Lemma sweep_removes_by_name_witness :
  disk (cleanup_orphaned_files w_mixed).2 !! orphan_path = None ∧
  disk (cleanup_orphaned_files w_mixed).2 !! "/tmp/notes.wav"
    = Some (File [Byte.x52] (t_now - 7200)).
Proof.
  split.
  - apply (sweep_removes_by_name w_mixed orphan_path
             (File [Byte.x52] (t_now - 7200)));
      [done|reflexivity|by vm_compute|].
    split; [exists "dead0001"; split; reflexivity|].
    split; [by vm_compute|]. apply not_elem_of_empty.
  - by vm_compute.
Defined.

(** X23. A temporary directory with a glob character in its name. When
    the name of the temporary directory holds one of the characters
    that [glob] expands, the sweep does not look into the temporary
    directory as such: a file goes exactly when it is called
    [tmp...wav] and sits directly in one of the directories that the
    name, read as a pattern, stands for, was last modified more than an
    hour ago and the system lets it go. *)
Theorem sweep_follows_glob_of_tmpdir (w : world) (p : string) (f : file) :
  tmpdir (w_os w) ≠ "" ->
  str_endswith "/" (tmpdir (w_os w)) = false ->
  has_magic (tmpdir (w_os w)) = true ->
  disk w !! p = Some f ->
  (disk (cleanup_orphaned_files w).2 !! p = None <->
   (exists d r, d ∈ dir_matches (w_os w) (tmpdir (w_os w))
                ∧ p = d +:+ "/" +:+ artifact_name r
                ∧ has_char "/" r = false)
   ∧ f_mtime f < now (w_os w) - 3600
   ∧ p ∉ locked (w_os w)).
Proof.
  intros Hd Hs Hmagic Hf.
  rewrite (sweep_removes_iff w p f Hf).
  pose proof (glob_selects_magic w p Hd Hs Hmagic) as Hname.
  split.
  - intros (Hg & Hold & Hlock). split; [by apply Hname|done].
  - intros (Hn & Hold & Hlock). split; [by apply Hname|done].
Qed.

(** The temporary directory is [/tmp/v[1]]: the sweep keeps the old
    artifact in it and removes the one in [/tmp/v1]. *)
Lemma sweep_follows_glob_of_tmpdir_witness :
  disk (cleanup_orphaned_files w_magic).2 !! foreign_artifact = None ∧
  disk (cleanup_orphaned_files w_magic).2 !! own_artifact
    = Some (File [Byte.x52] (t_now - 7200)).
Proof.
  split.
  - apply (sweep_follows_glob_of_tmpdir w_magic foreign_artifact
             (File [Byte.x49] (t_now - 7200)));
      [done|reflexivity|reflexivity|by vm_compute|].
    split; [|split; [by vm_compute|apply not_elem_of_empty]].
    exists "/tmp/v1", "bbbb0002".
    split; [apply list_elem_of_here|]. split; reflexivity.
  - by vm_compute.
Defined.

(** ** More on [generate_audio] *)

(** X2. No temporary file. When [tempfile] cannot create the file, because
    the directory is not writable or no candidate name is free,
    [generate_audio] shows the error and returns [None]; the provider is
    not called, no file appears and nothing is tracked. *)
Theorem generate_audio_without_temp_file
  (text : string) (model : TTS) (speaker language : option string)
  (speed : Q) (w : world) :
  tmp_writable (w_os w) = false
  ∨ pick_name (tmpdir (w_os w)) (rand_names (w_os w)) (disk w) = None ->
  exists e w',
    generate_audio text model speaker language speed w = (Return None, w') ∧
    w_ui w' = (w_ui w ++
                 [st_error ("Error generating audio: " +:+ exn_msg e)])%list ∧
    w_calls w' = w_calls w ∧ w_os w' = w_os w ∧ w_ss w' = w_ss w.
Proof.
  intros H.
  destruct (generate_audio_no_file text model speaker language speed w H)
    as [e He].
  exists e. eexists. split; [exact He|]. done.
Qed.

(** A read-only temporary directory. *)
Lemma generate_audio_without_temp_file_witness :
  exists w',
    generate_audio "Bonjour" model_ok None None 1%Q w_readonly
      = (Return None, w') ∧
    w_calls w' = [] ∧ disk w' = ∅.
Proof.
  destruct (generate_audio_without_temp_file "Bonjour" model_ok None None 1%Q
              w_readonly) as (e & w' & H1 & _ & H2 & H3 & _); [by left|].
  exists w'. split; [exact H1|]. split; [exact H2|].
  unfold disk. by rewrite H3.
Defined.

(** X3. Success. A [generate_audio] that returns a path has created
    exactly that file, under a name that was free, and has added
    exactly that path to the Tracking Set; every other file is as it
    was, nothing is shown on the page and the provider was called
    once. *)
Theorem generate_audio_success_registers
  (text : string) (model : TTS) (speaker language : option string)
  (speed : Q) (w w1 : world) (p : string) :
  generate_audio text model speaker language speed w = (Return (Some p), w1) ->
  disk w !! p = None ∧
  is_Some (disk w1 !! p) ∧
  (forall q, q ≠ p -> disk w1 !! q = disk w !! q) ∧
  tracking_set w1 = tracking_set w ∪ {[p]} ∧
  w_ui w1 = w_ui w ∧
  exists c, w_calls w1 = (w_calls w ++ [c])%list ∧ c_file_path c = p.
Proof.
  intros H.
  destruct (generate_audio_Some_inv _ _ _ _ _ _ _ _ H)
    as (rest & data & Hw & Hp & Hok & ->).
  destruct (pick_name_fresh _ _ _ _ _ Hp) as [Hfree _].
  split; [exact Hfree|]. split; [eexists; disk_lookup|].
  split; [intros q Hq; disk_lookup|].
  split; [done|]. split; [done|].
  eexists. split; [reflexivity|]. apply synthesis_call_fields.
Qed.

(** One synthesis in a directory that already holds a file. *)
Lemma generate_audio_success_registers_witness :
  exists w1,
    generate_audio "Bonjour" model_ok None None 1%Q w_orphan
      = (Return (Some artifact_path), w1) ∧
    tracking_set w1 = {[artifact_path]} ∧
    disk w1 !! orphan_path = disk w_orphan !! orphan_path.
Proof.
  eexists. split; [by vm_compute|].
  match goal with |- tracking_set ?w1 = _ ∧ _ =>
    destruct (generate_audio_success_registers "Bonjour" model_ok None None
                1%Q w_orphan w1 artifact_path) as (_ & _ & Hq & Ht & _)
  end; [by vm_compute|].
  split.
  - rewrite Ht. by vm_compute.
  - by apply Hq.
Defined.

(** X4. A speaker without a language. For a multilingual model called
    without a language, the provider is called without a speaker, even
    when the caller named one: lines 87-93 pass the speaker only
    together with a language. *)
Theorem speaker_dropped_without_language
  (text : string) (model : TTS) (speaker language : option string)
  (speed : Q) (w : world) (p : string) (rest : list string) :
  truthy_attr (languages model) = true ->
  truthy_str language = false ->
  tmp_writable (w_os w) = true ->
  pick_name (tmpdir (w_os w)) (rand_names (w_os w)) (disk w) = Some (p, rest) ->
  exists c,
    w_calls (generate_audio text model speaker language speed w).2
      = (w_calls w ++ [c])%list ∧
    c_speaker c = None.
Proof.
  intros Hml Hlang Hw Hp.
  exists (synthesis_call text model speaker language p speed).
  split; [by apply generate_audio_calls with rest|].
  unfold synthesis_call. rewrite Hml, Hlang.
  destruct (languages model); try discriminate.
  cbn. by rewrite andb_false_r.
Qed.

(** The multilingual model asked for "male-en-2" without a language. *)
Lemma speaker_dropped_without_language_witness :
  exists c,
    w_calls (generate_audio "Bonjour" model_ok (Some "male-en-2") None 1%Q
               w_clean).2 = [c] ∧
    c_speaker c = None.
Proof.
  destruct (speaker_dropped_without_language "Bonjour" model_ok
              (Some "male-en-2") None 1%Q w_clean artifact_path ["zz0042mm"])
    as (c & H1 & H2); [reflexivity|reflexivity|reflexivity|by vm_compute|].
  by exists c.
Defined.

(** X5. A single-language model. When the model has no languages, the
    provider never receives a language, whatever the caller passes; it
    receives the speaker exactly when one is named and the model has
    speakers. *)
Theorem single_language_model_keywords
  (text : string) (model : TTS) (speaker language : option string)
  (speed : Q) (w : world) (p : string) (rest : list string) :
  truthy_attr (languages model) = false ->
  tmp_writable (w_os w) = true ->
  pick_name (tmpdir (w_os w)) (rand_names (w_os w)) (disk w) = Some (p, rest) ->
  exists c,
    w_calls (generate_audio text model speaker language speed w).2
      = (w_calls w ++ [c])%list ∧
    c_language c = None ∧
    c_speaker c = (if truthy_str speaker && truthy_attr (speakers model)
                   then speaker else None).
Proof.
  intros Hml Hw Hp.
  exists (synthesis_call text model speaker language p speed).
  split; [by apply generate_audio_calls with rest|].
  unfold synthesis_call. rewrite Hml, andb_false_r.
  destruct (truthy_str speaker); cbn [andb]; [|done].
  destruct (speakers model) as [| |[|x l]]; done.
Qed.

(** A single-speaker French model asked for a speaker and a language:
    both are left out. *)
Lemma single_language_model_keywords_witness :
  exists c,
    w_calls (generate_audio "Bonjour" model_css10 (Some "female-en-5")
               (Some "fr-fr") 1%Q w_clean).2 = [c] ∧
    c_language c = None ∧ c_speaker c = None.
Proof.
  destruct (single_language_model_keywords "Bonjour" model_css10
              (Some "female-en-5") (Some "fr-fr") 1%Q w_clean artifact_path
              ["zz0042mm"])
    as (c & H1 & H2 & H3); [reflexivity|reflexivity|by vm_compute|].
  by exists c.
Defined.

(** ** From [generate_audio] to the sweep *)

Lemma pick_name_form dir cands files p rest :
  pick_name dir cands files = Some (p, rest) ->
  exists r, r ∈ cands ∧ p = os_path_join dir (artifact_name r).
Proof.
  revert p rest. induction cands as [|r cands IH]; intros p rest; [done|].
  cbn [pick_name]. fold (artifact_name r).
  destruct (files !! os_path_join dir (artifact_name r)).
  - intros H. destruct (IH _ _ H) as (r' & Hr & ->).
    exists r'. split; [by right|done].
  - intros [= <- <-]. exists r. split; [by left|done].
Qed.

(** X6. An artifact is within the sweep's reach. When the name of the
    temporary directory holds none of the characters that [glob]
    expands, a path returned by [generate_audio] is among the paths the
    pattern of [cleanup_orphaned_files] selects; so in any later state
    of the same temporary directory in which that file is still there,
    was last written more than an hour before and can be deleted, the
    sweep removes it. The random name parts are taken to contain no
    separator, as those of [tempfile] do. *)
Theorem abandoned_artifact_is_swept
  (text : string) (model : TTS) (speaker language : option string)
  (speed : Q) (w w1 w2 : world) (p : string) (f : file) :
  tmpdir (w_os w) ≠ "" ->
  has_magic (tmpdir (w_os w)) = false ->
  Forall (fun r => has_char "/" r = false) (rand_names (w_os w)) ->
  generate_audio text model speaker language speed w = (Return (Some p), w1) ->
  tmpdir (w_os w2) = tmpdir (w_os w) ->
  disk w2 !! p = Some f ->
  f_mtime f < now (w_os w2) - 3600 ->
  p ∉ locked (w_os w2) ->
  glob_selects (w_os w2) (orphan_pattern w2) p = true ∧
  disk (cleanup_orphaned_files w2).2 !! p = None.
Proof.
  intros Hd Hmagic Hr Hg Hd2 Hf Hold Hlock.
  destruct (generate_audio_Some_inv _ _ _ _ _ _ _ _ Hg)
    as (rest & data & _ & Hp & _ & _).
  destruct (pick_name_form _ _ _ _ _ Hp) as (r & Hin & ->).
  rewrite Forall_forall in Hr. specialize (Hr r Hin).
  assert (Hm : glob_selects (w_os w2) (orphan_pattern w2)
                 (os_path_join (tmpdir (w_os w)) (artifact_name r)) = true).
  { apply glob_selects_names; [by rewrite Hd2|by rewrite Hd2|].
    exists r. by rewrite Hd2. }
  split; [exact Hm|].
  rewrite cleanup_orphaned_files_run. cbn [snd]. rewrite sweep_fold_disk.
  rewrite bool_decide_eq_true_2.
  - unfold sweep_deletes. rewrite Hf.
    apply Z.ltb_lt in Hold. rewrite Hold.
    by rewrite bool_decide_eq_false_2.
  - apply list_elem_of_In, filter_In. split; [|done].
    apply list_elem_of_In, elem_of_elements, elem_of_dom. by exists f.
Qed.

(** An artifact the page never released, two hours on. *)
Lemma abandoned_artifact_is_swept_witness :
  disk (two_hours_later
          (generate_audio "Bonjour" model_ok None None 1%Q w_clean).2)
    !! artifact_path = Some (File five_thousand_bytes t_now) ∧
  disk (cleanup_orphaned_files
          (two_hours_later
             (generate_audio "Bonjour" model_ok None None 1%Q w_clean).2)).2
    !! artifact_path = None.
Proof.
  split; [by vm_compute|].
  apply (abandoned_artifact_is_swept "Bonjour" model_ok None None 1%Q w_clean
           (generate_audio "Bonjour" model_ok None None 1%Q w_clean).2
           (two_hours_later
              (generate_audio "Bonjour" model_ok None None 1%Q w_clean).2)
           artifact_path (File five_thousand_bytes t_now)).
  - done.
  - reflexivity.
  - repeat constructor.
  - by vm_compute.
  - reflexivity.
  - by vm_compute.
  - by vm_compute.
  - apply not_elem_of_empty.
Defined.

(** ** Running the cleanups again *)

Lemma foldl_fixed {A} (step : world -> A -> world) (l : list A) (w : world) :
  (forall x, x ∈ l -> step w x = w) -> foldl step w l = w.
Proof.
  induction l as [|x l IH]; intros H; [done|].
  change (foldl step w (x :: l)) with (foldl step (step w x) l).
  rewrite H by (by left). apply IH. intros y Hy. apply H. by right.
Qed.

Lemma cleanup_fold_locked l : forall w,
  locked (w_os (foldl cleanup_step w l)) = locked (w_os w).
Proof.
  induction l as [|p l IH]; intros w; [done|].
  change (foldl cleanup_step w (p :: l))
    with (foldl cleanup_step (cleanup_step w p) l).
  by rewrite IH, cleanup_step_locked.
Qed.

(** What a run of the finalizer's loop leaves is a fixed point of the
    loop. *)
Lemma cleanup_fold_again w :
  let w1 := foldl cleanup_step w (elements (tracking_set w)) in
  foldl cleanup_step w1 (elements (tracking_set w1)) = w1.
Proof.
  intros w1. apply foldl_fixed. intros p Hp. apply elem_of_elements in Hp.
  unfold w1 in Hp. apply cleanup_fold_tracked in Hp as (Ht & Hex).
  destruct Hex as [[f Hf] Hl]; [by apply elem_of_elements|].
  assert (Hd : disk w1 !! p = Some f).
  { unfold w1. rewrite cleanup_fold_disk.
    rewrite bool_decide_eq_false_2; [done|]. by intros [_ ?]. }
  assert (Hl1 : locked (w_os w1) = locked (w_os w))
    by apply cleanup_fold_locked.
  unfold cleanup_step. rewrite Hd, Hl1.
  by rewrite bool_decide_eq_true_2.
Qed.

(** X7. The finalizer, were it called from a script run. There the read
    of the Tracking Set succeeds, and the function visits every tracked
    path and never raises, whatever the deletions do. A tracked file is
    removed from disk unless its deletion fails. Afterwards the
    Tracking Set holds exactly the tracked paths whose file was there
    and could not be deleted, so it is empty when no deletion fails; a
    tracked path whose file is already gone is silently dropped, files
    that were not tracked are untouched, and a second call changes
    nothing. The script itself calls the function at interpreter exit
    only. *)
Theorem cleanup_temp_files_in_script_run (w : world) :
  exists w',
    cleanup_temp_files InScriptRun w = (Return tt, w') ∧
    (forall p, p ∈ tracking_set w' <->
               p ∈ tracking_set w ∧ is_Some (disk w !! p)
               ∧ p ∈ locked (w_os w)) ∧
    (forall p, disk w' !! p =
               if bool_decide (p ∈ tracking_set w ∧ p ∉ locked (w_os w))
               then None else disk w !! p) ∧
    (tracking_set w ∩ locked (w_os w) = ∅ -> tracking_set w' = ∅) ∧
    cleanup_temp_files InScriptRun w' = (Return tt, w').
Proof.
  eexists. split; [apply cleanup_temp_files_run|].
  assert (HT : forall p,
    p ∈ tracking_set (foldl cleanup_step w (elements (tracking_set w))) <->
    p ∈ tracking_set w ∧ is_Some (disk w !! p) ∧ p ∈ locked (w_os w)).
  { intros p. rewrite cleanup_fold_tracked, elem_of_elements. tauto. }
  split; [exact HT|]. split; [|split].
  - intros p. rewrite cleanup_fold_disk.
    destruct (decide (p ∈ tracking_set w ∧ p ∉ locked (w_os w))) as [H|H].
    + rewrite !bool_decide_eq_true_2; [done|done|].
      by rewrite elem_of_elements.
    + rewrite !bool_decide_eq_false_2; [done|done|].
      by rewrite elem_of_elements.
  - intros Hno. apply set_eq. intros p. rewrite HT. split.
    + intros (H1 & _ & H3). rewrite <- Hno. by apply elem_of_intersection.
    + intros H. by apply not_elem_of_empty in H.
  - rewrite cleanup_temp_files_run. f_equal. apply cleanup_fold_again.
Qed.

(** Two tracked artifacts, one already gone: nothing is raised, nothing
    stays on disk, nothing stays tracked. *)
Lemma cleanup_temp_files_in_script_run_witness :
  tracking_set w_two ∩ locked (w_os w_two) = ∅ ∧
  exists w', cleanup_temp_files InScriptRun w_two = (Return tt, w') ∧
             tracking_set w' = ∅.
Proof.
  assert (H : tracking_set w_two ∩ locked (w_os w_two) = ∅).
  { by vm_compute. }
  split; [exact H|].
  destruct (cleanup_temp_files_in_script_run w_two)
    as (w' & Hrun & _ & _ & Hempty & _).
  exists w'. split; [exact Hrun|]. apply Hempty, H.
Defined.

(** When the deletion of a tracked artifact fails, the call returns
    normally and the path is still tracked. *)
Lemma cleanup_temp_files_keeps_failed :
  (cleanup_temp_files InScriptRun w_stuck).1 = Return tt ∧
  tracking_set (cleanup_temp_files InScriptRun w_stuck).2 ≠ ∅.
Proof.
  split; [by vm_compute|].
  intros H.
  assert (E : elements (tracking_set
                          (cleanup_temp_files InScriptRun w_stuck).2)
              = [artifact_path]) by (by vm_compute).
  rewrite H, elements_empty in E. discriminate.
Qed.

Lemma sweep_fold_now l : forall w,
  now (w_os (foldl sweep_step w l)) = now (w_os w) ∧
  locked (w_os (foldl sweep_step w l)) = locked (w_os w) ∧
  tmpdir (w_os (foldl sweep_step w l)) = tmpdir (w_os w).
Proof. intros w. by rewrite sweep_fold_os. Qed.

(** X8. The sweep is idempotent. Right after one run of
    [cleanup_orphaned_files], a second run changes nothing: every
    matching file still there is too young or cannot be deleted. *)
Theorem cleanup_orphaned_files_twice (w : world) :
  cleanup_orphaned_files (cleanup_orphaned_files w).2
  = (Return tt, (cleanup_orphaned_files w).2).
Proof.
  rewrite (cleanup_orphaned_files_run w). cbn [snd].
  set (l := List.filter (glob_selects (w_os w) (orphan_pattern w))
              (elements (dom (disk w)))).
  set (w1 := foldl sweep_step w l).
  rewrite (cleanup_orphaned_files_run w1). f_equal.
  apply foldl_fixed. intros p Hp.
  apply list_elem_of_In, filter_In in Hp as [Hp Hg].
  apply list_elem_of_In, elem_of_elements, elem_of_dom in Hp as [f Hf].
  assert (Hpat : glob_selects (w_os w1) (orphan_pattern w1) p
                 = glob_selects (w_os w) (orphan_pattern w) p).
  { unfold orphan_pattern, w1. by rewrite sweep_fold_os. }
  rewrite Hpat in Hg.
  unfold w1 in Hf. rewrite sweep_fold_disk in Hf.
  destruct (bool_decide (p ∈ l) && sweep_deletes w p) eqn:E; [done|].
  assert (Hin : p ∈ l).
  { apply list_elem_of_In, filter_In. split; [|done].
    apply list_elem_of_In, elem_of_elements, elem_of_dom. by exists f. }
  rewrite (bool_decide_eq_true_2 _ Hin) in E. cbn [andb] in E.
  unfold sweep_step.
  assert (Hsame : sweep_deletes w1 p = sweep_deletes w p).
  { unfold sweep_deletes, w1.
    destruct (sweep_fold_now l w) as (-> & -> & _).
    rewrite sweep_fold_disk, (bool_decide_eq_true_2 _ Hin), E. done. }
  by rewrite Hsame, E.
Qed.

(** ** What a run of the script keeps *)

Lemma run_keeps_refl w : run_keeps w w.
Proof.
  unfold run_keeps. repeat split; try done.
  - by exists []; rewrite app_nil_r.
  - by exists []; rewrite app_nil_r.
Qed.

Lemma run_keeps_trans w1 w2 w3 :
  run_keeps w1 w2 -> run_keeps w2 w3 -> run_keeps w1 w3.
Proof.
  unfold run_keeps.
  intros (A1 & A2 & A3 & A4 & A5 & A6 & A7 & A8 & A9 & [e1 A10] & [c1 A11])
         (B1 & B2 & B3 & B4 & B5 & B6 & B7 & B8 & B9 & [e2 B10] & [c2 B11]).
  repeat split; try congruence.
  - intros x Hx. by apply B8, A8.
  - auto.
  - exists (e1 ++ e2)%list. by rewrite B10, A10, <- app_assoc.
  - exists (c1 ++ c2)%list. by rewrite B11, A11, <- app_assoc.
Qed.

Lemma run_keeps_log_ui evs w : run_keeps w (log_ui evs w).
Proof.
  unfold run_keeps. repeat split; try done.
  - by exists evs.
  - by exists []; rewrite app_nil_r.
Qed.

Ltac run_keeps_tac :=
  unfold run_keeps, tracking_set; cbn;
  repeat split; try done;
  first [ by apply union_subseteq_l
        | by eexists
        | by (exists []; rewrite app_nil_r) ].

Lemma run_keeps_generate_audio text model speaker language speed w :
  run_keeps w (generate_audio text model speaker language speed w).2.
Proof.
  destruct (tmp_writable (w_os w)) eqn:Hw.
  2:{ destruct (generate_audio_no_file text model speaker language speed w)
        as [e ->]; [by left|]. apply run_keeps_log_ui. }
  destruct (pick_name (tmpdir (w_os w)) (rand_names (w_os w)) (disk w))
    as [[p rest]|] eqn:Hp.
  2:{ destruct (generate_audio_no_file text model speaker language speed w)
        as [e ->]; [by right|]. apply run_keeps_log_ui. }
  destruct (pick_name_fresh _ _ _ _ _ Hp) as [Hfree Hne].
  rewrite (generate_audio_after_create _ _ _ _ _ _ _ _ Hw Hp). cbv zeta.
  destruct (tts_to_file model _) as [d|e [d|]].
  - run_keeps_tac.
  - erewrite on_error_present; [|done|disk_lookup].
    cbn [w_os set_os log_call created locked set_fs set_rand_names].
    destruct (bool_decide _); run_keeps_tac.
  - rewrite on_error_absent by disk_lookup. run_keeps_tac.
Qed.

Lemma run_keeps_read_and_release p w :
  run_keeps w (read_and_release p w).2.
Proof.
  destruct (disk w !! p) as [f|] eqn:E.
  - rewrite (read_and_release_present _ _ _ E). cbv zeta.
    destruct (bool_decide _); run_keeps_tac.
  - rewrite (read_and_release_missing _ _ E). apply run_keeps_refl.
Qed.

Lemma run_keeps_main_reader model_path speaker i w :
  run_keeps w (main_reader model_path speaker i w).2.
Proof.
  destruct (tts_model (w_ss w)) as [model|] eqn:Hm.
  2:{ rewrite main_reader_no_model by done. apply run_keeps_refl. }
  destruct (strip_truthy (text_input i)) eqn:Ht.
  2:{ unfold main_reader, bind, get. rewrite Hm, Ht. apply run_keeps_refl. }
  rewrite (main_reader_run _ _ _ _ _ Hm Ht).
  pose proof (run_keeps_generate_audio (text_input i) model
                (reader_args model_path speaker).1
                (reader_args model_path speaker).2 (voice_speed i) w) as Hg.
  destruct (generate_audio _ _ _ _ _ w) as [[[p|]|e] w1]; cbn [snd] in Hg;
    [|done|done].
  destruct (truthy_str (Some p)); [|done].
  pose proof (run_keeps_read_and_release p w1) as Hr.
  destruct (read_and_release p w1) as [[b|e] w2]; cbn [snd] in *.
  - eapply run_keeps_trans; [exact Hg|].
    eapply run_keeps_trans; [exact Hr|apply run_keeps_log_ui].
  - by eapply run_keeps_trans.
Qed.

Lemma run_keeps_set_cache k x w :
  w_cache w !! k = None -> run_keeps w (set_cache k x w).
Proof.
  intros Hc. unfold run_keeps. repeat split; try done.
  - intros k' v Hv. unfold set_cache; cbn [w_cache].
    rewrite lookup_insert_ne; [done|]. congruence.
  - by exists []; rewrite app_nil_r.
  - by exists []; rewrite app_nil_r.
Qed.

Lemma run_keeps_set_model m p w : run_keeps w (set_ss (set_model m p) w).
Proof.
  unfold run_keeps. repeat split; try done.
  - by exists []; rewrite app_nil_r.
  - by exists []; rewrite app_nil_r.
Qed.

Lemma run_keeps_set_replay k evs w : run_keeps w (set_replay k evs w).
Proof.
  unfold run_keeps. repeat split; try done.
  - by exists []; rewrite app_nil_r.
  - by exists []; rewrite app_nil_r.
Qed.

Lemma run_keeps_main_autoload model_path w :
  run_keeps w (main_autoload model_path w).2.
Proof.
  unfold main_autoload, bind at 1, get.
  destruct (negb _ || _); cbn [when]; [|apply run_keeps_refl].
  unfold bind at 1. destruct (w_cache w !! model_path) as [v|] eqn:Hc.
  - rewrite (load_tts_model_hit _ _ _ Hc).
    destruct v; cbn [snd];
      (eapply run_keeps_trans; [apply run_keeps_log_ui|]);
      (eapply run_keeps_trans; [apply run_keeps_set_model|]);
      apply run_keeps_log_ui.
  - rewrite (load_tts_model_miss _ _ Hc).
    destruct (load_result (w_env w) model_path) as [[m|]|e]; cbn [snd].
    + eapply run_keeps_trans; [apply run_keeps_set_replay|].
      eapply run_keeps_trans; [by apply run_keeps_set_cache|].
      eapply run_keeps_trans; [apply run_keeps_set_model|].
      apply run_keeps_log_ui.
    + eapply run_keeps_trans; [apply run_keeps_set_replay|].
      eapply run_keeps_trans; [by apply run_keeps_set_cache|].
      eapply run_keeps_trans; [apply run_keeps_set_model|].
      apply run_keeps_log_ui.
    + eapply run_keeps_trans; [apply run_keeps_log_ui|].
      eapply run_keeps_trans; [apply run_keeps_set_replay|].
      eapply run_keeps_trans; [by apply run_keeps_set_cache|].
      eapply run_keeps_trans; [apply run_keeps_set_model|].
      apply run_keeps_log_ui.
Qed.

Lemma run_keeps_then_foot r : run_keeps r.2 (then_foot r).2.
Proof. destruct r as [[[]|e] w]; [apply run_keeps_log_ui|apply run_keeps_refl]. Qed.

Lemma run_keeps_main i w : run_keeps w (main i w).2.
Proof.
  destruct (voice_options !! selected_voice_idx i)
    as [[[label mp] sp]|] eqn:Hv.
  - rewrite (main_run _ _ _ _ _ Hv).
    destruct (main_head_part i w) as [evs ->].
    pose proof (run_keeps_main_autoload mp (log_ui evs w)) as Ha.
    destruct (main_autoload_frame mp (log_ui evs w)) as (w2 & Hrun & _).
    rewrite Hrun in Ha |- *. cbn [snd] in Ha.
    eapply run_keeps_trans; [apply run_keeps_log_ui|].
    eapply run_keeps_trans; [exact Ha|].
    eapply run_keeps_trans; [apply run_keeps_log_ui|].
    eapply run_keeps_trans; [apply run_keeps_main_reader|].
    apply run_keeps_then_foot.
  - destruct (main_no_row i w Hv) as [evs ->]. apply run_keeps_log_ui.
Qed.

(** X10. One more exit hook per run. Line 51 runs every time the script
    runs, so each run adds one more copy of the finalizer to the exit
    hooks, and nothing in [main] removes any. *)
Theorem script_run_registers_finalizer_again (i : inputs) (w : world) :
  w_atexit (app_script i w).2 = (w_atexit w ++ [Fn_cleanup_temp_files])%list.
Proof.
  unfold app_script, bind, atexit_register, modify.
  by destruct (run_keeps_main i (add_atexit Fn_cleanup_temp_files w))
    as (_ & -> & _).
Qed.

(** X11. The Tracking Set only grows. No run of the script removes a path
    from the Tracking Set, whatever happens to the file. *)
Theorem script_run_never_untracks (i : inputs) (w : world) (p : string) :
  p ∈ tracking_set w -> p ∈ tracking_set (app_script i w).2.
Proof.
  unfold app_script, bind, atexit_register, modify.
  destruct (run_keeps_main i (add_atexit Fn_cleanup_temp_files w))
    as (_ & _ & _ & _ & _ & _ & _ & Hsub & _).
  apply Hsub.
Qed.

(** A path tracked before a run that synthesises and releases another
    artifact. *)
Lemma script_run_never_untracks_witness :
  orphan_path ∈ tracking_set (app_script (in_bonjour 2) w_two).2.
Proof.
  apply script_run_never_untracks.
  apply elem_of_union. right. by apply elem_of_singleton.
Defined.

(** X12. Cached models stay. A run of the script never drops or replaces
    an object in the resource cache, so a model name that was loaded
    once keeps giving the same object on later loads. *)
Theorem script_run_keeps_cached_models
  (i : inputs) (w : world) (k : string) (v : option TTS) :
  w_cache w !! k = Some v ->
  w_cache (app_script i w).2 !! k = Some v ∧
  (load_tts_model k (app_script i w).2).1 = Return v.
Proof.
  intros Hc.
  assert (H : w_cache (app_script i w).2 !! k = Some v).
  { unfold app_script, bind, atexit_register, modify.
    destruct (run_keeps_main i (add_atexit Fn_cleanup_temp_files w))
      as (_ & _ & _ & _ & _ & _ & _ & _ & Hk & _).
    by apply Hk. }
  split; [exact H|]. by rewrite (load_tts_model_hit _ _ _ H).
Qed.

(** The provider is gone, the cached model is still served. *)
Lemma script_run_keeps_cached_models_witness :
  (load_attempt "tts_models/fr/css10/vits" w_cached).1
    = Raise (Exn "OSError" "model files not found") ∧
  (load_tts_model "tts_models/fr/css10/vits"
     (app_script in_idle w_cached).2).1 = Return (Some model_css10).
Proof.
  split; [reflexivity|].
  apply (script_run_keeps_cached_models in_idle w_cached
           "tts_models/fr/css10/vits" (Some model_css10)).
  reflexivity.
Defined.

(** ** The quiet parts of [main] *)

Lemma run_quiet_refl w : run_quiet w w.
Proof. done. Qed.

Lemma run_quiet_trans w1 w2 w3 :
  run_quiet w1 w2 -> run_quiet w2 w3 -> run_quiet w1 w3.
Proof.
  unfold run_quiet. intros (A1 & A2 & A3) (B1 & B2 & B3).
  repeat split; congruence.
Qed.

Lemma run_quiet_log_ui evs w : run_quiet w (log_ui evs w).
Proof. done. Qed.

Lemma run_quiet_main_autoload model_path w :
  exists w', main_autoload model_path w = (Return tt, w') ∧ run_quiet w w'.
Proof.
  unfold main_autoload, bind at 1, get.
  destruct (negb _ || _); cbn [when]; [|by eexists].
  unfold bind at 1. destruct (w_cache w !! model_path) as [v|] eqn:Hc.
  - rewrite (load_tts_model_hit _ _ _ Hc).
    destruct v; eexists; (split; [reflexivity|done]).
  - rewrite (load_tts_model_miss _ _ Hc).
    destruct (load_result (w_env w) model_path) as [[m|]|e];
      eexists; (split; [reflexivity|done]).
Qed.

(** The part of [main] before the reader always gets through, and
    quietly. *)
Lemma main_before_reader i w label model_path speaker :
  voice_options !! selected_voice_idx i = Some (label, model_path, speaker) ->
  exists w0,
    run_quiet w w0 ∧
    main i w = then_foot (main_reader model_path speaker i w0).
Proof.
  intros Hv. rewrite (main_run _ _ _ _ _ Hv).
  destruct (main_head_part i w) as [evs ->].
  destruct (run_quiet_main_autoload model_path (log_ui evs w))
    as (w2 & -> & Hq).
  eexists. split; [|reflexivity].
  eapply run_quiet_trans; [apply (run_quiet_log_ui evs)|].
  eapply run_quiet_trans; [exact Hq|]. apply run_quiet_log_ui.
Qed.

(** X13. Nothing to read. When the text is empty or only whitespace,
    [main] ends normally without calling the provider, without creating
    or removing a file and without touching the Tracking Set. *)
Theorem main_blank_text_is_idle
  (i : inputs) (w : world) (label model_path : string)
  (speaker : option string) :
  voice_options !! selected_voice_idx i = Some (label, model_path, speaker) ->
  strip_truthy (text_input i) = false ->
  exists w',
    main i w = (Return tt, w') ∧
    w_calls w' = w_calls w ∧ w_os w' = w_os w ∧
    tracking_set w' = tracking_set w.
Proof.
  intros Hv Ht.
  destruct (main_before_reader i w _ _ _ Hv) as (w0 & (H1 & H2 & H3) & ->).
  rewrite main_reader_blank by done.
  exists (log_ui page_foot w0). by split.
Qed.

(** Spaces and a newline typed, the test button pressed. *)
Lemma main_blank_text_is_idle_witness :
  exists w',
    main in_blank w_loaded = (Return tt, w') ∧
    w_calls w' = [] ∧ disk w' = ∅.
Proof.
  destruct (main_blank_text_is_idle in_blank w_loaded
              "👩 Sophie (Voix Féminine Naturelle)" your_tts
              (Some ("female-pt-4" +:+ nl)))
    as (w' & H1 & H2 & H3 & _); [reflexivity|reflexivity|].
  exists w'. split; [exact H1|]. split; [exact H2|].
  unfold disk. by rewrite H3.
Defined.

(** X14. At most one synthesis per run. A run of the script calls the
    provider at most once. *)
Theorem script_run_calls_provider_at_most_once (i : inputs) (w : world) :
  exists cs,
    w_calls (app_script i w).2 = (w_calls w ++ cs)%list ∧ (length cs <= 1)%nat.
Proof.
  unfold app_script, bind, atexit_register, modify.
  set (wa := add_atexit Fn_cleanup_temp_files w).
  change (w_calls w) with (w_calls wa).
  destruct (voice_options !! selected_voice_idx i)
    as [[[label mp] sp]|] eqn:Hv.
  2:{ exists []. destruct (main_no_row i wa Hv) as [evs ->].
      cbn. split; [by rewrite app_nil_r|lia]. }
  destruct (main_before_reader i wa _ _ _ Hv) as (w0 & (H1 & H2 & H3) & ->).
  rewrite <- H3.
  destruct (then_foot_frame (main_reader mp sp i w0)) as (-> & _).
  destruct (tts_model (w_ss w0)) as [model|] eqn:Hm.
  2:{ rewrite main_reader_no_model by done. exists [].
      split; [by rewrite app_nil_r|cbn; lia]. }
  destruct (strip_truthy (text_input i)) eqn:Ht.
  2:{ rewrite main_reader_blank by done. exists [].
      split; [by rewrite app_nil_r|cbn; lia]. }
  destruct (tmp_writable (w_os w0)) eqn:Hw;
    [destruct (pick_name (tmpdir (w_os w0)) (rand_names (w_os w0)) (disk w0))
       as [[p rest]|] eqn:Hp|].
  - eexists. split; [by eapply main_reader_calls|]. cbn; lia.
  - exists []. rewrite (main_reader_run _ _ _ _ _ Hm Ht).
    destruct (generate_audio_no_file (text_input i) model
                (reader_args mp sp).1 (reader_args mp sp).2 (voice_speed i) w0)
      as [e ->]; [by right|].
    split; [by rewrite app_nil_r|cbn; lia].
  - exists []. rewrite (main_reader_run _ _ _ _ _ Hm Ht).
    destruct (generate_audio_no_file (text_input i) model
                (reader_args mp sp).1 (reader_args mp sp).2 (voice_speed i) w0)
      as [e ->]; [by left|].
    split; [by rewrite app_nil_r|cbn; lia].
Qed.

(** ** [main] when the synthesis fails *)

Lemma test_button_events_no_media env :
  Forall (fun e => is_media e = false) (test_button_events env).
Proof.
  unfold test_button_events. constructor; [done|].
  apply Forall_map, Forall_forall. intros [k st] _.
  by destruct (str_in "Available" st).
Qed.

Lemma status_events_no_media i w :
  Forall (fun e => is_media e = false) (status_events i w).
Proof.
  unfold status_events, speed_caption.
  destruct (closest_speed (voice_speed i)) as [closest label].
  rewrite !Forall_app.
  destruct (tts_model (w_ss w)), (1000 <? py_len (text_input i))%nat,
           (SFleb _ _); repeat split; repeat constructor.
Qed.

Lemma page_foot_no_media : Forall (fun e => is_media e = false) page_foot.
Proof. repeat constructor. Qed.

(** X15. A failed synthesis does not stop the page. When the provider
    fails inside [main], [main] still ends normally: the synthesis
    error is shown where the audio would have been, followed by the
    help panel and the footer; no audio element was added, the Tracking
    Set is as before, and the partial file is gone when the system
    permits its deletion. *)
Theorem main_survives_synthesis_failure
  (i : inputs) (w : world) (label model_path : string)
  (speaker : option string) (model : TTS) (p : string) (rest : list string)
  (e : exn) (left_behind : option bytes) :
  voice_options !! selected_voice_idx i = Some (label, model_path, speaker) ->
  tts_model (w_ss w) = Some model ->
  last_model_path (w_ss w) = Some model_path ->
  strip_truthy (text_input i) = true ->
  tmp_writable (w_os w) = true ->
  pick_name (tmpdir (w_os w)) (rand_names (w_os w)) (disk w) = Some (p, rest) ->
  tts_to_file model
    (synthesis_call (text_input i) model (reader_args model_path speaker).1
       (reader_args model_path speaker).2 p (voice_speed i))
    = SynthErr e left_behind ->
  exists w' evs,
    main i w = (Return tt, w') ∧
    w_ui w' = (w_ui w ++ evs ++
                 st_error ("Error generating audio: " +:+ exn_msg e)
                 :: page_foot)%list ∧
    Forall (fun x => is_media x = false) (evs ++ page_foot) ∧
    tracking_set w' = tracking_set w ∧
    (p ∉ locked (w_os w) -> disk w' !! p = None).
Proof.
  intros Hv Hm Hl Ht Hw Hp He.
  rewrite (main_run _ _ _ _ _ Hv).
  assert (Hb : exists evs,
    when (test_button i) main_test_button (log_ui page_head w)
      = (Return tt, log_ui evs w) ∧
    Forall (fun x => is_media x = false) evs).
  { destruct (test_button i); cbn [when].
    - rewrite main_test_button_run, log_ui_log_ui.
      eexists. split; [reflexivity|]. apply Forall_app. split.
      + repeat constructor.
      + apply test_button_events_no_media.
    - exists page_head. split; [done|repeat constructor]. }
  destruct Hb as (evs & -> & Hevs).
  rewrite (main_autoload_skip _ _ model) by done.
  rewrite (main_reader_run _ _ _ _ model) by done.
  set (w0 := log_ui (status_events i (log_ui evs w)) (log_ui evs w)).
  destruct (generate_audio_failure_run (text_input i) model
              (reader_args model_path speaker).1
              (reader_args model_path speaker).2 (voice_speed i) w0 p rest e
              left_behind) as (w' & Hrun & Htr & Hui & Hdisk & _);
    [done|done|done|].
  rewrite Hrun. cbn [then_foot].
  exists (log_ui page_foot w'), (evs ++ status_events i (log_ui evs w))%list.
  split; [done|]. split.
  - cbn [w_ui log_ui]. rewrite Hui. unfold w0, log_ui; cbn [w_ui].
    by rewrite <- !app_assoc.
  - split; [rewrite !Forall_app; repeat split;
             [done|apply status_events_no_media|apply page_foot_no_media]|].
    split; [change (tracking_set (log_ui page_foot w'))
              with (tracking_set w'); by rewrite Htr|].
    intros Hlock. change (disk (log_ui page_foot w')) with (disk w').
    rewrite Hdisk. by rewrite bool_decide_eq_false_2.
Qed.

(** Sophie selected, "Bonjour" typed, the provider out of memory. *)
Lemma main_survives_synthesis_failure_witness :
  exists w',
    main (in_bonjour 2) w_loaded_failing = (Return tt, w') ∧
    st_error "Error generating audio: CUDA out of memory" ∈ w_ui w' ∧
    Forall (fun x => is_media x = false) (w_ui w') ∧
    tracking_set w' = ∅ ∧ disk w' !! artifact_path = None.
Proof.
  destruct (main_survives_synthesis_failure (in_bonjour 2) w_loaded_failing
              "👩 Sophie (Voix Féminine Naturelle)" your_tts
              (Some ("female-pt-4" +:+ nl)) model_failing artifact_path
              ["zz0042mm"] (Exn "RuntimeError" "CUDA out of memory")
              (Some [Byte.x52; Byte.x49]))
    as (w' & evs & H1 & H2 & H5 & H3 & H4);
    [reflexivity|reflexivity|reflexivity|reflexivity|reflexivity
    |by vm_compute|reflexivity|].
  exists w'. split; [exact H1|]. rewrite H2. split; [|split].
  - cbn [w_ui w_loaded_failing mk_world app]. find_in.
  - cbn [w_ui w_loaded_failing mk_world app].
    apply Forall_app in H5 as [Ha Hb].
    apply Forall_app. split; [exact Ha|]. by constructor.
  - split; [exact H3|]. apply H4, not_elem_of_empty.
Defined.

(** ** [test_voice_loading] and its button *)

(** X16. What the voice test reports. [test_voice_loading] changes nothing
    and reports, for each of the two French voices, "Available" when its
    model loads and otherwise the start of the exception's message; but
    a multilingual model that loads with a [speakers] attribute that is
    [None] is reported as an error too, because [len] fails on it.
    The speaker count is reported only for the multilingual model, and
    only when its speakers are a list. *)
Theorem test_voice_loading_report (w : world) :
  exists results,
    test_voice_loading w = (Return results, w) ∧
    dict_get css10_key results =
      Some (match TTS_init (w_env w) css10 with
            | Return _ => "✅ Available"
            | Raise e => error_status e
            end) ∧
    dict_get your_tts_key results =
      Some (match TTS_init (w_env w) your_tts with
            | Raise e => error_status e
            | Return t =>
                match speakers t with
                | AttrNone => error_status TypeError
                | _ => "✅ Available"
                end
            end) ∧
    dict_get speakers_key results =
      match TTS_init (w_env w) your_tts with
      | Return t =>
          match speakers t with
          | AttrList l => Some (speakers_status (length l))
          | _ => None
          end
      | Raise _ => None
      end.
Proof.
  eexists. split; [reflexivity|].
  unfold french_voices. cbn [fold_left test_one_voice].
  change "tts_models/fr/css10/vits" with css10.
  change "tts_models/multilingual/multi-dataset/your_tts" with your_tts.
  destruct (TTS_init (w_env w) css10) as [t1|e1];
    destruct (TTS_init (w_env w) your_tts) as [t2|e2];
    try destruct (speakers t2) as [| |l]; repeat split; reflexivity.
Qed.

(** The first character of a needle occurs wherever the needle does. *)
Lemma str_in_has_char c needle hay :
  str_in (String c needle) hay = true -> has_char c hay = true.
Proof.
  induction hay as [|d hay IH]; [done|].
  cbn [str_in has_char String.prefix].
  intros H. apply orb_true_iff in H as [H|H].
  - destruct (ascii_dec c d) as [->|Hne]; [|done].
    by rewrite Ascii.eqb_refl.
  - rewrite (IH H). apply orb_true_r.
Qed.

Lemma pretty_N_go_no_A x : forall s,
  has_char "A" s = false -> has_char "A" (pretty_N_go x s) = false.
Proof.
  induction (N.lt_wf_0 x) as [x _ IH]. intros s Hs.
  destruct (decide (x = 0)%N) as [->|Hx].
  - by rewrite pretty_N_go_0.
  - rewrite pretty_N_go_step by lia.
    apply IH; [apply N.div_lt; lia|].
    cbn [has_char]. rewrite Hs, orb_false_r.
    unfold pretty_N_char. by repeat case_match.
Qed.

Lemma pretty_nat_no_A (n : nat) : has_char "A" (pretty n) = false.
Proof.
  unfold pretty, pretty_nat, pretty, pretty_N.
  case_decide; [done|]. by apply pretty_N_go_no_A.
Qed.

(** A speaker count never reads as "Available". *)
Lemma speakers_status_not_Available n :
  str_in "Available" (speakers_status n) = false.
Proof.
  destruct (str_in "Available" (speakers_status n)) eqn:E; [|done].
  apply str_in_has_char in E. unfold speakers_status in E.
  rewrite !has_char_app, pretty_nat_no_A in E. done.
Qed.

(** X17. The speaker count is shown as an error. When the multilingual
    model loads and has a speaker list, the voice-test button shows the
    voice itself with [st.success] and its speaker count with
    [st.error]: the page tests for "Available" with a capital A, and
    the count line reads "... speakers available". *)
Theorem speaker_count_shown_as_error (w : world) (t : TTS) (l : list string) :
  TTS_init (w_env w) your_tts = Return t ->
  speakers t = AttrList l ->
  exists w',
    main_test_button w = (Return tt, w') ∧
    st_success ("✅ " +:+ your_tts_key) ∈ w_ui w' ∧
    st_error ("❌ " +:+ speakers_key +:+ ": "
              +:+ speakers_status (length l)) ∈ w_ui w'.
Proof.
  intros Hi Hs. rewrite main_test_button_run. eexists. split; [reflexivity|].
  unfold log_ui; cbn [w_ui]. unfold test_button_events, french_voices.
  cbn [fold_left test_one_voice].
  change "tts_models/multilingual/multi-dataset/your_tts" with your_tts.
  rewrite Hi, Hs.
  assert (Hy : str_in "your_tts" your_tts && hasattr (AttrList l) = true)
    by done.
  rewrite Hy.
  fold (speakers_status (length l)).
  pose proof (speakers_status_not_Available (length l)) as Hno.
  destruct (TTS_init (w_env w) "tts_models/fr/css10/vits") as [t1|e1].
  - change (str_in "your_tts" "tts_models/fr/css10/vits"
            && hasattr (speakers t1)) with false.
    cbv beta iota.
    match goal with |- context [map _ ?d] =>
      replace d with [(css10_key, "✅ Available");
                      (your_tts_key, "✅ Available");
                      (speakers_key, speakers_status (length l))]
        by reflexivity
    end.
    cbn [map]. cbv beta iota. rewrite Hno.
    split; apply elem_of_app; right.
    + do 2 right. left.
    + do 3 right. left.
  - match goal with |- context [map _ ?d] =>
      replace d with [(css10_key, error_status e1);
                      (your_tts_key, "✅ Available");
                      (speakers_key, speakers_status (length l))]
        by reflexivity
    end.
    cbn [map]. cbv beta iota. rewrite Hno.
    split; apply elem_of_app; right.
    + do 2 right. left.
    + do 3 right. left.
Qed.

(** The multilingual model with its six speakers. *)
Lemma speaker_count_shown_as_error_witness :
  exists w',
    main_test_button w_clean = (Return tt, w') ∧
    st_error ("❌ " +:+ speakers_key +:+ ": ✅ 6 speakers available")
      ∈ w_ui w'.
Proof.
  destruct (speaker_count_shown_as_error w_clean model_ok yourtts_speakers)
    as (w' & H1 & _ & H2); [reflexivity|reflexivity|].
  by exists w'.
Defined.

(** ** [load_all_models] *)

Lemma error_status_has_Error e : str_in "Error" (error_status e) = true.
Proof. reflexivity. Qed.

Lemma load_all_models_step_error voice status w :
  str_in "Error" status = true ->
  load_all_models_step (voice, status) w =
  (Return tt,
   log_ui [st_warning ("⚠️ " +:+ status)]
     (set_ss (set_available (dict_set voice status)) w)).
Proof.
  intros H. unfold load_all_models_step, bind, modify. by rewrite H.
Qed.

Lemma load_all_models_step_unpack voice status w a b c rest :
  str_in "Error" status = false ->
  str_split "_" voice = a :: b :: c :: rest ->
  load_all_models_step (voice, status) w =
  (Raise ValueError_too_many,
   set_ss (set_available (dict_set voice status)) w).
Proof.
  intros H Hs. unfold load_all_models_step, bind, modify. by rewrite H, Hs.
Qed.

(** The dict [test_voice_loading] builds, entry by entry. *)
Lemma test_results_cases env :
  fold_left (test_one_voice env) french_voices [] =
  let s1 := match TTS_init env css10 with
            | Return _ => "✅ Available"
            | Raise e => error_status e
            end in
  match TTS_init env your_tts with
  | Raise e => [(css10_key, s1); (your_tts_key, error_status e)]
  | Return t =>
      match speakers t with
      | AttrMissing => [(css10_key, s1); (your_tts_key, "✅ Available")]
      | AttrNone => [(css10_key, s1); (your_tts_key, error_status TypeError)]
      | AttrList l =>
          [(css10_key, s1); (your_tts_key, "✅ Available");
           (speakers_key, speakers_status (length l))]
      end
  end.
Proof.
  unfold french_voices. cbn [fold_left test_one_voice].
  change "tts_models/fr/css10/vits" with css10.
  change "tts_models/multilingual/multi-dataset/your_tts" with your_tts.
  destruct (TTS_init env css10) as [t1|e1];
    destruct (TTS_init env your_tts) as [t2|e2];
    try destruct (speakers t2) as [| |l]; reflexivity.
Qed.

Lemma load_all_models_body_run w :
  load_all_models_body w =
  match for_each (fold_left (test_one_voice (w_env w)) french_voices [])
          load_all_models_step w with
  | (Return _, w') =>
      (Return tt,
       log_ui [match tts_model (w_ss w') with
               | Some _ => st_success "All available models have been loaded."
               | None =>
                   st_error "No models could be loaded. Please check the logs."
               end] w')
  | (Raise e, w') => (Raise e, w')
  end.
Proof.
  unfold load_all_models_body, bind at 1, test_voice_loading, bind at 1,
    get, ret.
  unfold bind at 1.
  destruct (for_each _ load_all_models_step w) as [[[]|e] w']; [|done].
  unfold bind, get. by destruct (tts_model (w_ss w')).
Qed.

(** X18. [load_all_models] cannot load a model. Every key of the test
    results holds at least two underscores, so for the first voice that
    is reported as loaded the unpacking of [voice.split("_")] raises
    [ValueError], before [load_tts_model] is reached. The function
    returns normally only when no voice is reported as loaded. Either
    way the session's model, the resource cache, the files and the list
    of provider calls are as before. *)
Theorem load_all_models_never_loads (w : world) :
  (load_all_models_body w).1 =
    (if reported_available (w_env w)
     then Raise ValueError_too_many else Return tt) ∧
  tts_model (w_ss (load_all_models_body w).2) = tts_model (w_ss w) ∧
  last_model_path (w_ss (load_all_models_body w).2)
    = last_model_path (w_ss w) ∧
  w_cache (load_all_models_body w).2 = w_cache w ∧
  w_os (load_all_models_body w).2 = w_os w ∧
  w_calls (load_all_models_body w).2 = w_calls w.
Proof.
  rewrite load_all_models_body_run, test_results_cases.
  cbv zeta. unfold reported_available.
  assert (Hav : str_in "Error" "✅ Available" = false) by reflexivity.
  assert (Hk1 : str_split "_" css10_key
                = ["tts"; "models/fr/css10/vits"; "None"]) by reflexivity.
  assert (Hk2 : str_split "_" your_tts_key
                = ["tts"; "models/multilingual/multi-dataset/your";
                   "tts"; "fr-fr"]) by reflexivity.
  destruct (TTS_init (w_env w) css10) as [t1|e1].
  - (* the first voice loads: the first iteration raises *)
    assert (H : forall l,
      for_each ((css10_key, "✅ Available") :: l) load_all_models_step w =
      (Raise ValueError_too_many,
       set_ss (set_available (dict_set css10_key "✅ Available")) w)).
    { intros l. cbn [for_each]. unfold bind.
      by rewrite (load_all_models_step_unpack _ _ _ _ _ _ _ Hav Hk1). }
    destruct (TTS_init (w_env w) your_tts) as [t2|e2];
      [destruct (speakers t2)|]; rewrite H; by repeat split.
  - pose proof (error_status_has_Error e1) as He1.
    destruct (TTS_init (w_env w) your_tts) as [t2|e2];
      [destruct (speakers t2) as [| |l]|];
      cbn [for_each]; unfold bind at 1;
      rewrite (load_all_models_step_error _ _ _ He1); unfold bind at 1.
    + rewrite (load_all_models_step_unpack _ _ _ _ _ _ _ Hav Hk2).
      by repeat split.
    + rewrite (load_all_models_step_error _ _ _
                 (error_status_has_Error TypeError)).
      by repeat split.
    + rewrite (load_all_models_step_unpack _ _ _ _ _ _ _ Hav Hk2).
      by repeat split.
    + rewrite (load_all_models_step_error _ _ _ (error_status_has_Error e2)).
      by repeat split.
Qed.

(** ** A load that failed before *)

(** X20. A failed load is remembered. [load_tts_model] returns [None]
    after a failure, and that [None] is what the cache keeps: while it
    is there and no model is set, a run that selects this model ends
    with no model again, without calling the provider, whatever the
    provider would answer now. *)
Theorem failed_load_is_remembered
  (i : inputs) (w : world) (label model_path : string)
  (speaker : option string) :
  voice_options !! selected_voice_idx i = Some (label, model_path, speaker) ->
  tts_model (w_ss w) = None ->
  w_cache w !! model_path = Some None ->
  exists w',
    main i w = (Return tt, w') ∧
    tts_model (w_ss w') = None ∧
    st_error "❌ Failed to load model" ∈ w_ui w' ∧
    w_cache w' = w_cache w ∧ w_calls w' = w_calls w.
Proof.
  intros Hv Hm Hc. rewrite (main_run _ _ _ _ _ Hv).
  destruct (main_head_part i w) as [evs ->].
  assert (Ha : main_autoload model_path (log_ui evs w) =
               (Return tt,
                log_ui [st_error "❌ Failed to load model"]
                  (set_ss (set_model None (Some model_path))
                     (log_ui (replay_of (log_ui evs w) model_path)
                        (log_ui evs w))))).
  { unfold main_autoload, bind at 1, get. cbn [w_ss log_ui]. rewrite Hm.
    rewrite bool_decide_eq_false_2 by (by intros [? ?]).
    cbn [negb orb when]. unfold bind at 1.
    by rewrite (load_tts_model_hit _ _ None) by done. }
  rewrite Ha, main_reader_no_model by done.
  eexists. split; [reflexivity|]. split; [done|]. split; [|done].
  ui_mem.
Qed.

(** The French model failed to load earlier; the provider is fine now. *)
Lemma failed_load_is_remembered_witness :
  (load_attempt css10 w_failed_before).1 = Return (Some model_ok) ∧
  exists w',
    main in_idle w_failed_before = (Return tt, w') ∧
    tts_model (w_ss w') = None.
Proof.
  split; [reflexivity|].
  destruct (failed_load_is_remembered in_idle w_failed_before
              "👨 Pierre (Voix Masculine Claire)" css10 None)
    as (w' & H1 & H2 & _); [reflexivity|reflexivity|reflexivity|].
  by exists w'.
Defined.

(** ** [main] when the artifact cannot be deleted *)

(** X21. The deletion in [main] is not guarded. When the synthesis
    succeeds and the system refuses to delete the artifact, [main]
    raises the [PermissionError] of line 284 and the rest of the page
    is not drawn: the audio is already on the page, the file stays on
    disk and its path stays in the Tracking Set. *)
Theorem main_unlink_failure_propagates
  (i : inputs) (w : world) (label model_path : string)
  (speaker : option string) (model : TTS) (p : string) (rest : list string)
  (data : bytes) :
  voice_options !! selected_voice_idx i = Some (label, model_path, speaker) ->
  tts_model (w_ss w) = Some model ->
  last_model_path (w_ss w) = Some model_path ->
  strip_truthy (text_input i) = true ->
  tmp_writable (w_os w) = true ->
  pick_name (tmpdir (w_os w)) (rand_names (w_os w)) (disk w) = Some (p, rest) ->
  tts_to_file model
    (synthesis_call (text_input i) model (reader_args model_path speaker).1
       (reader_args model_path speaker).2 p (voice_speed i)) = SynthOk data ->
  p ∈ locked (w_os w) ->
  exists w',
    main i w = (Raise (PermissionError p), w') ∧
    st_audio data ∈ w_ui w' ∧
    disk w' !! p = Some (File data (now (w_os w))) ∧
    p ∈ tracking_set w'.
Proof.
  intros Hv Hm Hl Ht Hw Hp Hok Hlock.
  destruct (pick_name_fresh _ _ _ _ _ Hp) as [_ Hne].
  rewrite (main_run _ _ _ _ _ Hv).
  destruct (main_head_part i w) as [evs ->].
  rewrite (main_autoload_skip _ _ model) by done.
  rewrite (main_reader_run _ _ _ _ model) by done.
  rewrite (generate_audio_after_create _ _ _ _ _ _ p rest) by done.
  cbv zeta. rewrite Hok, (truthy_str_Some _ Hne).
  erewrite read_and_release_present by disk_lookup.
  cbv zeta.
  cbn [w_os set_ss set_os log_call created locked set_fs set_rand_names log_ui].
  rewrite bool_decide_eq_true_2 by done.
  eexists. split; [reflexivity|]. split; [|split].
  - ui_mem.
  - disk_lookup.
  - unfold tracking_set; cbn. apply elem_of_union. right.
    by apply elem_of_singleton.
Qed.

(** Sophie read aloud while the system holds on to the new file. *)
Lemma main_unlink_failure_propagates_witness :
  exists w',
    main (in_bonjour 2) w_loaded_stuck
      = (Raise (PermissionError artifact_path), w') ∧
    st_audio five_thousand_bytes ∈ w_ui w' ∧
    is_Some (disk w' !! artifact_path).
Proof.
  destruct (main_unlink_failure_propagates (in_bonjour 2) w_loaded_stuck
              "👩 Sophie (Voix Féminine Naturelle)" your_tts
              (Some ("female-pt-4" +:+ nl)) model_ok artifact_path
              ["zz0042mm"] five_thousand_bytes)
    as (w' & H1 & H2 & H3 & _);
    [reflexivity|reflexivity|reflexivity|reflexivity|reflexivity
    |by vm_compute|reflexivity|by vm_compute|].
  exists w'. split; [exact H1|]. split; [exact H2|]. by eexists.
Defined.

(** ** Switching to a model that loads *)

Lemma main_autoload_load_ok model_path w m :
  tts_model (w_ss w) = None ∨ last_model_path (w_ss w) ≠ Some model_path ->
  w_cache w !! model_path = None ->
  load_result (w_env w) model_path = Return (Some m) ->
  main_autoload model_path w =
  (Return tt,
   log_ui [st_success "✅ Model loaded successfully!"]
     (set_ss (set_model (Some m) (Some model_path))
        (set_cache model_path (Some m) (set_replay model_path [] w)))).
Proof.
  intros Hm Hc He. unfold main_autoload, bind at 1, get.
  assert (Hgo : negb (bool_decide (is_Some (tts_model (w_ss w))))
                || bool_decide (last_model_path (w_ss w) ≠ Some model_path)
                = true).
  { destruct Hm as [Hm|Hm].
    - rewrite Hm, bool_decide_eq_false_2 by (by intros [? ?]). done.
    - rewrite (bool_decide_eq_true_2 _ Hm). apply orb_true_r. }
  rewrite Hgo. cbn [when]. unfold bind at 1.
  rewrite (load_tts_model_miss _ _ Hc), He. reflexivity.
Qed.

(** Synthesis and release leave the session's model alone. *)
Lemma generate_audio_model text model speaker language speed w :
  tts_model (w_ss (generate_audio text model speaker language speed w).2)
    = tts_model (w_ss w) ∧
  last_model_path
    (w_ss (generate_audio text model speaker language speed w).2)
    = last_model_path (w_ss w).
Proof.
  destruct (tmp_writable (w_os w)) eqn:Hw.
  2:{ by destruct (generate_audio_no_file text model speaker language speed w)
        as [e ->]; [by left|]. }
  destruct (pick_name (tmpdir (w_os w)) (rand_names (w_os w)) (disk w))
    as [[p rest]|] eqn:Hp.
  2:{ by destruct (generate_audio_no_file text model speaker language speed w)
        as [e ->]; [by right|]. }
  destruct (pick_name_fresh _ _ _ _ _ Hp) as [Hfree Hne].
  rewrite (generate_audio_after_create _ _ _ _ _ _ _ _ Hw Hp). cbv zeta.
  destruct (tts_to_file model _) as [d|e [d|]].
  - done.
  - erewrite on_error_present; [|done|disk_lookup].
    cbn [w_os set_os log_call created locked set_fs set_rand_names].
    by destruct (bool_decide _).
  - by rewrite on_error_absent by disk_lookup.
Qed.

Lemma read_and_release_model p w :
  tts_model (w_ss (read_and_release p w).2) = tts_model (w_ss w) ∧
  last_model_path (w_ss (read_and_release p w).2) = last_model_path (w_ss w).
Proof.
  destruct (disk w !! p) as [f|] eqn:E.
  - rewrite (read_and_release_present _ _ _ E). cbv zeta.
    by destruct (bool_decide _).
  - by rewrite (read_and_release_missing _ _ E).
Qed.

Lemma main_reader_model model_path speaker i w :
  tts_model (w_ss (main_reader model_path speaker i w).2)
    = tts_model (w_ss w) ∧
  last_model_path (w_ss (main_reader model_path speaker i w).2)
    = last_model_path (w_ss w).
Proof.
  destruct (tts_model (w_ss w)) as [model|] eqn:Hm.
  2:{ rewrite main_reader_no_model by done. cbn [snd]. by rewrite Hm. }
  destruct (strip_truthy (text_input i)) eqn:Ht.
  2:{ assert (main_reader model_path speaker i w = (Return tt, w)) as ->
        by (unfold main_reader, bind, get; by rewrite Hm, Ht).
      cbn [snd]. by rewrite Hm. }
  rewrite (main_reader_run _ _ _ _ _ Hm Ht), <- Hm.
  pose proof (generate_audio_model (text_input i) model
                (reader_args model_path speaker).1
                (reader_args model_path speaker).2 (voice_speed i) w) as Hg.
  destruct (generate_audio _ _ _ _ _ w) as [[[p|]|e] w1]; cbn [snd] in Hg;
    [|done|done].
  destruct (truthy_str (Some p)); [|done].
  pose proof (read_and_release_model p w1) as Hr.
  destruct (read_and_release p w1) as [[b|e] w2]; cbn [snd] in *.
  - destruct Hg as [<- <-]. by destruct Hr as [<- <-].
  - destruct Hg as [<- <-]. by destruct Hr as [<- <-].
Qed.

(** X22. A voice switch installs the model. When no model is set or the
    selected row names another model than the last one, the model is
    not cached yet and the provider loads it, then after [main],
    whatever the text and however the synthesis goes, the loaded
    object is the session's model, the selected path is the last model
    path, the object is in the cache and the page says so. *)
Theorem voice_switch_installs_model
  (i : inputs) (w : world) (label model_path : string)
  (speaker : option string) (m : TTS) :
  voice_options !! selected_voice_idx i = Some (label, model_path, speaker) ->
  tts_model (w_ss w) = None ∨ last_model_path (w_ss w) ≠ Some model_path ->
  w_cache w !! model_path = None ->
  (load_attempt model_path w).1 = Return (Some m) ->
  tts_model (w_ss (main i w).2) = Some m ∧
  last_model_path (w_ss (main i w).2) = Some model_path ∧
  w_cache (main i w).2 !! model_path = Some (Some m) ∧
  st_success "✅ Model loaded successfully!" ∈ w_ui (main i w).2.
Proof.
  intros Hv Hm Hc He. rewrite load_attempt_result in He. cbn [fst] in He.
  rewrite (main_run _ _ _ _ _ Hv).
  destruct (main_head_part i w) as [evs ->].
  rewrite (main_autoload_load_ok _ _ m) by done.
  set (w2 := log_ui [st_success "✅ Model loaded successfully!"]
               (set_ss (set_model (Some m) (Some model_path))
                  (set_cache model_path (Some m)
                     (set_replay model_path [] (log_ui evs w))))).
  set (w3 := log_ui (status_events i w2) w2).
  destruct (then_foot_frame (main_reader model_path speaker i w3))
    as (_ & _ & -> & -> & _).
  destruct (main_reader_model model_path speaker i w3) as [-> ->].
  destruct (run_keeps_main_reader model_path speaker i w3)
    as (_ & _ & _ & _ & _ & _ & _ & _ & Hk & [evs' Hui] & _).
  destruct (run_keeps_then_foot (main_reader model_path speaker i w3))
    as (_ & _ & _ & _ & _ & _ & _ & _ & _ & [evs2 Hui2] & _).
  split; [done|]. split; [done|]. split.
  - apply Hk. unfold w3, w2, log_ui, set_ss, set_cache; cbn [w_cache].
    apply lookup_insert_eq.
  - rewrite Hui2, Hui. unfold w3, w2, log_ui; cbn [w_ui set_ss set_cache
      set_replay]. find_in.
Qed.

(** A new session selects Pierre: the French model is loaded and kept. *)
Lemma voice_switch_installs_model_witness :
  tts_model (w_ss (main in_idle w_css10).2) = Some model_css10 ∧
  last_model_path (w_ss (main in_idle w_css10).2) = Some css10.
Proof.
  destruct (voice_switch_installs_model in_idle w_css10
              "👨 Pierre (Voix Masculine Claire)" css10 None model_css10)
    as (H1 & H2 & _); [reflexivity|by left|reflexivity|reflexivity|].
  by split.
Defined.

(** ** From a run of the script to interpreter exit *)

(** X19. Exit after a run. After a run in which [main] synthesised,
    played and deleted an artifact, the path of the deleted file is in
    the Tracking Set, and the interpreter's exit does not take it out:
    the finalizer registered by the run raises before it reads the
    set. *)
Theorem exit_after_run_keeps_stale_path
  (i : inputs) (w : world) (label model_path : string)
  (speaker : option string) (model : TTS) (p : string) (rest : list string)
  (data : bytes) :
  voice_options !! selected_voice_idx i = Some (label, model_path, speaker) ->
  tts_model (w_ss w) = Some model ->
  last_model_path (w_ss w) = Some model_path ->
  strip_truthy (text_input i) = true ->
  tmp_writable (w_os w) = true ->
  pick_name (tmpdir (w_os w)) (rand_names (w_os w)) (disk w) = Some (p, rest) ->
  tts_to_file model
    (synthesis_call (text_input i) model (reader_args model_path speaker).1
       (reader_args model_path speaker).2 p (voice_speed i)) = SynthOk data ->
  p ∉ locked (w_os w) ->
  exists w' w'',
    app_script i w = (Return tt, w') ∧
    w_atexit w' = (w_atexit w ++ [Fn_cleanup_temp_files])%list ∧
    process_exit w' = (Return tt, w'') ∧
    disk w'' !! p = None ∧
    p ∈ tracking_set w''.
Proof.
  intros Hv Hm Hl Ht Hw Hp Hok Hlock.
  destruct (pick_name_fresh _ _ _ _ _ Hp) as [_ Hne].
  unfold app_script, bind, atexit_register, modify.
  set (wa := add_atexit Fn_cleanup_temp_files w).
  rewrite (main_run _ _ _ _ _ Hv).
  destruct (main_head_part i wa) as [evs ->].
  rewrite (main_autoload_skip _ _ model) by done.
  rewrite (main_reader_run _ _ _ _ model) by done.
  rewrite (generate_audio_after_create _ _ _ _ _ _ p rest) by done.
  cbv zeta. rewrite Hok, (truthy_str_Some _ Hne).
  erewrite read_and_release_present by disk_lookup.
  cbv zeta.
  cbn [w_os set_ss set_os log_call created locked set_fs set_rand_names log_ui
       wa add_atexit].
  rewrite bool_decide_eq_false_2 by done.
  eexists _, _. split; [reflexivity|]. split; [reflexivity|].
  split; [apply process_exit_run|]. split.
  - disk_lookup.
  - unfold tracking_set; cbn. apply elem_of_union. right.
    by apply elem_of_singleton.
Qed.

(** Sophie read aloud once, then the interpreter exits. *)
Lemma exit_after_run_keeps_stale_path_witness :
  exists w'',
    process_exit (app_script (in_bonjour 2) w_loaded).2 = (Return tt, w'') ∧
    disk w'' !! artifact_path = None ∧
    artifact_path ∈ tracking_set w''.
Proof.
  destruct (exit_after_run_keeps_stale_path (in_bonjour 2) w_loaded
              "👩 Sophie (Voix Féminine Naturelle)" your_tts
              (Some ("female-pt-4" +:+ nl)) model_ok artifact_path
              ["zz0042mm"] five_thousand_bytes)
    as (w' & w'' & H1 & _ & H2 & H3 & H4);
    [reflexivity|reflexivity|reflexivity|reflexivity|reflexivity
    |by vm_compute|reflexivity|apply not_elem_of_empty|].
  exists w''. rewrite H1. by repeat split.
Defined.

(** ** A failed load on later runs *)

(** X24. A failed load is shown again. When the load fails in one run,
    the cache keeps [None] together with the error element the call
    produced. A later run that selects the same model does not ask the
    provider, whatever it would answer now: the cached call is taken,
    its error is put on the page again, and the run ends with no
    model. *)
Theorem failed_load_is_shown_again
  (i i' : inputs) (w : world) (label label' model_path : string)
  (speaker speaker' : option string) (e : exn) (env' : provider_env) :
  voice_options !! selected_voice_idx i = Some (label, model_path, speaker) ->
  voice_options !! selected_voice_idx i'
    = Some (label', model_path, speaker') ->
  tts_model (w_ss w) = None ∨ last_model_path (w_ss w) ≠ Some model_path ->
  w_cache w !! model_path = None ->
  (load_attempt model_path w).1 = Raise e ->
  exists w1 w2 evs,
    main i w = (Return tt, w1) ∧
    w_cache w1 !! model_path = Some None ∧
    main i' (set_env env' w1) = (Return tt, w2) ∧
    w_ui w2 = (w_ui w1 ++ evs)%list ∧
    st_error ("Error loading model: " +:+ exn_msg e) ∈ evs ∧
    tts_model (w_ss w2) = None ∧
    w_cache w2 = w_cache w1 ∧
    w_calls w2 = w_calls w.
Proof.
  intros Hv Hv' Hm Hc He. rewrite load_attempt_result in He. cbn [fst] in He.
  rewrite (main_run _ _ _ _ _ Hv).
  destruct (main_head_part i w) as [evs ->].
  rewrite (main_autoload_fail _ _ e) by done.
  rewrite main_reader_no_model by done.
  cbn [then_foot].
  match goal with |- exists w1 _ _, (_, ?x) = _ ∧ _ => set (w1 := x) end.
  assert (Hc1 : w_cache w1 !! model_path = Some None).
  { unfold w1. cbn [w_cache log_ui set_ss set_cache]. apply lookup_insert_eq. }
  assert (Hr1 : replay_of w1 model_path
                = [st_error ("Error loading model: " +:+ exn_msg e)]).
  { unfold replay_of, w1. cbn [w_replay log_ui set_ss set_cache set_replay].
    by rewrite lookup_insert_eq. }
  assert (Hm1 : tts_model (w_ss w1) = None) by done.
  exists w1.
  rewrite (main_run _ _ _ _ _ Hv').
  destruct (main_head_part i' (set_env env' w1)) as [evs' ->].
  assert (Ha : main_autoload model_path (log_ui evs' (set_env env' w1)) =
               (Return tt,
                log_ui [st_error "❌ Failed to load model"]
                  (set_ss (set_model None (Some model_path))
                     (log_ui
                        [st_error ("Error loading model: " +:+ exn_msg e)]
                        (log_ui evs' (set_env env' w1)))))).
  { unfold main_autoload, bind at 1, get.
    cbn [w_ss log_ui set_env]. rewrite Hm1.
    rewrite bool_decide_eq_false_2 by (by intros [? ?]).
    cbn [negb orb when]. unfold bind at 1.
    rewrite (load_tts_model_hit _ _ None) by exact Hc1.
    change (replay_of (log_ui evs' (set_env env' w1)) model_path)
      with (replay_of w1 model_path).
    by rewrite Hr1. }
  rewrite Ha, main_reader_no_model by done.
  cbn [then_foot].
  eexists _, _. split; [reflexivity|]. split; [exact Hc1|].
  split; [reflexivity|].
  split; [cbn [w_ui log_ui set_ss set_env]; rewrite <- !app_assoc;
          reflexivity|].
  split; [find_in|]. by repeat split.
Qed.

(** The model files are missing in the first run and back in the
    second: the second run shows the old error and loads nothing. *)
Lemma failed_load_is_shown_again_witness :
  (load_attempt css10 (set_env env_css10 (main in_idle w_unavailable).2)).1
    = Return (Some model_css10) ∧
  exists w2 evs,
    main in_idle (set_env env_css10 (main in_idle w_unavailable).2)
      = (Return tt, w2) ∧
    w_ui w2 = (w_ui (main in_idle w_unavailable).2 ++ evs)%list ∧
    st_error "Error loading model: model files not found" ∈ evs ∧
    tts_model (w_ss w2) = None.
Proof.
  split; [reflexivity|].
  destruct (failed_load_is_shown_again in_idle in_idle w_unavailable
              "👨 Pierre (Voix Masculine Claire)"
              "👨 Pierre (Voix Masculine Claire)" css10 None None
              (Exn "OSError" "model files not found") env_css10)
    as (w1 & w2 & evs & H1 & _ & H2 & H3 & H4 & H5 & _);
    [reflexivity|reflexivity|by left|reflexivity|reflexivity|].
  rewrite H1. cbn [snd]. by exists w2, evs.
Defined.
